(** * Authorization and audit core of the auto-ecole backend

    A shallow embedding of the NestJS services and guards that decide who may
    touch which student record:

    - [RolesGuard.canActivate], [TenantGuard.canActivate] and the guards,
      roles and handlers of [StudentsController] and [AuthController]
      (apps/backend/src/auth/guards, student.controller.ts, auth.controller.ts);
    - [JwtStrategy.validate], [AuthService.validateUser] and [AuthService.login];
    - [StudentsService] ([findAll], [findOne], [update], [archive], [restore],
      [getRemainingMinutes], [addPurchasedMinutes], [addUsedMinutes]);
    - [AuditService] ([log], [getLogs], [getLogsForEntity], [getLogsForUser]).

    Not embedded: [StudentsService.create] and [remove], [AuthService.register]
    and [getMe] (generated identifiers, password hashing, tables and foreign
    keys that the sources at hand do not show).

    The database behind Prisma is a record of finite maps (one per table; the
    key a row is stored under is its primary key [id]); an [async] method is a function from the state of the
    world to an outcome (resolved or rejected) and the next state. *)

From Stdlib Require Import ZArith Lia.
From stdpp Require Import base strings gmap list fin_maps sorting pretty.

Local Open Scope Z_scope.

(** ** Enumerations (shared/enums/role.enum.ts and the Prisma enums) *)

Inductive Role := ADMIN | SECRETARY | INSTRUCTOR | STUDENT.

#[global] Instance Role_eq_dec : EqDecision Role.
Proof. solve_decision. Defined.

Module LicenseType.
Inductive t := B | AAC | CS | A1 | A2.
End LicenseType.

Module StudentStatus.
Inductive t :=
  PROSPECT | ANTS_PROCESSING | ACTIVE | EXAM_READY | LICENSE_OBTAINED | ARCHIVED.
End StudentStatus.

(** audit/enums/audit-action.enum.ts: the enum's values are its names. *)
Module AuditAction.
Definition STUDENT_UPDATED : string := "STUDENT_UPDATED".
Definition STUDENT_ARCHIVED : string := "STUDENT_ARCHIVED".
Definition STUDENT_HOURS_UPDATED : string := "STUDENT_HOURS_UPDATED".
End AuditAction.

(** A JavaScript [Date]: [Instant t] is the date that [new Date(t)] builds
    from the text [t].  The clock and the stamps the store sets are given by
    their [toISOString] text, which orders them. *)
Inductive DateTime := Instant (iso : string).

(** ** Values that a rejected promise carries

    Anything can be thrown in JavaScript; [AuditService.log] tells [Error]
    instances (which have a [message]) from other values. *)

Inductive ErrorClass :=
  | NotFoundException
  | ForbiddenException
  | ConflictException
  | UnauthorizedException
  | PrismaClientKnownRequestError (code : string)
  | PlainError.

Inductive Thrown :=
  | ErrorObject (cls : ErrorClass) (message : string)
  | NonError (value : string).

(** The HTTP status of the answer.  main.ts registers
    [useGlobalFilters(new PrismaExceptionFilter(), new AllExceptionsFilter())]:
    the filter registered last is asked first, and [AllExceptionsFilter]
    catches everything, so every exception is answered by it: an HTTP
    exception with its own status, anything else (the errors of Prisma
    included) with 500. *)
Definition httpStatus (e : Thrown) : Z :=
  match e with
  | ErrorObject UnauthorizedException _ => 401
  | ErrorObject ForbiddenException _ => 403
  | ErrorObject NotFoundException _ => 404
  | ErrorObject ConflictException _ => 409
  | _ => 500
  end.

(** The same, by name: 401 is an authentication error, 403 an authorization
    error. *)
Inductive ErrorKind :=
  | AuthenticationKind | AuthorizationKind | NotFoundKind | ConflictKind | OtherKind.

Definition errorKind (e : Thrown) : ErrorKind :=
  match httpStatus e with
  | 401 => AuthenticationKind
  | 403 => AuthorizationKind
  | 404 => NotFoundKind
  | 409 => ConflictKind
  | _ => OtherKind
  end.

(** ** Rows of the tables *)

Module User.
Record t := mk {
  id : string;
  email : string;
  password : string;
  role : Role;
  tenantId : string
}.
End User.

(** The [select: { id, email, role }] projection of a user. *)
Module UserSelect.
Record t := mk { id : string; email : string; role : Role }.
End UserSelect.

Module Student.
Record t := mk {
  id : string;
  userId : string;
  tenantId : string;
  birthName : string;
  firstName : string;
  birthDate : DateTime;
  birthCity : string;
  birthZipCode : option string;
  birthCountry : string;
  address : string;
  city : string;
  zipCode : string;
  phone : string;
  neph : option string;
  ePhotoCode : option string;
  hasIdCard : bool;
  hasProofOfAddress : bool;
  hasAssr2 : bool;
  hasJdcCertificate : bool;
  hasCensusCertificate : bool;
  needsMedicalOpinion : bool;
  hasMedicalOpinion : bool;
  licenseType : LicenseType.t;
  status : StudentStatus.t;
  minutesPurchased : Z;
  minutesUsed : Z;
  guardianName : option string;
  guardianPhone : option string;
  guardianEmail : option string;
  guardianRelation : option string;
  createdAt : DateTime;
  updatedAt : DateTime;
  archivedAt : option DateTime
}.
End Student.

(** A student row with [include: { user: { select: ... } }]. The user is
    absent only if the store breaks the foreign key of [userId]. *)
Module StudentWithUser.
Record t := mk { student : Student.t; user : option UserSelect.t }.
End StudentWithUser.

(** A JSON value of the audit metadata. *)
Inductive Json := JString (s : string) | JNumber (n : Z) | JStatus (s : StudentStatus.t).

(** audit.service.ts, [AuditLogData]. *)
Module AuditLogData.
Record t := mk {
  tenantId : string;
  actorUserId : string;
  action : string;
  entityType : string;
  entityId : string;
  metadata : option (list (string * Json))
}.
End AuditLogData.

(** A row of the AuditLog table. *)
Module AuditLog.
Record t := mk {
  tenantId : string;
  actorUserId : string;
  action : string;
  entityType : string;
  entityId : string;
  metadata : list (string * Json);
  createdAt : DateTime
}.
End AuditLog.

(** What the Nest [Logger] of [AuditService] has printed. *)
Inductive LogLine :=
  | LogInfo (type action entityType entityId tenantId actorUserId : string) (timestamp : DateTime)
  | LogError (message : string) (action entityType entityId : string).

(** ** The world: tables, the audit store's health, the logger, the clock *)

Record World := mkWorld {
  students : gmap string Student.t;
  users : gmap string User.t;
  auditLogs : list AuditLog.t;
  (** [Some e]: the audit table rejects an insert with [e] (store unavailable,
      serialization error, ...). *)
  auditCreateFault : option Thrown;
  loggerOutput : list LogLine;
  (** what [new Date()] reads *)
  clock : DateTime
}.

Definition with_students (f : gmap string Student.t → gmap string Student.t) (w : World) : World :=
  mkWorld (f (students w)) (users w) (auditLogs w) (auditCreateFault w) (loggerOutput w) (clock w).

Definition with_users (f : gmap string User.t → gmap string User.t) (w : World) : World :=
  mkWorld (students w) (f (users w)) (auditLogs w) (auditCreateFault w) (loggerOutput w) (clock w).

Definition with_auditLogs (f : list AuditLog.t → list AuditLog.t) (w : World) : World :=
  mkWorld (students w) (users w) (f (auditLogs w)) (auditCreateFault w) (loggerOutput w) (clock w).

Definition with_loggerOutput (f : list LogLine → list LogLine) (w : World) : World :=
  mkWorld (students w) (users w) (auditLogs w) (auditCreateFault w) (f (loggerOutput w)) (clock w).

(** ** Promises: state passing with rejection *)

Inductive Outcome (A : Type) :=
  | Resolved (a : A)
  | Rejected (e : Thrown).
Arguments Resolved {A} a.
Arguments Rejected {A} e.

Definition Promise (A : Type) : Type := World → Outcome A * World.

Definition resolve {A} (a : A) : Promise A := λ w, (Resolved a, w).

Definition throw {A} (e : Thrown) : Promise A := λ w, (Rejected e, w).

(** [await m] followed by [k]: a rejection of [m] skips [k], and the effects
    [m] had before rejecting stay. *)
Definition await {A C} (m : Promise A) (k : A → Promise C) : Promise C :=
  λ w, match m w with
       | (Resolved a, w') => k a w'
       | (Rejected e, w') => (Rejected e, w')
       end.

(** [try { m } catch (error) { h error }] *)
Definition tryCatch {A} (m : Promise A) (h : Thrown → Promise A) : Promise A :=
  λ w, match m w with
       | (Resolved a, w') => (Resolved a, w')
       | (Rejected e, w') => h e w'
       end.

Definition getWorld : Promise World := λ w, (Resolved w, w).

Definition modifyWorld (f : World → World) : Promise unit := λ w, (Resolved tt, f w).

Notation "'let!' x ':=' m 'in' k" := (await m (λ x, k))
  (at level 10, x name, m at level 100, k at level 200).
Notation "'do!' m 'in' k" := (await m (λ _, k))
  (at level 10, m at level 100, k at level 200).

(** ** The Prisma client over the world *)

Module StudentWhereUniqueInput.
(** The [where] argument of [student.findUnique], [update] and [delete]:
    conditions that are [None] are absent from the query. *)
Record t := mk {
  id : option string;
  neph : option string;
  tenantId : option string
}.
End StudentWhereUniqueInput.

(** An update of an integer column: [x] or [{ increment: x }]. *)
Inductive IntFieldUpdate := SetInt (x : Z) | Increment (x : Z).

Module StudentUpdateInput.
(** The [data] argument of [student.update]; [None] is [undefined], a column
    the update leaves alone. *)
Record t := mk {
  userId : option string;
  tenantId : option string;
  birthName : option string;
  firstName : option string;
  birthDate : option DateTime;
  birthCity : option string;
  birthZipCode : option string;
  birthCountry : option string;
  address : option string;
  city : option string;
  zipCode : option string;
  phone : option string;
  neph : option string;
  ePhotoCode : option string;
  hasIdCard : option bool;
  hasProofOfAddress : option bool;
  hasAssr2 : option bool;
  hasJdcCertificate : option bool;
  hasCensusCertificate : option bool;
  needsMedicalOpinion : option bool;
  hasMedicalOpinion : option bool;
  licenseType : option LicenseType.t;
  status : option StudentStatus.t;
  minutesPurchased : option IntFieldUpdate;
  minutesUsed : option IntFieldUpdate;
  guardianName : option string;
  guardianPhone : option string;
  guardianEmail : option string;
  guardianRelation : option string;
  (** [Some None] is an explicit [null] *)
  archivedAt : option (option DateTime)
}.

(** [{}] *)
Definition empty : t :=
  mk None None None None None None None None None None None None None None None
     None None None None None None None None None None None None None None None.

(** [{ ...d, status: v }] *)
Definition with_status (v : StudentStatus.t) (d : t) : t :=
  let '(mk a1 a2 a3 a4 a5 a6 a7 a8 a9 a10 a11 a12 a13 a14 a15
           a16 a17 a18 a19 a20 a21 a22 a23 a24 a25 a26 a27 a28 a29 a30) := d in
  mk a1 a2 a3 a4 a5 a6 a7 a8 a9 a10 a11 a12 a13 a14 a15
     a16 a17 a18 a19 a20 a21 a22 (Some v) a24 a25 a26 a27 a28 a29 a30.

(** [{ ...d, minutesPurchased: v }] *)
Definition with_minutesPurchased (v : IntFieldUpdate) (d : t) : t :=
  let '(mk a1 a2 a3 a4 a5 a6 a7 a8 a9 a10 a11 a12 a13 a14 a15
           a16 a17 a18 a19 a20 a21 a22 a23 a24 a25 a26 a27 a28 a29 a30) := d in
  mk a1 a2 a3 a4 a5 a6 a7 a8 a9 a10 a11 a12 a13 a14 a15
     a16 a17 a18 a19 a20 a21 a22 a23 (Some v) a25 a26 a27 a28 a29 a30.

(** [{ ...d, minutesUsed: v }] *)
Definition with_minutesUsed (v : IntFieldUpdate) (d : t) : t :=
  let '(mk a1 a2 a3 a4 a5 a6 a7 a8 a9 a10 a11 a12 a13 a14 a15
           a16 a17 a18 a19 a20 a21 a22 a23 a24 a25 a26 a27 a28 a29 a30) := d in
  mk a1 a2 a3 a4 a5 a6 a7 a8 a9 a10 a11 a12 a13 a14 a15
     a16 a17 a18 a19 a20 a21 a22 a23 a24 (Some v) a26 a27 a28 a29 a30.

(** [{ ...d, archivedAt: v }] *)
Definition with_archivedAt (v : option DateTime) (d : t) : t :=
  let '(mk a1 a2 a3 a4 a5 a6 a7 a8 a9 a10 a11 a12 a13 a14 a15
           a16 a17 a18 a19 a20 a21 a22 a23 a24 a25 a26 a27 a28 a29 a30) := d in
  mk a1 a2 a3 a4 a5 a6 a7 a8 a9 a10 a11 a12 a13 a14 a15
     a16 a17 a18 a19 a20 a21 a22 a23 a24 a25 a26 a27 a28 a29 (Some v).
End StudentUpdateInput.

Module StudentWhereInput.
(** The [where] argument of [student.findMany]; for [archivedAt],
    [Some None] is the condition [archivedAt: null]. *)
Record t := mk {
  tenantId : option string;
  archivedAt : option (option DateTime)
}.
End StudentWhereInput.

Module AuditLogWhereInput.
(** The [where] argument of [auditLog.findMany]. *)
Record t := mk {
  tenantId : option string;
  entityType : option string;
  entityId : option string;
  actorUserId : option string
}.
End AuditLogWhereInput.

(** An audit row with [include: { actor: { select: ... } }]. *)
Module AuditLogWithActor.
Record t := mk { log : AuditLog.t; actor : option UserSelect.t }.
End AuditLogWithActor.

#[global] Instance DateTime_eq_dec : EqDecision DateTime.
Proof. solve_decision. Defined.

Module Prisma.

(** [minutesPurchased] and [minutesUsed] are [INTEGER] columns
    (migration.sql): they hold the integers of the signed 32-bit range. *)
Definition int32 (x : Z) : bool :=
  (-2147483648 <=? x) && (x <=? 2147483647).

(** The value of an integer column after a write. *)
Definition applyInt (u : option IntFieldUpdate) (old : Z) : Z :=
  match u with
  | None => old
  | Some (SetInt x) => x
  | Some (Increment x) => old + x
  end.

(** Does the write fit the column?  The number given must fit, and so must
    the sum an [increment] computes. *)
Definition fitsInt (u : option IntFieldUpdate) (old : Z) : bool :=
  match u with
  | None => true
  | Some (SetInt x) => int32 x
  | Some (Increment x) => int32 x && int32 (old + x)
  end.

(** A nullable column written with a value, or left alone. *)
Definition applyNullable {A} (u : option A) (old : option A) : option A :=
  match u with
  | None => old
  | Some x => Some x
  end.

(** The row after [data] is written; [updatedAt] is @updatedAt. *)
Definition applyStudentData (d : StudentUpdateInput.t) (now : DateTime) (s : Student.t) : Student.t :=
  {| Student.id := Student.id s;
     Student.userId := default (Student.userId s) (StudentUpdateInput.userId d);
     Student.tenantId := default (Student.tenantId s) (StudentUpdateInput.tenantId d);
     Student.birthName := default (Student.birthName s) (StudentUpdateInput.birthName d);
     Student.firstName := default (Student.firstName s) (StudentUpdateInput.firstName d);
     Student.birthDate := default (Student.birthDate s) (StudentUpdateInput.birthDate d);
     Student.birthCity := default (Student.birthCity s) (StudentUpdateInput.birthCity d);
     Student.birthZipCode := applyNullable (StudentUpdateInput.birthZipCode d) (Student.birthZipCode s);
     Student.birthCountry := default (Student.birthCountry s) (StudentUpdateInput.birthCountry d);
     Student.address := default (Student.address s) (StudentUpdateInput.address d);
     Student.city := default (Student.city s) (StudentUpdateInput.city d);
     Student.zipCode := default (Student.zipCode s) (StudentUpdateInput.zipCode d);
     Student.phone := default (Student.phone s) (StudentUpdateInput.phone d);
     Student.neph := applyNullable (StudentUpdateInput.neph d) (Student.neph s);
     Student.ePhotoCode := applyNullable (StudentUpdateInput.ePhotoCode d) (Student.ePhotoCode s);
     Student.hasIdCard := default (Student.hasIdCard s) (StudentUpdateInput.hasIdCard d);
     Student.hasProofOfAddress := default (Student.hasProofOfAddress s) (StudentUpdateInput.hasProofOfAddress d);
     Student.hasAssr2 := default (Student.hasAssr2 s) (StudentUpdateInput.hasAssr2 d);
     Student.hasJdcCertificate := default (Student.hasJdcCertificate s) (StudentUpdateInput.hasJdcCertificate d);
     Student.hasCensusCertificate := default (Student.hasCensusCertificate s) (StudentUpdateInput.hasCensusCertificate d);
     Student.needsMedicalOpinion := default (Student.needsMedicalOpinion s) (StudentUpdateInput.needsMedicalOpinion d);
     Student.hasMedicalOpinion := default (Student.hasMedicalOpinion s) (StudentUpdateInput.hasMedicalOpinion d);
     Student.licenseType := default (Student.licenseType s) (StudentUpdateInput.licenseType d);
     Student.status := default (Student.status s) (StudentUpdateInput.status d);
     Student.minutesPurchased := applyInt (StudentUpdateInput.minutesPurchased d) (Student.minutesPurchased s);
     Student.minutesUsed := applyInt (StudentUpdateInput.minutesUsed d) (Student.minutesUsed s);
     Student.guardianName := applyNullable (StudentUpdateInput.guardianName d) (Student.guardianName s);
     Student.guardianPhone := applyNullable (StudentUpdateInput.guardianPhone d) (Student.guardianPhone s);
     Student.guardianEmail := applyNullable (StudentUpdateInput.guardianEmail d) (Student.guardianEmail s);
     Student.guardianRelation := applyNullable (StudentUpdateInput.guardianRelation d) (Student.guardianRelation s);
     Student.createdAt := Student.createdAt s;
     Student.updatedAt := now;
     Student.archivedAt := default (Student.archivedAt s) (StudentUpdateInput.archivedAt d) |}.

(** Does the row stored under primary key [k] satisfy every condition present
    in the query? *)
Definition matchesWhere (q : StudentWhereUniqueInput.t) (k : string) (s : Student.t) : bool :=
  match StudentWhereUniqueInput.id q with
  | Some i => bool_decide (k = i)
  | None => true
  end
  && match StudentWhereUniqueInput.neph q with
     | Some n => bool_decide (Student.neph s = Some n)
     | None => true
     end
  && match StudentWhereUniqueInput.tenantId q with
     | Some t => bool_decide (Student.tenantId s = t)
     | None => true
     end.

(** The row the store selects for a query, with its primary key: through the
    primary key when the query has one, by a scan of the table otherwise. *)
Definition selectStudent (q : StudentWhereUniqueInput.t) (tbl : gmap string Student.t)
    : option (string * Student.t) :=
  match StudentWhereUniqueInput.id q with
  | Some i =>
      match tbl !! i with
      | Some s => if matchesWhere q i s then Some (i, s) else None
      | None => None
      end
  | None => List.find (λ r, matchesWhere q r.1 r.2) (map_to_list tbl)
  end.

Definition selectUserByEmail (email : string) (tbl : gmap string User.t) : option User.t :=
  List.find (λ u, bool_decide (User.email u = email)) (map_to_list tbl).*2.

(** [include: { user: { select: { id, email, role } } }] *)
Definition includeUser (w : World) (s : Student.t) : StudentWithUser.t :=
  StudentWithUser.mk s
    ((λ u, UserSelect.mk (User.id u) (User.email u) (User.role u)) <$> users w !! Student.userId s).

(** [prisma.student.findUnique({ where })] *)
Definition student_findUnique (q : StudentWhereUniqueInput.t) : Promise (option Student.t) :=
  λ w, (Resolved (snd <$> selectStudent q (students w)), w).

(** [prisma.student.findUnique({ where, include: { user } })] *)
Definition student_findUnique_include (q : StudentWhereUniqueInput.t) : Promise (option StudentWithUser.t) :=
  λ w, (Resolved (includeUser w ∘ snd <$> selectStudent q (students w)), w).

Definition P2025 : Thrown :=
  ErrorObject (PrismaClientKnownRequestError "P2025") "Record to update not found.".

Definition P2002 : Thrown :=
  ErrorObject (PrismaClientKnownRequestError "P2002") "Unique constraint failed".

(** Would writing [neph] to the row under key [i] break the unique index on
    neph? *)
Definition nephTaken (tbl : gmap string Student.t) (i : string) (n : option string) : bool :=
  match n with
  | None => false
  | Some n =>
      bool_decide (Exists (λ r, Student.neph r.2 = Some n ∧ r.1 ≠ i) (map_to_list tbl))
  end.

Definition P2020 : Thrown :=
  ErrorObject (PrismaClientKnownRequestError "P2020") "Value out of range for the type".

(** Do the integers that [data] writes to the row fit their columns? *)
Definition fitsStudentData (d : StudentUpdateInput.t) (s : Student.t) : bool :=
  fitsInt (StudentUpdateInput.minutesPurchased d) (Student.minutesPurchased s)
  && fitsInt (StudentUpdateInput.minutesUsed d) (Student.minutesUsed s).

(** [prisma.student.update({ where, data })]: rejects when no row matches,
    when an integer written does not fit its column or when the unique index
    on neph would be broken; writes the row otherwise. *)
Definition student_update (q : StudentWhereUniqueInput.t) (d : StudentUpdateInput.t) : Promise Student.t :=
  λ w, match selectStudent q (students w) with
       | None => (Rejected P2025, w)
       | Some (k, s) =>
           if negb (fitsStudentData d s)
           then (Rejected P2020, w)
           else if nephTaken (students w) k (StudentUpdateInput.neph d)
           then (Rejected P2002, w)
           else
             let s' := applyStudentData d (clock w) s in
             (Resolved s', with_students (insert k s') w)
       end.

Definition student_update_include (q : StudentWhereUniqueInput.t) (d : StudentUpdateInput.t) : Promise StudentWithUser.t :=
  let! s := student_update q d in
  let! w := getWorld in
  resolve (includeUser w s).

(** [prisma.user.findUnique({ where: { id }, select: ... })] and
    [prisma.user.findUnique({ where: { email } })] *)
Definition user_findUnique_id (id : string) : Promise (option User.t) :=
  λ w, (Resolved (users w !! id), w).

Definition user_findUnique_email (email : string) : Promise (option User.t) :=
  λ w, (Resolved (selectUserByEmail email (users w)), w).

(** [prisma.user.update({ where: { id }, data: { email } })] *)
Definition user_update_email (id email : string) : Promise User.t :=
  λ w, match users w !! id with
       | None => (Rejected P2025, w)
       | Some u =>
           if bool_decide (Exists (λ r, User.email r.2 = email ∧ r.1 ≠ id) (map_to_list (users w)))
           then (Rejected P2002, w)
           else
             let u' := User.mk (User.id u) email (User.password u) (User.role u) (User.tenantId u) in
             (Resolved u', with_users (insert id u') w)
       end.

(** [prisma.auditLog.create({ data })]: one insert, or the store's fault. *)
Definition auditLog_create (tenantId actorUserId action entityType entityId : string)
    (metadata : list (string * Json)) : Promise AuditLog.t :=
  λ w, match auditCreateFault w with
       | Some e => (Rejected e, w)
       | None =>
           let row := AuditLog.mk tenantId actorUserId action entityType entityId metadata (clock w) in
           (Resolved row, with_auditLogs (λ l, l ++ [row]) w)
       end.

(** [orderBy: { createdAt: 'desc' }]. Timestamps are stored in the form
    of [toISOString] (fixed width, UTC), which orders as text: [x] may come
    before [y] in the answer when [y] is not later than [x]. *)
Definition newestFirst {A} (createdAt : A → DateTime) (x y : A) : Prop :=
  match createdAt x, createdAt y with
  | Instant tx, Instant ty => String.leb ty tx = true
  end.

#[global] Instance newestFirst_dec {A} (createdAt : A → DateTime) :
  RelDecision (newestFirst createdAt).
Proof.
  intros x y. unfold newestFirst.
  destruct (createdAt x), (createdAt y). apply _.
Defined.

Definition matchesStudentWhere (q : StudentWhereInput.t) (s : Student.t) : bool :=
  match StudentWhereInput.tenantId q with
  | Some t => bool_decide (Student.tenantId s = t)
  | None => true
  end
  && match StudentWhereInput.archivedAt q with
     | Some a => bool_decide (Student.archivedAt s = a)
     | None => true
     end.

(** [prisma.student.findMany({ where, include: { user }, orderBy: { createdAt: 'desc' } })] *)
Definition student_findMany (q : StudentWhereInput.t) : Promise (list StudentWithUser.t) :=
  λ w, (Resolved
          (includeUser w
             <$> merge_sort (newestFirst Student.createdAt)
                   (List.filter (matchesStudentWhere q) (map_to_list (students w)).*2)),
        w).

Definition matchesAuditLogWhere (q : AuditLogWhereInput.t) (l : AuditLog.t) : bool :=
  match AuditLogWhereInput.tenantId q with
  | Some t => bool_decide (AuditLog.tenantId l = t)
  | None => true
  end
  && match AuditLogWhereInput.entityType q with
     | Some t => bool_decide (AuditLog.entityType l = t)
     | None => true
     end
  && match AuditLogWhereInput.entityId q with
     | Some i => bool_decide (AuditLog.entityId l = i)
     | None => true
     end
  && match AuditLogWhereInput.actorUserId q with
     | Some a => bool_decide (AuditLog.actorUserId l = a)
     | None => true
     end.

(** [take]: the first [n] rows of the ordered answer, all of them without. *)
Definition takeRows {A} (take : option nat) (rows : list A) : list A :=
  match take with
  | Some n => firstn n rows
  | None => rows
  end.

(** [prisma.auditLog.findMany({ where, orderBy: { createdAt: 'desc' }, take })] *)
Definition auditLog_findMany (q : AuditLogWhereInput.t) (take : option nat)
    : Promise (list AuditLog.t) :=
  λ w, (Resolved
          (takeRows take
             (merge_sort (newestFirst AuditLog.createdAt)
                (List.filter (matchesAuditLogWhere q) (auditLogs w)))),
        w).

(** [include: { actor: { select: { id, email, role } } }] *)
Definition includeActor (w : World) (l : AuditLog.t) : AuditLogWithActor.t :=
  AuditLogWithActor.mk l
    ((λ u, UserSelect.mk (User.id u) (User.email u) (User.role u))
       <$> users w !! AuditLog.actorUserId l).

Definition auditLog_findMany_include (q : AuditLogWhereInput.t) (take : option nat)
    : Promise (list AuditLogWithActor.t) :=
  let! rows := auditLog_findMany q take in
  let! w := getWorld in
  resolve (includeActor w <$> rows).

End Prisma.

(** ** JavaScript odds and ends *)

(** [if (s)] on [string | undefined]: defined and not the empty string. *)
Definition truthy (s : option string) : bool :=
  match s with
  | Some s => bool_decide (s ≠ "")
  | None => false
  end.

(** [if (c) { body }] *)
Definition when (c : bool) (body : Promise unit) : Promise unit :=
  if c then body else resolve tt.

(** ** audit.service.ts *)

Module AuditService.

(** [error instanceof Error ? error.message : 'Unknown error'] *)
Definition errorMessage (error : Thrown) : string :=
  match error with
  | ErrorObject _ message => message
  | NonError _ => "Unknown error"
  end.

Definition logger_log (line : LogLine) : Promise unit :=
  modifyWorld (with_loggerOutput (λ out, out ++ [line])).

Definition logger_error (message action entityType entityId : string) : Promise unit :=
  modifyWorld (with_loggerOutput (λ out, out ++ [LogError message action entityType entityId])).

Definition log (data : AuditLogData.t) : Promise unit :=
  tryCatch
    (do! Prisma.auditLog_create
           (AuditLogData.tenantId data)
           (AuditLogData.actorUserId data)
           (AuditLogData.action data)
           (AuditLogData.entityType data)
           (AuditLogData.entityId data)
           (default [] (AuditLogData.metadata data)) in
     let! w := getWorld in
     logger_log
       (LogInfo "audit"
          (AuditLogData.action data)
          (AuditLogData.entityType data)
          (AuditLogData.entityId data)
          (AuditLogData.tenantId data)
          (AuditLogData.actorUserId data)
          (clock w)))
    (λ error,
       logger_error
         ("Failed to create audit log: " +:+ errorMessage error)
         (AuditLogData.action data)
         (AuditLogData.entityType data)
         (AuditLogData.entityId data)).

(** [getLogs(tenantId, limit = 100)], for a [limit] that is a natural
    number. *)
Definition getLogs (tenantId : string) (limit : nat) : Promise (list AuditLogWithActor.t) :=
  Prisma.auditLog_findMany_include
    {| AuditLogWhereInput.tenantId := Some tenantId;
       AuditLogWhereInput.entityType := None;
       AuditLogWhereInput.entityId := None;
       AuditLogWhereInput.actorUserId := None |}
    (Some limit).

Definition getLogsForEntity (tenantId entityType entityId : string)
    : Promise (list AuditLogWithActor.t) :=
  Prisma.auditLog_findMany_include
    {| AuditLogWhereInput.tenantId := Some tenantId;
       AuditLogWhereInput.entityType := Some entityType;
       AuditLogWhereInput.entityId := Some entityId;
       AuditLogWhereInput.actorUserId := None |}
    None.

Definition getLogsForUser (tenantId userId : string) : Promise (list AuditLog.t) :=
  Prisma.auditLog_findMany
    {| AuditLogWhereInput.tenantId := Some tenantId;
       AuditLogWhereInput.entityType := None;
       AuditLogWhereInput.entityId := None;
       AuditLogWhereInput.actorUserId := Some userId |}
    None.

End AuditService.

(** ** student/dto/update-student.dto.ts

    [PartialType(CreateStudentDto)] plus [archivedAt]: every field optional.
    The global [ValidationPipe] runs with [whitelist] and
    [forbidNonWhitelisted], so a body with any other property is refused
    before the controller is reached. *)

Module UpdateStudentDto.
Record t := mk {
  birthName : option string;
  firstName : option string;
  birthDate : option string;
  birthCity : option string;
  birthZipCode : option string;
  birthCountry : option string;
  address : option string;
  city : option string;
  zipCode : option string;
  phone : option string;
  email : option string;
  password : option string;
  neph : option string;
  ePhotoCode : option string;
  hasIdCard : option bool;
  hasProofOfAddress : option bool;
  hasAssr2 : option bool;
  hasJdcCertificate : option bool;
  hasCensusCertificate : option bool;
  needsMedicalOpinion : option bool;
  hasMedicalOpinion : option bool;
  licenseType : option LicenseType.t;
  status : option StudentStatus.t;
  minutesPurchased : option Z;
  guardianName : option string;
  guardianPhone : option string;
  guardianEmail : option string;
  guardianRelation : option string;
  (** [undefined], [null] ([Some None]) or a date string *)
  archivedAt : option (option string)
}.

(** [{}] *)
Definition empty : t :=
  mk None None None None None None None None None None None None None None None
     None None None None None None None None None None None None None None.
End UpdateStudentDto.

(** ** student.service.ts *)

Module StudentsService.

Definition byId (id : string) : StudentWhereUniqueInput.t :=
  {| StudentWhereUniqueInput.id := Some id;
     StudentWhereUniqueInput.neph := None;
     StudentWhereUniqueInput.tenantId := None |}.

Definition byNeph (neph : string) : StudentWhereUniqueInput.t :=
  {| StudentWhereUniqueInput.id := None;
     StudentWhereUniqueInput.neph := Some neph;
     StudentWhereUniqueInput.tenantId := None |}.

(** The query that [findOne] sends: [where: { id }]. *)
Definition findOne_where (id : string) : StudentWhereUniqueInput.t := byId id.

Definition findOne (id tenantId : string) : Promise StudentWithUser.t :=
  let! student := Prisma.student_findUnique_include (findOne_where id) in
  match student with
  | None =>
      throw (ErrorObject NotFoundException ("Élève #" +:+ id +:+ " introuvable"))
  | Some student =>
      if bool_decide (Student.tenantId (StudentWithUser.student student) ≠ tenantId)
      then throw (ErrorObject ForbiddenException "Accès interdit à cette ressource")
      else resolve student
  end.

(** [studentData] of [update]: the DTO without [email], [password],
    [archivedAt], [birthDate] and [neph], then the three conditional
    assignments; [Instant t] is [new Date(t)]. *)
Definition studentData (dto : UpdateStudentDto.t) : StudentUpdateInput.t :=
  {| StudentUpdateInput.userId := None;
     StudentUpdateInput.tenantId := None;
     StudentUpdateInput.birthName := UpdateStudentDto.birthName dto;
     StudentUpdateInput.firstName := UpdateStudentDto.firstName dto;
     StudentUpdateInput.birthDate :=
       if truthy (UpdateStudentDto.birthDate dto)
       then Instant <$> UpdateStudentDto.birthDate dto
       else None;
     StudentUpdateInput.birthCity := UpdateStudentDto.birthCity dto;
     StudentUpdateInput.birthZipCode := UpdateStudentDto.birthZipCode dto;
     StudentUpdateInput.birthCountry := UpdateStudentDto.birthCountry dto;
     StudentUpdateInput.address := UpdateStudentDto.address dto;
     StudentUpdateInput.city := UpdateStudentDto.city dto;
     StudentUpdateInput.zipCode := UpdateStudentDto.zipCode dto;
     StudentUpdateInput.phone := UpdateStudentDto.phone dto;
     StudentUpdateInput.neph := UpdateStudentDto.neph dto;
     StudentUpdateInput.ePhotoCode := UpdateStudentDto.ePhotoCode dto;
     StudentUpdateInput.hasIdCard := UpdateStudentDto.hasIdCard dto;
     StudentUpdateInput.hasProofOfAddress := UpdateStudentDto.hasProofOfAddress dto;
     StudentUpdateInput.hasAssr2 := UpdateStudentDto.hasAssr2 dto;
     StudentUpdateInput.hasJdcCertificate := UpdateStudentDto.hasJdcCertificate dto;
     StudentUpdateInput.hasCensusCertificate := UpdateStudentDto.hasCensusCertificate dto;
     StudentUpdateInput.needsMedicalOpinion := UpdateStudentDto.needsMedicalOpinion dto;
     StudentUpdateInput.hasMedicalOpinion := UpdateStudentDto.hasMedicalOpinion dto;
     StudentUpdateInput.licenseType := UpdateStudentDto.licenseType dto;
     StudentUpdateInput.status := UpdateStudentDto.status dto;
     StudentUpdateInput.minutesPurchased := SetInt <$> UpdateStudentDto.minutesPurchased dto;
     StudentUpdateInput.minutesUsed := None;
     StudentUpdateInput.guardianName := UpdateStudentDto.guardianName dto;
     StudentUpdateInput.guardianPhone := UpdateStudentDto.guardianPhone dto;
     StudentUpdateInput.guardianEmail := UpdateStudentDto.guardianEmail dto;
     StudentUpdateInput.guardianRelation := UpdateStudentDto.guardianRelation dto;
     StudentUpdateInput.archivedAt :=
       match UpdateStudentDto.archivedAt dto with
       | None => None
       | Some archivedAt =>
           Some (if truthy archivedAt then Instant <$> archivedAt else None)
       end |}.

Definition update (id : string) (updateStudentDto : UpdateStudentDto.t) (tenantId : string)
    : Promise StudentWithUser.t :=
  do! findOne id tenantId in
  do! when (truthy (UpdateStudentDto.email updateStudentDto))
        (let email := default "" (UpdateStudentDto.email updateStudentDto) in
         let! student := Prisma.student_findUnique (byId id) in
         match student with
         | None =>
             throw (ErrorObject NotFoundException ("Élève #" +:+ id +:+ " introuvable"))
         | Some student =>
             let! existingUser := Prisma.user_findUnique_email email in
             do! when (match existingUser with
                       | Some existingUser =>
                           bool_decide (User.id existingUser ≠ Student.userId student)
                       | None => false
                       end)
                   (throw (ErrorObject ConflictException "Cet email est déjà utilisé.")) in
             do! Prisma.user_update_email (Student.userId student) email in
             resolve tt
         end) in
  let dto := updateStudentDto in
  do! when (truthy (UpdateStudentDto.neph dto))
        (let! existingNeph :=
           Prisma.student_findUnique (byNeph (default "" (UpdateStudentDto.neph dto))) in
         when (match existingNeph with
               | Some existingNeph => bool_decide (Student.id existingNeph ≠ id)
               | None => false
               end)
           (throw (ErrorObject ConflictException "Ce numéro NEPH est déjà utilisé."))) in
  Prisma.student_update_include (byId id) (studentData dto).

Definition studentName (student : Student.t) : string :=
  Student.firstName student +:+ " " +:+ Student.birthName student.

Definition archive (id tenantId actorUserId : string) : Promise Student.t :=
  let! student := findOne id tenantId in
  let student := StudentWithUser.student student in
  let! w := getWorld in
  let! archivedStudent :=
    Prisma.student_update (byId id)
      (StudentUpdateInput.with_status StudentStatus.ARCHIVED
         (StudentUpdateInput.with_archivedAt (Some (clock w)) StudentUpdateInput.empty)) in
  do! AuditService.log
        {| AuditLogData.tenantId := tenantId;
           AuditLogData.actorUserId := actorUserId;
           AuditLogData.action := AuditAction.STUDENT_ARCHIVED;
           AuditLogData.entityType := "Student";
           AuditLogData.entityId := id;
           AuditLogData.metadata :=
             Some [("studentName", JString (studentName student));
                   ("previousStatus", JStatus (Student.status student))] |} in
  resolve archivedStudent.

Definition restore (id tenantId actorUserId : string) : Promise Student.t :=
  let! student := findOne id tenantId in
  let student := StudentWithUser.student student in
  do! when (bool_decide (Student.archivedAt student = None))
        (throw (ErrorObject ConflictException "Cet élève n'est pas archivé")) in
  let! restoredStudent :=
    Prisma.student_update (byId id)
      (StudentUpdateInput.with_status StudentStatus.ACTIVE
         (StudentUpdateInput.with_archivedAt None StudentUpdateInput.empty)) in
  do! AuditService.log
        {| AuditLogData.tenantId := tenantId;
           AuditLogData.actorUserId := actorUserId;
           AuditLogData.action := AuditAction.STUDENT_UPDATED;
           AuditLogData.entityType := "Student";
           AuditLogData.entityId := id;
           AuditLogData.metadata :=
             Some [("studentName", JString (studentName student));
                   ("action", JString "RESTORED");
                   ("previousStatus", JStatus StudentStatus.ARCHIVED);
                   ("newStatus", JStatus StudentStatus.ACTIVE)] |} in
  resolve restoredStudent.

Definition getRemainingMinutes (id tenantId : string) : Promise Z :=
  let! student := findOne id tenantId in
  let student := StudentWithUser.student student in
  resolve (Student.minutesPurchased student - Student.minutesUsed student).

Definition addPurchasedMinutes (id : string) (minutes : Z) (tenantId actorUserId : string)
    : Promise Student.t :=
  let! student := findOne id tenantId in
  let student := StudentWithUser.student student in
  let! updatedStudent :=
    Prisma.student_update (byId id)
      (StudentUpdateInput.with_minutesPurchased (Increment minutes) StudentUpdateInput.empty) in
  do! AuditService.log
        {| AuditLogData.tenantId := tenantId;
           AuditLogData.actorUserId := actorUserId;
           AuditLogData.action := AuditAction.STUDENT_HOURS_UPDATED;
           AuditLogData.entityType := "Student";
           AuditLogData.entityId := id;
           AuditLogData.metadata :=
             Some [("studentName", JString (studentName student));
                   ("type", JString "PURCHASE");
                   ("minutesAdded", JNumber minutes);
                   ("previousMinutesPurchased", JNumber (Student.minutesPurchased student));
                   ("newMinutesPurchased", JNumber (Student.minutesPurchased student + minutes))] |} in
  resolve updatedStudent.

Definition addUsedMinutes (id : string) (minutes : Z) (tenantId actorUserId : string)
    : Promise Student.t :=
  let! student := findOne id tenantId in
  let student := StudentWithUser.student student in
  let newUsedMinutes := Student.minutesUsed student + minutes in
  if bool_decide (newUsedMinutes > Student.minutesPurchased student)
  then
    throw (ErrorObject ConflictException
             ("Heures insuffisantes. Disponibles: "
              +:+ pretty (Student.minutesPurchased student - Student.minutesUsed student)
              +:+ " min, Demandées: " +:+ pretty minutes +:+ " min"))
  else
    let! updatedStudent :=
      Prisma.student_update (byId id)
        (StudentUpdateInput.with_minutesUsed (SetInt newUsedMinutes) StudentUpdateInput.empty) in
    do! AuditService.log
          {| AuditLogData.tenantId := tenantId;
             AuditLogData.actorUserId := actorUserId;
             AuditLogData.action := AuditAction.STUDENT_HOURS_UPDATED;
             AuditLogData.entityType := "Student";
             AuditLogData.entityId := id;
             AuditLogData.metadata :=
               Some [("studentName", JString (studentName student));
                     ("type", JString "CONSUMPTION");
                     ("minutesUsed", JNumber minutes);
                     ("previousMinutesUsed", JNumber (Student.minutesUsed student));
                     ("newMinutesUsed", JNumber newUsedMinutes)] |} in
    resolve updatedStudent.

(** [findAll(tenantId, includeArchived = false)] *)
Definition findAll (tenantId : string) (includeArchived : bool)
    : Promise (list StudentWithUser.t) :=
  Prisma.student_findMany
    {| StudentWhereInput.tenantId := Some tenantId;
       StudentWhereInput.archivedAt := if includeArchived then None else Some None |}.

End StudentsService.

(** ** auth/auth.service.ts and auth/strategies/jwt.strategy.ts *)

(** The [select: { id, email, role, tenantId }] projection of a user. *)
Module ValidatedUser.
Record t := mk { id : string; email : string; role : Role; tenantId : string }.
End ValidatedUser.

Module AuthService.

Definition validateUser (userId : string) : Promise (option ValidatedUser.t) :=
  let! user := Prisma.user_findUnique_id userId in
  resolve ((λ u, ValidatedUser.mk (User.id u) (User.email u) (User.role u) (User.tenantId u))
             <$> user).

End AuthService.

Module JwtPayload.
Record t := mk {
  sub : string;
  tenantId : string;
  role : string;
  iat : option Z;
  exp : option Z
}.
End JwtPayload.

(** What [JwtStrategy.validate] returns and Passport stores in [req.user]. *)
Module Principal.
Record t := mk { userId : string; email : string; tenantId : string; role : Role }.
End Principal.

Module JwtStrategy.

Definition validate (payload : JwtPayload.t) : Promise Principal.t :=
  let! user := AuthService.validateUser (JwtPayload.sub payload) in
  match user with
  | None => throw (ErrorObject UnauthorizedException "Utilisateur invalide ou supprimé")
  | Some user =>
      resolve
        {| Principal.userId := ValidatedUser.id user;
           Principal.email := ValidatedUser.email user;
           Principal.tenantId := ValidatedUser.tenantId user;
           Principal.role := ValidatedUser.role user |}
  end.

End JwtStrategy.

(** ** auth/auth.service.ts: [login] and [generateToken]

    bcrypt and the JWT library are outside the repository: [login] is given
    for any password comparison and any signing function. *)

Module LoginDto.
Record t := mk { email : string; password : string }.
End LoginDto.

(** [{ access_token, user: { id, email, role, tenantId } }] *)
Module AuthResult.
Record t := mk { access_token : string; user : ValidatedUser.t }.
End AuthResult.

(** The value of a member of the role enum. *)
Definition roleValue (r : Role) : string :=
  match r with
  | ADMIN => "ADMIN"
  | SECRETARY => "SECRETARY"
  | INSTRUCTOR => "INSTRUCTOR"
  | STUDENT => "STUDENT"
  end.

Module AuthServiceSession.
Section WithLibraries.

(** [bcrypt.compare(password, hash)] *)
Variable bcrypt_compare : string → string → bool.
(** [jwtService.sign(payload)] *)
Variable sign : JwtPayload.t → string.

Definition generateToken (userId tenantId : string) (role : Role) : string :=
  let payload :=
    {| JwtPayload.sub := userId;
       JwtPayload.tenantId := tenantId;
       JwtPayload.role := roleValue role;
       JwtPayload.iat := None;
       JwtPayload.exp := None |} in
  sign payload.

Definition login (loginDto : LoginDto.t) : Promise AuthResult.t :=
  let email := LoginDto.email loginDto in
  let password := LoginDto.password loginDto in
  let! user := Prisma.user_findUnique_email email in
  match user with
  | None => throw (ErrorObject UnauthorizedException "Email ou mot de passe incorrect")
  | Some user =>
      let isPasswordValid := bcrypt_compare password (User.password user) in
      if negb isPasswordValid
      then throw (ErrorObject UnauthorizedException "Email ou mot de passe incorrect")
      else
        let token := generateToken (User.id user) (User.tenantId user) (User.role user) in
        resolve
          {| AuthResult.access_token := token;
             AuthResult.user :=
               {| ValidatedUser.id := User.id user;
                  ValidatedUser.email := User.email user;
                  ValidatedUser.role := User.role user;
                  ValidatedUser.tenantId := User.tenantId user |} |}
  end.

End WithLibraries.
End AuthServiceSession.

(** ** Requests and the execution context of a guard *)

(** The bearer credential of a request, after passport-jwt has looked at it
    with the configured secret: none, one that fails verification (malformed,
    wrong signature, expired), or one that verifies to a payload. *)
Inductive Credential :=
  | NoCredential
  | InvalidCredential
  | VerifiedCredential (payload : JwtPayload.t).

Module Request.
Record t := mk { credential : Credential; user : option Principal.t }.
End Request.

(** What a guard can see: the request and the [ROLES_KEY] metadata that
    [@Roles] put on the handler and on the controller class ([None]: no
    decorator; [@Roles()] with no argument stores [Some []]). *)
Module ExecutionContext.
Record t := mk {
  request : Request.t;
  handlerRoles : option (list Role);
  classRoles : option (list Role)
}.
End ExecutionContext.

(** [Reflector.getAllAndOverride]: the first target whose metadata is defined. *)
Fixpoint getAllAndOverride {A} (targets : list (option A)) : option A :=
  match targets with
  | [] => None
  | Some v :: _ => Some v
  | None :: rest => getAllAndOverride rest
  end.

Definition TypeError_role : Thrown :=
  ErrorObject PlainError "Cannot read properties of undefined (reading 'role')".

(** ** auth/guards/roles.guard.ts *)

Module RolesGuard.

Definition canActivate (context : ExecutionContext.t) : Outcome bool :=
  let requiredRoles :=
    getAllAndOverride [ExecutionContext.handlerRoles context; ExecutionContext.classRoles context] in
  match requiredRoles with
  | None => Resolved true
  | Some requiredRoles =>
      match Request.user (ExecutionContext.request context), requiredRoles with
      | Some user, _ =>
          Resolved (existsb (λ role, bool_decide (Principal.role user = role)) requiredRoles)
      | None, [] => Resolved false
      | None, _ :: _ => Rejected TypeError_role
      end
  end.

End RolesGuard.

(** ** auth/guards/tenant.guard.ts *)

Module TenantGuard.

Definition canActivate (context : ExecutionContext.t) : bool :=
  match Request.user (ExecutionContext.request context) with
  | Some user => bool_decide (Principal.tenantId user ≠ "")
  | None => false
  end.

End TenantGuard.

(** ** auth/guards/jwt-auth.guard.ts

    [AuthGuard('jwt')]: passport-jwt verifies the bearer credential, calls
    [JwtStrategy.validate] on the payload and stores its result in
    [req.user]; a missing or unverifiable credential is a 401. *)

Module JwtAuthGuard.

Definition canActivate (context : ExecutionContext.t) (w : World)
    : Outcome (bool * ExecutionContext.t) :=
  match Request.credential (ExecutionContext.request context) with
  | NoCredential | InvalidCredential =>
      Rejected (ErrorObject UnauthorizedException "Unauthorized")
  | VerifiedCredential payload =>
      match fst (JwtStrategy.validate payload w) with
      | Rejected e => Rejected e
      | Resolved user =>
          Resolved
            (true,
             ExecutionContext.mk
               (Request.mk (Request.credential (ExecutionContext.request context)) (Some user))
               (ExecutionContext.handlerRoles context)
               (ExecutionContext.classRoles context))
      end
  end.

End JwtAuthGuard.

(** ** The guards of a route, as Nest runs them *)

Inductive Guard := JwtAuthGuard_ | TenantGuard_ | RolesGuard_.

#[global] Instance Guard_eq_dec : EqDecision Guard.
Proof. solve_decision. Defined.

Definition guard_canActivate (g : Guard) (context : ExecutionContext.t) (w : World)
    : Outcome (bool * ExecutionContext.t) :=
  match g with
  | JwtAuthGuard_ => JwtAuthGuard.canActivate context w
  | TenantGuard_ => Resolved (TenantGuard.canActivate context, context)
  | RolesGuard_ =>
      match RolesGuard.canActivate context with
      | Resolved b => Resolved (b, context)
      | Rejected e => Rejected e
      end
  end.

(** A run of the guards of a route: the guards that were evaluated, in order,
    and the verdict (the context handed to the handler, or the exception). *)
Record GuardRun := mkGuardRun {
  evaluated : list Guard;
  verdict : Outcome ExecutionContext.t
}.

(** Nest's guards consumer: the guards of [@UseGuards(...)] one after the
    other; a guard that returns [false] is a [ForbiddenException], a guard
    that throws ends the run with what it threw. *)
Fixpoint tryActivate (guards : list Guard) (context : ExecutionContext.t) (w : World) : GuardRun :=
  match guards with
  | [] => mkGuardRun [] (Resolved context)
  | g :: rest =>
      match guard_canActivate g context w with
      | Resolved (true, context') =>
          let run := tryActivate rest context' w in
          mkGuardRun (g :: evaluated run) (verdict run)
      | Resolved (false, _) =>
          mkGuardRun [g] (Rejected (ErrorObject ForbiddenException "Forbidden resource"))
      | Rejected e => mkGuardRun [g] (Rejected e)
      end
  end.

(** ** student/student.controller.ts *)

Module StudentsController.

Inductive Handler :=
  | create | findAll | findOne | update | archive | restore | remove
  | getHours | addPurchasedHours | addUsedHours.

(** [@UseGuards(JwtAuthGuard, RolesGuard)] on the class. *)
Definition guards : list Guard := [JwtAuthGuard_; RolesGuard_].

(** [@Roles(Role.ADMIN, Role.SECRETARY)] on the class. *)
Definition classRoles : option (list Role) := Some [ADMIN; SECRETARY].

(** [@Roles(Role.ADMIN)] on [remove]; no other handler has its own. *)
Definition handlerRoles (h : Handler) : option (list Role) :=
  match h with
  | remove => Some [ADMIN]
  | _ => None
  end.

Definition context (h : Handler) (req : Request.t) : ExecutionContext.t :=
  ExecutionContext.mk req (handlerRoles h) classRoles.

(** The guards of the controller in front of handler [h]. *)
Definition activate (h : Handler) (req : Request.t) (w : World) : GuardRun :=
  tryActivate guards (context h req) w.

Definition TypeError_user : Thrown :=
  ErrorObject PlainError "Cannot read properties of undefined (reading 'tenantId')".

(** [@Get(':id')] *)
Definition findOne_handler (id : string) (req : Request.t) : Promise StudentWithUser.t :=
  match Request.user req with
  | Some user => StudentsService.findOne id (Principal.tenantId user)
  | None => throw TypeError_user
  end.

(** [@Post(':id/hours/use')]: [@Body('minutes') minutes: number] goes to the
    service as it came; no pipe validates it.  Here [minutes] is an integer:
    what the service does with a body value that is not one (a fraction, a
    string, no value at all) is not modelled. *)
Definition addUsedHours_handler (id : string) (minutes : Z) (req : Request.t) : Promise Student.t :=
  match Request.user req with
  | Some user =>
      StudentsService.addUsedMinutes id minutes (Principal.tenantId user) (Principal.userId user)
  | None => throw TypeError_user
  end.

(** [@Get()]: [@Query('includeArchived') includeArchived?: string] *)
Definition findAll_handler (req : Request.t) (includeArchived : option string)
    : Promise (list StudentWithUser.t) :=
  let includeArchivedBool := bool_decide (includeArchived = Some "true") in
  match Request.user req with
  | Some user => StudentsService.findAll (Principal.tenantId user) includeArchivedBool
  | None => throw TypeError_user
  end.

(** [@Put(':id')] *)
Definition update_handler (id : string) (updateStudentDto : UpdateStudentDto.t) (req : Request.t)
    : Promise StudentWithUser.t :=
  match Request.user req with
  | Some user => StudentsService.update id updateStudentDto (Principal.tenantId user)
  | None => throw TypeError_user
  end.

(** [@Post(':id/archive')] *)
Definition archive_handler (id : string) (req : Request.t) : Promise Student.t :=
  match Request.user req with
  | Some user => StudentsService.archive id (Principal.tenantId user) (Principal.userId user)
  | None => throw TypeError_user
  end.

(** [@Post(':id/restore')] *)
Definition restore_handler (id : string) (req : Request.t) : Promise Student.t :=
  match Request.user req with
  | Some user => StudentsService.restore id (Principal.tenantId user) (Principal.userId user)
  | None => throw TypeError_user
  end.

(** The answer of [GET /students/:id/hours]. *)
Record Hours := mkHours {
  minutesPurchased : Z;
  minutesUsed : Z;
  minutesRemaining : Z;
  hoursPurchased : Z;
  hoursUsed : Z;
  hoursRemaining : Z
}.

(** [@Get(':id/hours')]; [Math.floor(x / 60)] on an integer is the quotient
    rounded down. *)
Definition getHours_handler (id : string) (req : Request.t) : Promise Hours :=
  match Request.user req with
  | Some user =>
      let! remainingMinutes := StudentsService.getRemainingMinutes id (Principal.tenantId user) in
      let! student := StudentsService.findOne id (Principal.tenantId user) in
      let student := StudentWithUser.student student in
      resolve
        {| minutesPurchased := Student.minutesPurchased student;
           minutesUsed := Student.minutesUsed student;
           minutesRemaining := remainingMinutes;
           hoursPurchased := Student.minutesPurchased student / 60;
           hoursUsed := Student.minutesUsed student / 60;
           hoursRemaining := remainingMinutes / 60 |}
  | None => throw TypeError_user
  end.

(** [@Post(':id/hours/purchase')], with [minutes] as for [addUsedHours_handler]. *)
Definition addPurchasedHours_handler (id : string) (minutes : Z) (req : Request.t)
    : Promise Student.t :=
  match Request.user req with
  | Some user =>
      StudentsService.addPurchasedMinutes id minutes (Principal.tenantId user)
        (Principal.userId user)
  | None => throw TypeError_user
  end.

(** A route of the controller: the guards, then the handler on the request
    the guards hand over. The parameters of the handler are the values that
    came out of its pipes ([ParseUUIDPipe], the validation pipe). *)
Definition guarded {A} (h : Handler) (handler : Request.t → Promise A) (req : Request.t)
    : Promise A :=
  λ w, match verdict (activate h req w) with
       | Resolved context => handler (ExecutionContext.request context) w
       | Rejected e => (Rejected e, w)
       end.

End StudentsController.

(** ** auth/auth.controller.ts: the guards and roles of its routes, and the
    two probes of the role check *)

Module AuthController.

Inductive Handler := register | login | getMe | adminOnly | adminOrSecretary.

(** [@UseGuards(...)] of each handler; [register] and [login] have none. *)
Definition guards (h : Handler) : list Guard :=
  match h with
  | register | login => []
  | getMe => [JwtAuthGuard_]
  | adminOnly | adminOrSecretary => [JwtAuthGuard_; RolesGuard_]
  end.

(** [@Roles(...)] of each handler; the class has none. *)
Definition handlerRoles (h : Handler) : option (list Role) :=
  match h with
  | adminOnly => Some [ADMIN]
  | adminOrSecretary => Some [ADMIN; SECRETARY]
  | _ => None
  end.

Definition classRoles : option (list Role) := None.

Definition context (h : Handler) (req : Request.t) : ExecutionContext.t :=
  ExecutionContext.mk req (handlerRoles h) classRoles.

Definition activate (h : Handler) (req : Request.t) (w : World) : GuardRun :=
  tryActivate (guards h) (context h req) w.

(** [{ message, user: { id, email, role } }] *)
Record Probe := mkProbe { message : string; user : UserSelect.t }.

Definition TypeError_userId : Thrown :=
  ErrorObject PlainError "Cannot read properties of undefined (reading 'userId')".

(** [@Get('admin-only')] with [@CurrentUser() user] *)
Definition adminOnly_handler (req : Request.t) : Outcome Probe :=
  match Request.user req with
  | Some user =>
      Resolved
        {| message := "Route accessible uniquement par les ADMIN";
           user := UserSelect.mk (Principal.userId user) (Principal.email user)
                     (Principal.role user) |}
  | None => Rejected TypeError_userId
  end.

(** [@Get('admin-or-secretary')] *)
Definition adminOrSecretary_handler (req : Request.t) : Outcome Probe :=
  match Request.user req with
  | Some user =>
      Resolved
        {| message := "Route accessible par ADMIN et SECRETARY";
           user := UserSelect.mk (Principal.userId user) (Principal.email user)
                     (Principal.role user) |}
  | None => Rejected TypeError_userId
  end.

End AuthController.

(** ** A small database used by the examples

    Two driving schools: tenant-A (an admin, a secretary, an instructor and
    the student s1, who bought 1200 minutes and used 300) and tenant-B (the
    student s2). *)

Module Sample.

Definition student (id userId tenantId firstName birthName : string) (purchased used : Z)
    : Student.t :=
  {| Student.id := id;
     Student.userId := userId;
     Student.tenantId := tenantId;
     Student.birthName := birthName;
     Student.firstName := firstName;
     Student.birthDate := Instant "2005-03-14T00:00:00.000Z";
     Student.birthCity := "Lyon";
     Student.birthZipCode := Some "69001";
     Student.birthCountry := "FRANCE";
     Student.address := "1 rue de la Paix";
     Student.city := "Lyon";
     Student.zipCode := "69001";
     Student.phone := "+33612345678";
     Student.neph := None;
     Student.ePhotoCode := None;
     Student.hasIdCard := true;
     Student.hasProofOfAddress := false;
     Student.hasAssr2 := false;
     Student.hasJdcCertificate := false;
     Student.hasCensusCertificate := false;
     Student.needsMedicalOpinion := false;
     Student.hasMedicalOpinion := false;
     Student.licenseType := LicenseType.B;
     Student.status := StudentStatus.ACTIVE;
     Student.minutesPurchased := purchased;
     Student.minutesUsed := used;
     Student.guardianName := None;
     Student.guardianPhone := None;
     Student.guardianEmail := None;
     Student.guardianRelation := None;
     Student.createdAt := Instant "2026-01-05T09:00:00.000Z";
     Student.updatedAt := Instant "2026-01-05T09:00:00.000Z";
     Student.archivedAt := None |}.

Definition s1 : Student.t := student "s1" "u-s1" "tenant-A" "Julie" "Martin" 1200 300.
Definition s2 : Student.t := student "s2" "u-s2" "tenant-B" "Karim" "Benali" 600 0.

Definition admin : User.t := User.mk "u-admin" "admin@a.fr" "$2b$10$hash" ADMIN "tenant-A".
Definition secretary : User.t := User.mk "u-sec" "sec@a.fr" "$2b$10$hash" SECRETARY "tenant-A".
Definition instructor : User.t := User.mk "u-ins" "ins@a.fr" "$2b$10$hash" INSTRUCTOR "tenant-A".
Definition user_s1 : User.t := User.mk "u-s1" "julie@a.fr" "$2b$10$hash" STUDENT "tenant-A".
Definition user_s2 : User.t := User.mk "u-s2" "karim@b.fr" "$2b$10$hash" STUDENT "tenant-B".

Definition now : DateTime := Instant "2026-02-01T10:30:00.000Z".

Definition world : World :=
  {| students := <["s1" := s1]> (<["s2" := s2]> ∅);
     users :=
       <["u-admin" := admin]> (<["u-sec" := secretary]> (<["u-ins" := instructor]>
         (<["u-s1" := user_s1]> (<["u-s2" := user_s2]> ∅))));
     auditLogs := [];
     auditCreateFault := None;
     loggerOutput := [];
     clock := now |}.

(** The same database while the audit table refuses inserts. *)
Definition world_audit_down : World :=
  {| students := students world;
     users := users world;
     auditLogs := [];
     auditCreateFault := Some (ErrorObject PlainError "Database error");
     loggerOutput := [];
     clock := now |}.

(** An account whose tenant column is the empty string. *)
Definition ghost : User.t := User.mk "u-ghost" "ghost@nowhere.fr" "$2b$10$hash" ADMIN "".

Definition world_with_ghost : World :=
  with_users (insert "u-ghost" ghost) world.

Definition principal (u : User.t) : Principal.t :=
  Principal.mk (User.id u) (User.email u) (User.tenantId u) (User.role u).

Definition roleName (r : Role) : string :=
  match r with
  | ADMIN => "ADMIN"
  | SECRETARY => "SECRETARY"
  | INSTRUCTOR => "INSTRUCTOR"
  | STUDENT => "STUDENT"
  end.

Definition payload (u : User.t) : JwtPayload.t :=
  JwtPayload.mk (User.id u) (User.tenantId u) (roleName (User.role u))
    (Some 1769900000) (Some 1770504800).

(** A prospect of tenant-A who has not bought anything yet. *)
Definition s3 : Student.t :=
  {| Student.id := "s3";
     Student.userId := "u-s3";
     Student.tenantId := "tenant-A";
     Student.birthName := "Petit";
     Student.firstName := "Lina";
     Student.birthDate := Instant "2008-11-02T00:00:00.000Z";
     Student.birthCity := "Nantes";
     Student.birthZipCode := None;
     Student.birthCountry := "FRANCE";
     Student.address := "4 quai de la Fosse";
     Student.city := "Nantes";
     Student.zipCode := "44000";
     Student.phone := "+33698765432";
     Student.neph := Some "123456789012";
     Student.ePhotoCode := None;
     Student.hasIdCard := false;
     Student.hasProofOfAddress := false;
     Student.hasAssr2 := false;
     Student.hasJdcCertificate := false;
     Student.hasCensusCertificate := false;
     Student.needsMedicalOpinion := false;
     Student.hasMedicalOpinion := false;
     Student.licenseType := LicenseType.AAC;
     Student.status := StudentStatus.PROSPECT;
     Student.minutesPurchased := 0;
     Student.minutesUsed := 0;
     Student.guardianName := Some "Claire Petit";
     Student.guardianPhone := Some "+33611223344";
     Student.guardianEmail := None;
     Student.guardianRelation := Some "Mère";
     Student.createdAt := Instant "2026-01-20T14:00:00.000Z";
     Student.updatedAt := Instant "2026-01-20T14:00:00.000Z";
     Student.archivedAt := None |}.

Definition user_s3 : User.t := User.mk "u-s3" "lina@a.fr" "$2b$10$hash" STUDENT "tenant-A".

Definition world_with_prospect : World :=
  with_users (insert "u-s3" user_s3) (with_students (insert "s3" s3) world).

(** A sample body for [PUT /students/:id]. *)
Definition rename : UpdateStudentDto.t :=
  {| UpdateStudentDto.birthName := None;
     UpdateStudentDto.firstName := Some "Julia";
     UpdateStudentDto.birthDate := None;
     UpdateStudentDto.birthCity := None;
     UpdateStudentDto.birthZipCode := None;
     UpdateStudentDto.birthCountry := None;
     UpdateStudentDto.address := None;
     UpdateStudentDto.city := None;
     UpdateStudentDto.zipCode := None;
     UpdateStudentDto.phone := None;
     UpdateStudentDto.email := None;
     UpdateStudentDto.password := None;
     UpdateStudentDto.neph := None;
     UpdateStudentDto.ePhotoCode := None;
     UpdateStudentDto.hasIdCard := None;
     UpdateStudentDto.hasProofOfAddress := None;
     UpdateStudentDto.hasAssr2 := None;
     UpdateStudentDto.hasJdcCertificate := None;
     UpdateStudentDto.hasCensusCertificate := None;
     UpdateStudentDto.needsMedicalOpinion := None;
     UpdateStudentDto.hasMedicalOpinion := None;
     UpdateStudentDto.licenseType := None;
     UpdateStudentDto.status := None;
     UpdateStudentDto.minutesPurchased := Some 0;
     UpdateStudentDto.guardianName := None;
     UpdateStudentDto.guardianPhone := None;
     UpdateStudentDto.guardianEmail := None;
     UpdateStudentDto.guardianRelation := None;
     UpdateStudentDto.archivedAt := None |}.

(** A body for [PUT /students/:id] with a new email and a new password. *)
Definition new_credentials : UpdateStudentDto.t :=
  {| UpdateStudentDto.birthName := None;
     UpdateStudentDto.firstName := None;
     UpdateStudentDto.birthDate := None;
     UpdateStudentDto.birthCity := None;
     UpdateStudentDto.birthZipCode := None;
     UpdateStudentDto.birthCountry := None;
     UpdateStudentDto.address := None;
     UpdateStudentDto.city := None;
     UpdateStudentDto.zipCode := None;
     UpdateStudentDto.phone := None;
     UpdateStudentDto.email := Some "julie.martin@a.fr";
     UpdateStudentDto.password := Some "correct horse battery";
     UpdateStudentDto.neph := None;
     UpdateStudentDto.ePhotoCode := None;
     UpdateStudentDto.hasIdCard := None;
     UpdateStudentDto.hasProofOfAddress := None;
     UpdateStudentDto.hasAssr2 := None;
     UpdateStudentDto.hasJdcCertificate := None;
     UpdateStudentDto.hasCensusCertificate := None;
     UpdateStudentDto.needsMedicalOpinion := None;
     UpdateStudentDto.hasMedicalOpinion := None;
     UpdateStudentDto.licenseType := None;
     UpdateStudentDto.status := None;
     UpdateStudentDto.minutesPurchased := None;
     UpdateStudentDto.guardianName := None;
     UpdateStudentDto.guardianPhone := None;
     UpdateStudentDto.guardianEmail := None;
     UpdateStudentDto.guardianRelation := None;
     UpdateStudentDto.archivedAt := None |}.

(** A body that asks for the email of the secretary. *)
Definition email_of_the_secretary : UpdateStudentDto.t :=
  {| UpdateStudentDto.birthName := None;
     UpdateStudentDto.firstName := None;
     UpdateStudentDto.birthDate := None;
     UpdateStudentDto.birthCity := None;
     UpdateStudentDto.birthZipCode := None;
     UpdateStudentDto.birthCountry := None;
     UpdateStudentDto.address := None;
     UpdateStudentDto.city := None;
     UpdateStudentDto.zipCode := None;
     UpdateStudentDto.phone := None;
     UpdateStudentDto.email := Some "sec@a.fr";
     UpdateStudentDto.password := None;
     UpdateStudentDto.neph := None;
     UpdateStudentDto.ePhotoCode := None;
     UpdateStudentDto.hasIdCard := None;
     UpdateStudentDto.hasProofOfAddress := None;
     UpdateStudentDto.hasAssr2 := None;
     UpdateStudentDto.hasJdcCertificate := None;
     UpdateStudentDto.hasCensusCertificate := None;
     UpdateStudentDto.needsMedicalOpinion := None;
     UpdateStudentDto.hasMedicalOpinion := None;
     UpdateStudentDto.licenseType := None;
     UpdateStudentDto.status := None;
     UpdateStudentDto.minutesPurchased := None;
     UpdateStudentDto.guardianName := None;
     UpdateStudentDto.guardianPhone := None;
     UpdateStudentDto.guardianEmail := None;
     UpdateStudentDto.guardianRelation := None;
     UpdateStudentDto.archivedAt := None |}.

(** A body with a free email and the NEPH of s3. *)
Definition new_email_and_neph_of_s3 : UpdateStudentDto.t :=
  {| UpdateStudentDto.birthName := None;
     UpdateStudentDto.firstName := None;
     UpdateStudentDto.birthDate := None;
     UpdateStudentDto.birthCity := None;
     UpdateStudentDto.birthZipCode := None;
     UpdateStudentDto.birthCountry := None;
     UpdateStudentDto.address := None;
     UpdateStudentDto.city := None;
     UpdateStudentDto.zipCode := None;
     UpdateStudentDto.phone := None;
     UpdateStudentDto.email := Some "julie.martin@a.fr";
     UpdateStudentDto.password := None;
     UpdateStudentDto.neph := Some "123456789012";
     UpdateStudentDto.ePhotoCode := None;
     UpdateStudentDto.hasIdCard := None;
     UpdateStudentDto.hasProofOfAddress := None;
     UpdateStudentDto.hasAssr2 := None;
     UpdateStudentDto.hasJdcCertificate := None;
     UpdateStudentDto.hasCensusCertificate := None;
     UpdateStudentDto.needsMedicalOpinion := None;
     UpdateStudentDto.hasMedicalOpinion := None;
     UpdateStudentDto.licenseType := None;
     UpdateStudentDto.status := None;
     UpdateStudentDto.minutesPurchased := None;
     UpdateStudentDto.guardianName := None;
     UpdateStudentDto.guardianPhone := None;
     UpdateStudentDto.guardianEmail := None;
     UpdateStudentDto.guardianRelation := None;
     UpdateStudentDto.archivedAt := None |}.

(** s2 of tenant-B once archived, and an older student of tenant-A. *)
Definition s5 : Student.t :=
  student "9b2f6c1e-3d4a-4f8b-9c7d-1a2b3c4d5e6f" "u-s5" "tenant-A" "Hugo" "Roux" 1800 1800.

Definition s6_archived : Student.t :=
  Prisma.applyStudentData
    (StudentUpdateInput.with_status StudentStatus.ARCHIVED
       (StudentUpdateInput.with_archivedAt (Some (Instant "2026-01-25T08:00:00.000Z"))
          StudentUpdateInput.empty))
    (Instant "2026-01-25T08:00:00.000Z")
    (student "s6" "u-s6" "tenant-A" "Nora" "Klein" 600 600).

(** tenant-A with s1, s3 (a prospect), s5 and the archived s6; tenant-B with
    s2. *)
Definition school : World :=
  with_students
    (λ tbl, <["9b2f6c1e-3d4a-4f8b-9c7d-1a2b3c4d5e6f" := s5]> (<["s6" := s6_archived]> tbl))
    world_with_prospect.

(** Audit rows of both tenants. *)
Definition audit_a1 : AuditLog.t :=
  AuditLog.mk "tenant-A" "u-admin" "STUDENT_HOURS_UPDATED" "Student" "s1" []
    (Instant "2026-01-10T09:00:00.000Z").
Definition audit_a2 : AuditLog.t :=
  AuditLog.mk "tenant-A" "u-sec" "STUDENT_ARCHIVED" "Student" "s6" []
    (Instant "2026-01-25T08:00:00.000Z").
Definition audit_b1 : AuditLog.t :=
  AuditLog.mk "tenant-B" "u-s2" "STUDENT_UPDATED" "Student" "s2" []
    (Instant "2026-01-15T12:00:00.000Z").

Definition school_with_audit : World :=
  with_auditLogs (λ _, [audit_a1; audit_b1; audit_a2]) school.

(** Stand-ins for bcrypt and the JWT library in the examples: every sample
    account has the password "Password123!". *)
Definition compare (password hash : string) : bool :=
  bool_decide (password = "Password123!") && bool_decide (hash = "$2b$10$hash").

Definition sign (payload : JwtPayload.t) : string :=
  "jwt." +:+ JwtPayload.sub payload +:+ "." +:+ JwtPayload.tenantId payload
  +:+ "." +:+ JwtPayload.role payload.

(** A request carrying a credential that verifies to [u]'s payload. *)
Definition request (u : User.t) : Request.t :=
  Request.mk (VerifiedCredential (payload u)) None.

End Sample.

(** ** What the tenant isolation contract asks of a query

    The tenant filter is in the query when the [where] sent to the store has
    an equality condition on [tenantId] with the principal's tenant. *)

Definition filtersByTenant (q : StudentWhereUniqueInput.t) (tenantId : string) : Prop :=
  StudentWhereUniqueInput.tenantId q = Some tenantId.

(** ** Worlds and rows that the statements below talk about *)

(** The row that [log] inserts for [data]. *)
Definition auditRow (data : AuditLogData.t) (w : World) : AuditLog.t :=
  AuditLog.mk (AuditLogData.tenantId data) (AuditLogData.actorUserId data)
    (AuditLogData.action data) (AuditLogData.entityType data) (AuditLogData.entityId data)
    (default [] (AuditLogData.metadata data)) (clock w).

(** The world after [log]: the row and an info line when the store takes the
    insert, an error line and no row when it does not. *)
Definition afterLog (data : AuditLogData.t) (w : World) : World :=
  match auditCreateFault w with
  | None =>
      with_loggerOutput
        (λ out, out ++ [LogInfo "audit" (AuditLogData.action data) (AuditLogData.entityType data)
                          (AuditLogData.entityId data) (AuditLogData.tenantId data)
                          (AuditLogData.actorUserId data) (clock w)])
        (with_auditLogs (λ l, l ++ [auditRow data w]) w)
  | Some error =>
      with_loggerOutput
        (λ out, out ++ [LogError ("Failed to create audit log: " +:+ AuditService.errorMessage error)
                          (AuditLogData.action data) (AuditLogData.entityType data)
                          (AuditLogData.entityId data)])
        w
  end.

(** The row that a successful [addUsedMinutes] writes and returns. *)
Definition consumed (minutes : Z) (now : DateTime) (s : Student.t) : Student.t :=
  Prisma.applyStudentData
    (StudentUpdateInput.with_minutesUsed (SetInt (Student.minutesUsed s + minutes))
       StudentUpdateInput.empty) now s.

(** The row that a successful [archive] writes and returns. *)
Definition archived (now : DateTime) (s : Student.t) : Student.t :=
  Prisma.applyStudentData
    (StudentUpdateInput.with_status StudentStatus.ARCHIVED
       (StudentUpdateInput.with_archivedAt (Some now) StudentUpdateInput.empty)) now s.

(** The row that a successful [restore] writes and returns. *)
Definition restored (now : DateTime) (s : Student.t) : Student.t :=
  Prisma.applyStudentData
    (StudentUpdateInput.with_status StudentStatus.ACTIVE
       (StudentUpdateInput.with_archivedAt None StudentUpdateInput.empty)) now s.

(** The row that [addPurchasedMinutes] writes and returns. *)
Definition purchased (minutes : Z) (now : DateTime) (s : Student.t) : Student.t :=
  Prisma.applyStudentData
    (StudentUpdateInput.with_minutesPurchased (Increment minutes) StudentUpdateInput.empty) now s.

(** The audit entries of [archive], [restore], [addPurchasedMinutes] and
    [addUsedMinutes] for the student [s] read by [findOne]. *)
Definition archiveEntry (id tenantId actorUserId : string) (s : Student.t) : AuditLogData.t :=
  {| AuditLogData.tenantId := tenantId;
     AuditLogData.actorUserId := actorUserId;
     AuditLogData.action := AuditAction.STUDENT_ARCHIVED;
     AuditLogData.entityType := "Student";
     AuditLogData.entityId := id;
     AuditLogData.metadata :=
       Some [("studentName", JString (StudentsService.studentName s));
             ("previousStatus", JStatus (Student.status s))] |}.

Definition restoreEntry (id tenantId actorUserId : string) (s : Student.t) : AuditLogData.t :=
  {| AuditLogData.tenantId := tenantId;
     AuditLogData.actorUserId := actorUserId;
     AuditLogData.action := AuditAction.STUDENT_UPDATED;
     AuditLogData.entityType := "Student";
     AuditLogData.entityId := id;
     AuditLogData.metadata :=
       Some [("studentName", JString (StudentsService.studentName s));
             ("action", JString "RESTORED");
             ("previousStatus", JStatus StudentStatus.ARCHIVED);
             ("newStatus", JStatus StudentStatus.ACTIVE)] |}.

Definition purchaseEntry (id : string) (minutes : Z) (tenantId actorUserId : string)
    (s : Student.t) : AuditLogData.t :=
  {| AuditLogData.tenantId := tenantId;
     AuditLogData.actorUserId := actorUserId;
     AuditLogData.action := AuditAction.STUDENT_HOURS_UPDATED;
     AuditLogData.entityType := "Student";
     AuditLogData.entityId := id;
     AuditLogData.metadata :=
       Some [("studentName", JString (StudentsService.studentName s));
             ("type", JString "PURCHASE");
             ("minutesAdded", JNumber minutes);
             ("previousMinutesPurchased", JNumber (Student.minutesPurchased s));
             ("newMinutesPurchased", JNumber (Student.minutesPurchased s + minutes))] |}.

Definition consumptionEntry (id : string) (minutes : Z) (tenantId actorUserId : string)
    (s : Student.t) : AuditLogData.t :=
  {| AuditLogData.tenantId := tenantId;
     AuditLogData.actorUserId := actorUserId;
     AuditLogData.action := AuditAction.STUDENT_HOURS_UPDATED;
     AuditLogData.entityType := "Student";
     AuditLogData.entityId := id;
     AuditLogData.metadata :=
       Some [("studentName", JString (StudentsService.studentName s));
             ("type", JString "CONSUMPTION");
             ("minutesUsed", JNumber minutes);
             ("previousMinutesUsed", JNumber (Student.minutesUsed s));
             ("newMinutesUsed", JNumber (Student.minutesUsed s + minutes))] |}.

(** ** What a method leaves alone

    [keeps R m]: whatever the outcome of [m], the world after it is related
    by [R] to the world before it. *)

Definition keeps (R : World → World → Prop) {A} (m : Promise A) : Prop :=
  ∀ w, R w (snd (m w)).

(** Nothing was written to the audit table or to the logger. *)
Definition sameAudit (w w' : World) : Prop :=
  auditLogs w' = auditLogs w ∧ loggerOutput w' = loggerOutput w.

(** No account was created or deleted, and no account changed its
    identifier, password, role or tenant (its email may have changed). *)
Definition sameAccounts (w w' : World) : Prop :=
  ∀ k, match users w !! k, users w' !! k with
       | Some u, Some u' =>
           User.id u' = User.id u ∧ User.password u' = User.password u
           ∧ User.role u' = User.role u ∧ User.tenantId u' = User.tenantId u
       | None, None => True
       | _, _ => False
       end.

(** Student rows other than the one under [id] are as before. *)
Definition sameOtherStudents (id : string) (w w' : World) : Prop :=
  ∀ j, j ≠ id → students w' !! j = students w !! j.

(** The credential is missing, does not verify, or verifies for a subject
    that is not stored. *)
Definition unauthenticated (req : Request.t) (w : World) : Prop :=
  match Request.credential req with
  | NoCredential | InvalidCredential => True
  | VerifiedCredential payload => users w !! JwtPayload.sub payload = None
  end.

(** An audit entry without metadata. *)
Definition sample_entry : AuditLogData.t :=
  AuditLogData.mk "tenant-A" "u-admin" AuditAction.STUDENT_ARCHIVED "Student" "s1" None.

(** * Properties *)

(** ** The store *)

Section Store.

Implicit Types (tbl : gmap string Student.t) (w : World).

Lemma selectStudent_byId id tbl :
  Prisma.selectStudent (StudentsService.byId id) tbl = (λ s, (id, s)) <$> tbl !! id.
Proof.
  unfold Prisma.selectStudent, Prisma.matchesWhere; simpl.
  destruct (tbl !! id) as [s|]; simpl; [|done].
  by rewrite bool_decide_eq_true_2.
Qed.

Lemma student_findUnique_include_byId id w :
  Prisma.student_findUnique_include (StudentsService.byId id) w
  = (Resolved (Prisma.includeUser w <$> students w !! id), w).
Proof.
  unfold Prisma.student_findUnique_include. rewrite selectStudent_byId.
  by destruct (students w !! id).
Qed.

Lemma student_findUnique_byId id w :
  Prisma.student_findUnique (StudentsService.byId id) w = (Resolved (students w !! id), w).
Proof.
  unfold Prisma.student_findUnique. rewrite selectStudent_byId.
  by destruct (students w !! id).
Qed.

(** An update through the primary key that writes no [neph] and integers
    that fit their columns. *)
Lemma student_update_byId id d w s :
  students w !! id = Some s →
  Prisma.fitsStudentData d s = true →
  StudentUpdateInput.neph d = None →
  Prisma.student_update (StudentsService.byId id) d w
  = (Resolved (Prisma.applyStudentData d (clock w) s),
     with_students (insert id (Prisma.applyStudentData d (clock w) s)) w).
Proof.
  intros Hs Hfit Hn. unfold Prisma.student_update.
  rewrite selectStudent_byId, Hs; simpl. rewrite Hfit; simpl.
  unfold Prisma.nephTaken. by rewrite Hn.
Qed.

(** An update through the primary key that writes an integer which does not
    fit its column is refused, and nothing is written. *)
Lemma student_update_byId_refused id d w s :
  students w !! id = Some s →
  Prisma.fitsStudentData d s = false →
  Prisma.student_update (StudentsService.byId id) d w = (Rejected Prisma.P2020, w).
Proof.
  intros Hs Hfit. unfold Prisma.student_update.
  rewrite selectStudent_byId, Hs; simpl. by rewrite Hfit.
Qed.

(** Whatever an update through the primary key writes, when it resolves the
    row under that key is the old row with [data] applied, the integers
    written fit their columns, and the other rows and tables are as before. *)
Lemma student_update_byId_inv id d w r w' :
  Prisma.student_update (StudentsService.byId id) d w = (Resolved r, w') →
  ∃ s, students w !! id = Some s
       ∧ r = Prisma.applyStudentData d (clock w) s
       ∧ w' = with_students (insert id r) w.
Proof.
  unfold Prisma.student_update. rewrite selectStudent_byId.
  destruct (students w !! id) as [s|]; simpl; [|discriminate].
  destruct (Prisma.fitsStudentData d s); simpl; [|discriminate].
  destruct (Prisma.nephTaken _ _ _); [discriminate|].
  intros [= <- <-]. by exists s.
Qed.

Lemma student_update_byId_fits id d w s r w' :
  students w !! id = Some s →
  Prisma.student_update (StudentsService.byId id) d w = (Resolved r, w') →
  Prisma.fitsStudentData d s = true.
Proof.
  intros Hs. unfold Prisma.student_update. rewrite selectStudent_byId, Hs; simpl.
  by destruct (Prisma.fitsStudentData d s).
Qed.

End Store.

(** ** [findOne] *)

Section FindOne.

Implicit Types (w : World) (id tenantId : string).

(** [findOne], one case per exit of the method. *)
Lemma findOne_eq id tenantId w :
  StudentsService.findOne id tenantId w =
  match students w !! id with
  | None =>
      (Rejected (ErrorObject NotFoundException ("Élève #" +:+ id +:+ " introuvable")), w)
  | Some s =>
      if bool_decide (Student.tenantId s = tenantId)
      then (Resolved (Prisma.includeUser w s), w)
      else (Rejected (ErrorObject ForbiddenException "Accès interdit à cette ressource"), w)
  end.
Proof.
  unfold StudentsService.findOne, StudentsService.findOne_where, await.
  rewrite student_findUnique_include_byId.
  destruct (students w !! id) as [s|]; simpl; [|done].
  destruct (decide (Student.tenantId s = tenantId)) as [Heq|Hne].
  - rewrite (bool_decide_eq_true_2 _ Heq).
    rewrite bool_decide_eq_false_2; [done|]. by intros H; apply H.
  - rewrite (bool_decide_eq_false_2 _ Hne).
    by rewrite bool_decide_eq_true_2.
Qed.

Lemma findOne_own id tenantId w s :
  students w !! id = Some s →
  Student.tenantId s = tenantId →
  StudentsService.findOne id tenantId w = (Resolved (Prisma.includeUser w s), w).
Proof.
  intros Hs Ht. rewrite findOne_eq, Hs. by rewrite bool_decide_eq_true_2.
Qed.

Lemma findOne_resolved_inv id tenantId w r w' :
  StudentsService.findOne id tenantId w = (Resolved r, w') →
  ∃ s, students w !! id = Some s ∧ Student.tenantId s = tenantId
       ∧ r = Prisma.includeUser w s ∧ w' = w.
Proof.
  rewrite findOne_eq. destruct (students w !! id) as [s|]; [|discriminate].
  case_bool_decide; [|discriminate].
  intros [= <- <-]. by exists s.
Qed.

End FindOne.

(** C1. A principal of tenant A that asks for a student by identifier gets a
    [ForbiddenException] when the row exists in another tenant and a
    [NotFoundException] when no row has that identifier. In both cases the
    promise is rejected with a value built from the request alone (nothing of
    the row is in it), the world is untouched, the two exceptions differ in
    class, and whenever [findOne] does resolve, the row is one of the
    principal's own tenant. *)
Theorem C1_findOne_other_tenant_forbidden_missing_not_found :
  ∀ (id tenantId : string) (w : World),
    (∀ s, students w !! id = Some s →
          Student.tenantId s ≠ tenantId →
          StudentsService.findOne id tenantId w
          = (Rejected (ErrorObject ForbiddenException "Accès interdit à cette ressource"), w))
    ∧ (students w !! id = None →
       StudentsService.findOne id tenantId w
       = (Rejected (ErrorObject NotFoundException ("Élève #" +:+ id +:+ " introuvable")), w))
    ∧ (∀ r w', StudentsService.findOne id tenantId w = (Resolved r, w') →
               Student.tenantId (StudentWithUser.student r) = tenantId)
    ∧ errorKind (ErrorObject ForbiddenException "Accès interdit à cette ressource")
      ≠ errorKind (ErrorObject NotFoundException ("Élève #" +:+ id +:+ " introuvable")).
Proof.
  intros id tenantId w. repeat split.
  - intros s Hs Hne. rewrite findOne_eq, Hs. by rewrite bool_decide_eq_false_2.
  - intros Hnone. by rewrite findOne_eq, Hnone.
  - intros r w' Hr. apply findOne_resolved_inv in Hr as (s & _ & Ht & -> & _). done.
  - discriminate.
Qed.

(** Scenario E on the sample database: an admin of tenant-A asks for s2 (a
    student of tenant-B), then for an identifier nobody has. *)
Lemma C1_witness :
  StudentsService.findOne "s2" "tenant-A" Sample.world
  = (Rejected (ErrorObject ForbiddenException "Accès interdit à cette ressource"), Sample.world)
  ∧ StudentsService.findOne "s9" "tenant-A" Sample.world
    = (Rejected (ErrorObject NotFoundException "Élève #s9 introuvable"), Sample.world).
Proof.
  destruct (C1_findOne_other_tenant_forbidden_missing_not_found "s2" "tenant-A" Sample.world)
    as (Hforbidden & _).
  destruct (C1_findOne_other_tenant_forbidden_missing_not_found "s9" "tenant-A" Sample.world)
    as (_ & Hmissing & _).
  split.
  - apply (Hforbidden Sample.s2); [reflexivity | discriminate].
  - apply Hmissing. reflexivity.
Defined.

(** ** The query of [findOne] *)

(** The tenant filter is not in the query of [findOne]: the admin of tenant-A
    asks for s2, the [where] that leaves the service has no condition on
    [tenantId], and the store hands the row of tenant-B back to the service. *)
Lemma C2_counterexample :
  ¬ filtersByTenant (StudentsService.findOne_where "s2") "tenant-A"
  ∧ fst (Prisma.student_findUnique (StudentsService.findOne_where "s2") Sample.world)
    = Resolved (Some Sample.s2)
  ∧ Student.tenantId Sample.s2 ≠ "tenant-A".
Proof.
  split; [|split].
  - unfold filtersByTenant; simpl. discriminate.
  - reflexivity.
  - discriminate.
Qed.

(** C2, amended. [findOne] selects by identifier alone: its [where] has the
    identifier, no condition on the tenant, and the store answers with
    whatever row has that identifier. The tenant is compared afterwards, on
    the fetched row: the row is returned when its [tenantId] equals the
    principal's, the call is rejected with [ForbiddenException] when it does
    not, and with [NotFoundException] when there is no row. *)
Theorem C2_findOne_checks_tenant_on_fetched_row :
  ∀ (id tenantId : string) (w : World),
    StudentWhereUniqueInput.id (StudentsService.findOne_where id) = Some id
    ∧ StudentWhereUniqueInput.tenantId (StudentsService.findOne_where id) = None
    ∧ Prisma.student_findUnique (StudentsService.findOne_where id) w
      = (Resolved (students w !! id), w)
    ∧ fst (StudentsService.findOne id tenantId w)
      = match students w !! id with
        | None => Rejected (ErrorObject NotFoundException ("Élève #" +:+ id +:+ " introuvable"))
        | Some s =>
            if bool_decide (Student.tenantId s = tenantId)
            then Resolved (Prisma.includeUser w s)
            else Rejected (ErrorObject ForbiddenException "Accès interdit à cette ressource")
        end.
Proof.
  intros id tenantId w. split; [done|]. split; [done|]. split.
  - apply student_findUnique_byId.
  - rewrite findOne_eq. destruct (students w !! id) as [s|]; [|done].
    by case_bool_decide.
Qed.

(** ** [RolesGuard] *)

Section Roles.

Implicit Types (context : ExecutionContext.t) (R : list Role) (user : Principal.t).

Lemma existsb_role user R :
  existsb (λ role, bool_decide (Principal.role user = role)) R = true
  ↔ Principal.role user ∈ R.
Proof.
  induction R as [|r R IH]; simpl.
  - split; [discriminate|]. by intros ?%not_elem_of_nil.
  - rewrite orb_true_iff, IH, bool_decide_eq_true, elem_of_cons. done.
Qed.

(** With a principal on the request and a declared list [R], the guard's
    answer is membership of the principal's role in [R]. *)
Lemma canActivate_declared context R user :
  getAllAndOverride [ExecutionContext.handlerRoles context; ExecutionContext.classRoles context]
  = Some R →
  Request.user (ExecutionContext.request context) = Some user →
  RolesGuard.canActivate context = Resolved (bool_decide (Principal.role user ∈ R)).
Proof.
  intros HR Hu. unfold RolesGuard.canActivate. rewrite HR, Hu. f_equal.
  case_bool_decide as Hin.
  - by apply existsb_role.
  - apply not_true_is_false. by rewrite existsb_role.
Qed.

End Roles.

(** With no role metadata at all (no [@Roles] on the handler nor on the
    class) the guard lets every request through. *)
Lemma roles_guard_open_without_metadata (request : Request.t) :
  RolesGuard.canActivate (ExecutionContext.mk request None None) = Resolved true.
Proof. by destruct request as [credential [user|]]. Qed.


(** C4. For an operation with declared roles [R] and a principal on the
    request, the guard authorizes exactly when the principal's role is one of
    [R], for every non-empty list [R] and each of the four roles. A refusal becomes Nest's
    [ForbiddenException], an authorization-class error. Scenario A: a
    secretary on an operation for admins and secretaries passes. Scenario B:
    an instructor on an operation for admins is refused. *)
Theorem C4_roles_guard_authorizes_iff_member :
  ∀ (context : ExecutionContext.t) (R : list Role) (user : Principal.t) (w : World),
    getAllAndOverride [ExecutionContext.handlerRoles context; ExecutionContext.classRoles context]
    = Some R →
    R ≠ [] →
    Request.user (ExecutionContext.request context) = Some user →
    (RolesGuard.canActivate context = Resolved true ↔ Principal.role user ∈ R)
    ∧ (Principal.role user ∈ R →
       verdict (tryActivate [RolesGuard_] context w) = Resolved context)
    ∧ (Principal.role user ∉ R →
       ∃ e, verdict (tryActivate [RolesGuard_] context w) = Rejected e
            ∧ errorKind e = AuthorizationKind)
    ∧ RolesGuard.canActivate
        (ExecutionContext.mk (Request.mk NoCredential (Some (Sample.principal Sample.secretary)))
           None (Some [ADMIN; SECRETARY]))
      = Resolved true
    ∧ verdict
        (tryActivate [RolesGuard_]
           (ExecutionContext.mk (Request.mk NoCredential (Some (Sample.principal Sample.instructor)))
              None (Some [ADMIN])) w)
      = Rejected (ErrorObject ForbiddenException "Forbidden resource").
Proof.
  intros context R user w HR _ Hu.
  pose proof (canActivate_declared context R user HR Hu) as Hc.
  split; [|split; [|split; [|split]]].
  - rewrite Hc. split.
    + intros [= H]. by apply bool_decide_eq_true in H.
    + intros Hin. by rewrite bool_decide_eq_true_2.
  - intros Hin. simpl. rewrite Hc. by rewrite bool_decide_eq_true_2.
  - intros Hnin. simpl. rewrite Hc. rewrite (bool_decide_eq_false_2 _ Hnin). simpl.
    by eexists.
  - reflexivity.
  - reflexivity.
Qed.

(** The [remove] route of the students controller ([@Roles(ADMIN)] on the
    handler overrides the class's list) for a secretary. *)
Lemma C4_witness :
  RolesGuard.canActivate
    (StudentsController.context StudentsController.remove
       (Request.mk NoCredential (Some (Sample.principal Sample.secretary))))
  = Resolved true
  ↔ SECRETARY ∈ [ADMIN].
Proof.
  refine (proj1 (C4_roles_guard_authorizes_iff_member
                   (StudentsController.context StudentsController.remove
                      (Request.mk NoCredential (Some (Sample.principal Sample.secretary))))
                   [ADMIN] (Sample.principal Sample.secretary) Sample.world _ _ _)).
  - reflexivity.
  - discriminate.
  - reflexivity.
Defined.

(** ** [JwtStrategy.validate] *)

(** C6. A credential that verifies, for a subject that the identity store no
    longer has: [validateUser] resolves to [null], [validate] rejects with
    [UnauthorizedException] (an authentication-class error), the world is
    untouched, and [JwtAuthGuard] ends with the same exception, so no
    principal reaches [req.user]. *)
Theorem C6_validate_rejects_deleted_subject :
  ∀ (payload : JwtPayload.t) (w : World),
    users w !! JwtPayload.sub payload = None →
    AuthService.validateUser (JwtPayload.sub payload) w = (Resolved None, w)
    ∧ JwtStrategy.validate payload w
      = (Rejected (ErrorObject UnauthorizedException "Utilisateur invalide ou supprimé"), w)
    ∧ errorKind (ErrorObject UnauthorizedException "Utilisateur invalide ou supprimé")
      = AuthenticationKind
    ∧ ∀ user handlerRoles classRoles,
        JwtAuthGuard.canActivate
          (ExecutionContext.mk (Request.mk (VerifiedCredential payload) user)
             handlerRoles classRoles) w
        = Rejected (ErrorObject UnauthorizedException "Utilisateur invalide ou supprimé").
Proof.
  intros payload w Hgone.
  assert (AuthService.validateUser (JwtPayload.sub payload) w = (Resolved None, w)) as Hv.
  { unfold AuthService.validateUser, await, Prisma.user_findUnique_id. by rewrite Hgone. }
  assert (JwtStrategy.validate payload w
          = (Rejected (ErrorObject UnauthorizedException "Utilisateur invalide ou supprimé"), w))
    as Hr.
  { unfold JwtStrategy.validate, await. by rewrite Hv. }
  repeat split; try done.
  intros user handlerRoles classRoles. unfold JwtAuthGuard.canActivate; simpl.
  by rewrite Hr.
Qed.

(** Scenario C: a well-signed credential for an account that was deleted. *)
Lemma C6_witness :
  JwtStrategy.validate (JwtPayload.mk "u-deleted" "tenant-A" "ADMIN" None None) Sample.world
  = (Rejected (ErrorObject UnauthorizedException "Utilisateur invalide ou supprimé"),
     Sample.world).
Proof.
  refine (proj1 (proj2 (C6_validate_rejects_deleted_subject
                          (JwtPayload.mk "u-deleted" "tenant-A" "ADMIN" None None)
                          Sample.world _))).
  reflexivity.
Defined.

(** With the subject still in the store, the principal is built from the
    stored row and not from the claims of the credential. *)
Lemma validate_existing payload w u :
  users w !! JwtPayload.sub payload = Some u →
  JwtStrategy.validate payload w
  = (Resolved (Principal.mk (User.id u) (User.email u) (User.tenantId u) (User.role u)), w).
Proof.
  intros Hu. unfold JwtStrategy.validate, AuthService.validateUser, await,
    Prisma.user_findUnique_id. by rewrite Hu.
Qed.

(** ** [AuditService.log] *)

Section Audit.

Implicit Types (data : AuditLogData.t) (w : World).

Lemma log_eq data w : AuditService.log data w = (Resolved tt, afterLog data w).
Proof.
  unfold AuditService.log, tryCatch, await, Prisma.auditLog_create, afterLog.
  destruct (auditCreateFault w) as [error|]; reflexivity.
Qed.

Lemma afterLog_students data w : students (afterLog data w) = students w.
Proof. unfold afterLog. by destruct (auditCreateFault w). Qed.

Lemma afterLog_users data w : users (afterLog data w) = users w.
Proof. unfold afterLog. by destruct (auditCreateFault w). Qed.

End Audit.

(** C7. [log] resolves for every entry and every state of the audit store.
    When the insert is refused with [error] (any thrown value), no row is
    added, one error line with the failure goes to the logger, and the
    business tables are untouched; when it is accepted, exactly one row is
    added. A caller that awaits [log] after a mutation that resolved with [a]
    therefore resolves with [a] as well, and keeps the effect of the
    mutation on the business tables. *)
Theorem C7_audit_log_never_rejects :
  ∀ (data : AuditLogData.t) (w : World),
    (∃ w', AuditService.log data w = (Resolved tt, w')
           ∧ students w' = students w
           ∧ users w' = users w
           ∧ match auditCreateFault w with
             | Some error =>
                 auditLogs w' = auditLogs w
                 ∧ loggerOutput w'
                   = loggerOutput w
                     ++ [LogError ("Failed to create audit log: " +:+ AuditService.errorMessage error)
                           (AuditLogData.action data) (AuditLogData.entityType data)
                           (AuditLogData.entityId data)]
             | None => auditLogs w' = auditLogs w ++ [auditRow data w]
             end)
    ∧ ∀ (A : Type) (mutation : Promise A) (a : A) (w0 : World),
        mutation w0 = (Resolved a, w) →
        ∃ w', (let! result := mutation in do! AuditService.log data in resolve result) w0
              = (Resolved a, w')
              ∧ students w' = students w
              ∧ users w' = users w.
Proof.
  intros data w. split.
  - exists (afterLog data w). split; [apply log_eq|].
    split; [apply afterLog_students|]. split; [apply afterLog_users|].
    unfold afterLog. by destruct (auditCreateFault w).
  - intros A mutation a w0 Hm. exists (afterLog data w).
    unfold await at 1. rewrite Hm. unfold await. rewrite log_eq.
    split; [done|]. split; [apply afterLog_students | apply afterLog_users].
Qed.

(** While the audit table refuses inserts, archiving s1 and then logging it
    still resolves, with s1 archived in the store. *)
Lemma C7_witness :
  ∃ w',
    (let! result :=
       Prisma.student_update (StudentsService.byId "s1")
         (StudentUpdateInput.with_status StudentStatus.ARCHIVED StudentUpdateInput.empty) in
     do! AuditService.log sample_entry in
     resolve result) Sample.world_audit_down
    = (Resolved
         (Prisma.applyStudentData
            (StudentUpdateInput.with_status StudentStatus.ARCHIVED StudentUpdateInput.empty)
            Sample.now Sample.s1), w')
    ∧ students w'
      = students
          (with_students
             (insert "s1"
                (Prisma.applyStudentData
                   (StudentUpdateInput.with_status StudentStatus.ARCHIVED StudentUpdateInput.empty)
                   Sample.now Sample.s1))
             Sample.world_audit_down)
    ∧ users w' = users Sample.world_audit_down.
Proof.
  refine (proj2 (C7_audit_log_never_rejects sample_entry _) _ _ _ Sample.world_audit_down _).
  vm_compute. reflexivity.
Defined.

(** Archiving s1 while the audit table is down: the student is archived, the
    caller gets the archived row, no audit row exists and the logger has the
    failure. *)
Example archive_resolves_while_audit_is_down :
  let result := StudentsService.archive "s1" "tenant-A" "u-admin" Sample.world_audit_down in
  (Student.status <$> students (snd result) !! "s1") = Some StudentStatus.ARCHIVED
  ∧ (∃ s', fst result = Resolved s' ∧ Student.archivedAt s' = Some Sample.now)
  ∧ auditLogs (snd result) = []
  ∧ loggerOutput (snd result)
    = [LogError "Failed to create audit log: Database error"
         "STUDENT_ARCHIVED" "Student" "s1"].
Proof.
  simpl. split; [reflexivity|]. split; [by eexists|]. split; reflexivity.
Qed.

(** ** [addUsedMinutes] *)

Section Minutes.

Implicit Types (w : World) (id tenantId actorUserId : string) (minutes : Z) (s : Student.t).

(** The update of [addUsedMinutes] writes [minutesUsed] (and the
    modification stamp) and nothing else of what the claims are about. *)
Lemma consumed_columns minutes now s :
  Student.minutesUsed (consumed minutes now s) = Student.minutesUsed s + minutes
  ∧ Student.minutesPurchased (consumed minutes now s) = Student.minutesPurchased s
  ∧ Student.tenantId (consumed minutes now s) = Student.tenantId s
  ∧ Student.userId (consumed minutes now s) = Student.userId s
  ∧ Student.updatedAt (consumed minutes now s) = now.
Proof. done. Qed.

(** The refusal: the promise is rejected before any write. *)
Lemma addUsedMinutes_conflict id minutes tenantId actorUserId w s :
  students w !! id = Some s →
  Student.tenantId s = tenantId →
  Student.minutesUsed s + minutes > Student.minutesPurchased s →
  StudentsService.addUsedMinutes id minutes tenantId actorUserId w
  = (Rejected
       (ErrorObject ConflictException
          ("Heures insuffisantes. Disponibles: "
           +:+ pretty (Student.minutesPurchased s - Student.minutesUsed s)
           +:+ " min, Demandées: " +:+ pretty minutes +:+ " min")), w).
Proof.
  intros Hs Ht Hgt. unfold StudentsService.addUsedMinutes, await at 1.
  rewrite (findOne_own _ _ _ _ Hs Ht); simpl.
  by rewrite bool_decide_eq_true_2.
Qed.

(** What the two hours mutations ask of the columns. *)
Lemma fits_consumption x s :
  Prisma.fitsStudentData
    (StudentUpdateInput.with_minutesUsed (SetInt x) StudentUpdateInput.empty) s
  = Prisma.int32 x.
Proof. reflexivity. Qed.

Lemma fits_purchase x s :
  Prisma.fitsStudentData
    (StudentUpdateInput.with_minutesPurchased (Increment x) StudentUpdateInput.empty) s
  = Prisma.int32 x && Prisma.int32 (Student.minutesPurchased s + x).
Proof. unfold Prisma.fitsStudentData; simpl. by rewrite andb_true_r. Qed.

Lemma int32_spec x : Prisma.int32 x = true ↔ -2147483648 ≤ x ≤ 2147483647.
Proof. unfold Prisma.int32. rewrite andb_true_iff, !Z.leb_le. done. Qed.

Lemma int32_false x : Prisma.int32 x = false ↔ ¬ (-2147483648 ≤ x ≤ 2147483647).
Proof. rewrite <- int32_spec. by destruct (Prisma.int32 x). Qed.

(** The success: the row is written with the sum, then the audit entry is
    logged, whatever becomes of it. *)
Lemma addUsedMinutes_ok id minutes tenantId actorUserId w s :
  students w !! id = Some s →
  Student.tenantId s = tenantId →
  Student.minutesUsed s + minutes ≤ Student.minutesPurchased s →
  Prisma.int32 (Student.minutesUsed s + minutes) = true →
  ∃ w', StudentsService.addUsedMinutes id minutes tenantId actorUserId w
        = (Resolved (consumed minutes (clock w) s), w')
        ∧ students w' = <[id := consumed minutes (clock w) s]> (students w)
        ∧ users w' = users w
        ∧ match auditCreateFault w with
          | None => ∃ row, auditLogs w' = auditLogs w ++ [row]
                           ∧ AuditLog.tenantId row = tenantId
                           ∧ AuditLog.entityId row = id
          | Some _ => auditLogs w' = auditLogs w
          end.
Proof.
  intros Hs Ht Hle Hfit. unfold StudentsService.addUsedMinutes, await at 1.
  rewrite (findOne_own _ _ _ _ Hs Ht); simpl.
  rewrite bool_decide_eq_false_2 by lia.
  unfold await at 1.
  erewrite student_update_byId; [|exact Hs|exact Hfit|reflexivity].
  unfold await. rewrite log_eq.
  eexists. split; [reflexivity|].
  rewrite afterLog_students, afterLog_users. split; [done|]. split; [done|].
  unfold afterLog; simpl.
  destruct (auditCreateFault w); simpl; [done|].
  eexists. split; [reflexivity|]. done.
Qed.

(** The refusal of the store: a sum that passes the comparison but does not
    fit the column is not written, and the promise is rejected with the
    error of the store before anything is logged. *)
Lemma addUsedMinutes_refused id minutes tenantId actorUserId w s :
  students w !! id = Some s →
  Student.tenantId s = tenantId →
  Student.minutesUsed s + minutes ≤ Student.minutesPurchased s →
  Prisma.int32 (Student.minutesUsed s + minutes) = false →
  StudentsService.addUsedMinutes id minutes tenantId actorUserId w
  = (Rejected Prisma.P2020, w).
Proof.
  intros Hs Ht Hle Hfit. unfold StudentsService.addUsedMinutes, await at 1.
  rewrite (findOne_own _ _ _ _ Hs Ht); simpl.
  rewrite bool_decide_eq_false_2 by lia.
  unfold await at 1.
  erewrite student_update_byId_refused; [done|exact Hs|exact Hfit].
Qed.

End Minutes.

(** C5, against the claim as it stands: s1 has used 300 of 1200 minutes, and
    minus three thousand million minutes are asked for.  The sum is below
    [minutesPurchased], so nothing throws [ConflictException]; but it does not
    fit the 32-bit column, so the store refuses the write: the call neither
    succeeds nor is rejected with [ConflictException]. *)
Lemma C5_counterexample :
  let result :=
    StudentsService.addUsedMinutes "s1" (-3000000000) "tenant-A" "u-admin" Sample.world in
  students Sample.world !! "s1" = Some Sample.s1
  ∧ Student.minutesUsed Sample.s1 ≤ Student.minutesPurchased Sample.s1
  ∧ fst result = Rejected Prisma.P2020
  ∧ ¬ ((∃ s', fst result = Resolved s')
       ∨ (∃ message, fst result = Rejected (ErrorObject ConflictException message))).
Proof.
  split; [reflexivity|]. split; [simpl; lia|]. split; [reflexivity|].
  intros [[s' H] | [message H]]; vm_compute in H; discriminate.
Qed.

(** C5, amended. For a student of the principal's tenant with [minutesUsed <=
    minutesPurchased] and an integer [minutes], [addUsedMinutes] ends in one
    of three ways.  When the sum [minutesUsed + minutes] is at most
    [minutesPurchased] and fits the signed 32-bit column, it resolves: the
    stored [minutesUsed] is the sum, is at most [minutesPurchased], and
    [minutesPurchased] is as before.  When the sum exceeds [minutesPurchased],
    it rejects with [ConflictException].  When the sum is at most
    [minutesPurchased] but does not fit the column, it rejects with the
    refusal of the store, which is not a [ConflictException].  Either
    rejection leaves the whole world as it was: the student row (so
    [minutesUsed] and [minutesPurchased]), and the audit table, which gets no
    record. *)
Theorem C5_addUsedMinutes_keeps_used_within_purchased :
  ∀ (id : string) (minutes : Z) (tenantId actorUserId : string) (w : World) (s : Student.t),
    students w !! id = Some s →
    Student.tenantId s = tenantId →
    Student.minutesUsed s ≤ Student.minutesPurchased s →
    let result := StudentsService.addUsedMinutes id minutes tenantId actorUserId w in
    (Student.minutesUsed s + minutes ≤ Student.minutesPurchased s
     ∧ -2147483648 ≤ Student.minutesUsed s + minutes ≤ 2147483647
     ∧ ∃ s', fst result = Resolved s'
             ∧ students (snd result) !! id = Some s'
             ∧ Student.minutesUsed s' = Student.minutesUsed s + minutes
             ∧ Student.minutesUsed s' ≤ Student.minutesPurchased s'
             ∧ Student.minutesPurchased s' = Student.minutesPurchased s)
    ∨ (Student.minutesUsed s + minutes > Student.minutesPurchased s
       ∧ (∃ message, fst result = Rejected (ErrorObject ConflictException message))
       ∧ snd result = w
       ∧ students (snd result) !! id = Some s
       ∧ auditLogs (snd result) = auditLogs w)
    ∨ (Student.minutesUsed s + minutes ≤ Student.minutesPurchased s
       ∧ ¬ (-2147483648 ≤ Student.minutesUsed s + minutes ≤ 2147483647)
       ∧ fst result = Rejected Prisma.P2020
       ∧ (∀ message, fst result ≠ Rejected (ErrorObject ConflictException message))
       ∧ snd result = w
       ∧ students (snd result) !! id = Some s
       ∧ auditLogs (snd result) = auditLogs w).
Proof.
  intros id minutes tenantId actorUserId w s Hs Ht _ result. subst result.
  destruct (Z_le_gt_dec (Student.minutesUsed s + minutes) (Student.minutesPurchased s))
    as [Hle|Hgt].
  - destruct (Prisma.int32 (Student.minutesUsed s + minutes)) eqn:Hfit.
    + left. split; [done|]. split; [by apply int32_spec|].
      destruct (addUsedMinutes_ok id minutes tenantId actorUserId w s Hs Ht Hle Hfit)
        as (w' & -> & Hst & _).
      exists (consumed minutes (clock w) s). simpl.
      split; [done|]. split; [by rewrite Hst, lookup_insert_eq|].
      split; [done|]. split; [exact Hle | done].
    + right. right. split; [done|]. split; [by apply int32_false|].
      rewrite (addUsedMinutes_refused id minutes tenantId actorUserId w s Hs Ht Hle Hfit).
      simpl. split; [done|]. split; [discriminate|]. done.
  - right. left. split; [done|].
    rewrite (addUsedMinutes_conflict id minutes tenantId actorUserId w s Hs Ht Hgt); simpl.
    split; [by eexists|]. done.
Qed.

(** Scenario D: s1 has 900 minutes left and 1000 are asked for. *)
Lemma C5_witness :
  fst (StudentsService.addUsedMinutes "s1" 1000 "tenant-A" "u-admin" Sample.world)
  = Rejected
      (ErrorObject ConflictException
         "Heures insuffisantes. Disponibles: 900 min, Demandées: 1000 min")
  ∧ snd (StudentsService.addUsedMinutes "s1" 1000 "tenant-A" "u-admin" Sample.world)
    = Sample.world
  ∧ auditLogs (snd (StudentsService.addUsedMinutes "s1" 1000 "tenant-A" "u-admin" Sample.world))
    = [].
Proof.
  destruct (C5_addUsedMinutes_keeps_used_within_purchased
              "s1" 1000 "tenant-A" "u-admin" Sample.world Sample.s1)
    as [(Hle & _) | [(_ & _ & Hw & _ & Ha) | (Hle & _)]].
  - reflexivity.
  - reflexivity.
  - simpl. lia.
  - simpl in Hle. lia.
  - split; [reflexivity|]. split; [exact Hw | exact Ha].
  - simpl in Hle. lia.
Defined.

(** C10, against the claim as it stands: s1 has used 300 of 1200 minutes; with
    [minutes = -2147483949] the sum is -2147483649, at most
    [minutesPurchased] and one below the least value of the 32-bit column:
    the call does not succeed. *)
Lemma C10_counterexample :
  students Sample.world !! "s1" = Some Sample.s1
  ∧ Student.minutesUsed Sample.s1 + -2147483949 ≤ Student.minutesPurchased Sample.s1
  ∧ StudentsService.addUsedMinutes "s1" (-2147483949) "tenant-A" "u-admin" Sample.world
    = (Rejected Prisma.P2020, Sample.world)
  ∧ ¬ ∃ s' w',
        StudentsService.addUsedMinutes "s1" (-2147483949) "tenant-A" "u-admin" Sample.world
        = (Resolved s', w').
Proof.
  split; [reflexivity|]. split; [simpl; lia|]. split; [reflexivity|].
  intros (s' & w' & H). vm_compute in H. discriminate.
Qed.

(** C10, amended. [addUsedMinutes] itself puts no lower bound on [minutes]:
    for every integer (zero and negatives included) with
    [minutesUsed + minutes <= minutesPurchased], the call resolves and the
    stored [minutesUsed] is that sum whenever the sum fits the signed 32-bit
    column; with [minutes < - minutesUsed] the stored value is negative.  A
    sum that does not fit the column is refused by the store, and nothing
    changes.  The controller hands the [minutes] of the body to the service
    unchanged. *)
Theorem C10_addUsedMinutes_accepts_any_integer :
  ∀ (id : string) (minutes : Z) (tenantId actorUserId : string) (w : World) (s : Student.t),
    students w !! id = Some s →
    Student.tenantId s = tenantId →
    Student.minutesUsed s + minutes ≤ Student.minutesPurchased s →
    (-2147483648 ≤ Student.minutesUsed s + minutes ≤ 2147483647 →
     ∃ s' w', StudentsService.addUsedMinutes id minutes tenantId actorUserId w
              = (Resolved s', w')
              ∧ students w' !! id = Some s'
              ∧ Student.minutesUsed s' = Student.minutesUsed s + minutes
              ∧ (minutes < - Student.minutesUsed s → Student.minutesUsed s' < 0))
    ∧ (¬ (-2147483648 ≤ Student.minutesUsed s + minutes ≤ 2147483647) →
       StudentsService.addUsedMinutes id minutes tenantId actorUserId w
       = (Rejected Prisma.P2020, w))
    ∧ ∀ credential email role,
        StudentsController.addUsedHours_handler id minutes
          (Request.mk credential (Some (Principal.mk actorUserId email tenantId role)))
        = StudentsService.addUsedMinutes id minutes tenantId actorUserId.
Proof.
  intros id minutes tenantId actorUserId w s Hs Ht Hle. split; [|split; [|done]].
  - intros Hfit%int32_spec.
    destruct (addUsedMinutes_ok id minutes tenantId actorUserId w s Hs Ht Hle Hfit)
      as (w' & Hr & Hst & _).
    exists (consumed minutes (clock w) s), w'.
    split; [done|]. split; [by rewrite Hst, lookup_insert_eq|].
    split; [done|]. simpl. lia.
  - intros Hfit%int32_false.
    exact (addUsedMinutes_refused id minutes tenantId actorUserId w s Hs Ht Hle Hfit).
Qed.

(** Minus 500 minutes for s1, who has used 300: accepted, and [minutesUsed]
    is -200 afterwards. *)
Lemma C10_witness :
  ∃ s' w',
    StudentsService.addUsedMinutes "s1" (-500) "tenant-A" "u-admin" Sample.world
    = (Resolved s', w')
    ∧ students w' !! "s1" = Some s'
    ∧ Student.minutesUsed s' = 300 + -500
    ∧ (-500 < - 300 → Student.minutesUsed s' < 0).
Proof.
  refine (proj1 (C10_addUsedMinutes_accepts_any_integer
                   "s1" (-500) "tenant-A" "u-admin" Sample.world Sample.s1 _ _ _) _).
  - reflexivity.
  - reflexivity.
  - simpl. lia.
  - simpl. lia.
Defined.

(** ** [update] *)

Section Update.

Implicit Types (w : World) (id tenantId : string) (dto : UpdateStudentDto.t) (s : Student.t).

(** [update] never puts [tenantId], [userId] or [minutesUsed] in its data. *)
Lemma studentData_frame dto :
  StudentUpdateInput.tenantId (StudentsService.studentData dto) = None
  ∧ StudentUpdateInput.userId (StudentsService.studentData dto) = None
  ∧ StudentUpdateInput.minutesUsed (StudentsService.studentData dto) = None.
Proof. done. Qed.

Lemma applyStudentData_frame d now s :
  StudentUpdateInput.tenantId d = None →
  StudentUpdateInput.userId d = None →
  StudentUpdateInput.minutesUsed d = None →
  Student.tenantId (Prisma.applyStudentData d now s) = Student.tenantId s
  ∧ Student.userId (Prisma.applyStudentData d now s) = Student.userId s
  ∧ Student.minutesUsed (Prisma.applyStudentData d now s) = Student.minutesUsed s.
Proof. intros Ht Hu Hm; simpl. by rewrite Ht, Hu, Hm. Qed.

(** A resolved [update] went through [findOne], left the student table alone
    until its last statement, and its last statement wrote [studentData] to
    the row of [id]. *)
Lemma update_resolved_inv id dto tenantId w r w' :
  StudentsService.update id dto tenantId w = (Resolved r, w') →
  ∃ s s',
    students w !! id = Some s
    ∧ Student.tenantId s = tenantId
    ∧ s' = Prisma.applyStudentData (StudentsService.studentData dto) (clock w) s
    ∧ students w' = <[id := s']> (students w)
    ∧ StudentWithUser.student r = s'.
Proof.
  unfold StudentsService.update. intros H.
  unfold await at 1 in H.
  destruct (StudentsService.findOne id tenantId w) as [[found|e] w0] eqn:Hf; [|discriminate].
  apply findOne_resolved_inv in Hf as (s & Hs & Ht & _ & ->).
  unfold await at 1 in H.
  match type of H with
  | (let (_, _) := ?step w in _) = _ =>
      assert (∀ o w1, step w = (o, w1) → students w1 = students w ∧ clock w1 = clock w)
        as Hemail;
      [|destruct (step w) as [[[]|e] w1]; [|discriminate]]
  end.
  { unfold when. destruct (truthy (UpdateStudentDto.email dto)); [|by intros ?? [= <- <-]].
    unfold await at 1. rewrite student_findUnique_byId, Hs.
    unfold await at 1, Prisma.user_findUnique_email.
    intros o w1. unfold await at 1, when, throw.
    destruct (match Prisma.selectUserByEmail _ _ with Some _ => _ | None => _ end);
      [by intros [= <- <-]|].
    unfold resolve, await, Prisma.user_update_email.
    destruct (users w !! Student.userId s); [|by intros [= <- <-]].
    destruct (bool_decide _); by intros [= <- <-]. }
  destruct (Hemail _ _ eq_refl) as [Hst1 Hck1]. clear Hemail.
  unfold await at 1 in H.
  match type of H with
  | (let (_, _) := ?step w1 in _) = _ =>
      assert (∀ o w2, step w1 = (o, w2) → w2 = w1) as Hneph;
      [|destruct (step w1) as [[[]|e] w2]; [|discriminate]]
  end.
  { unfold when. destruct (truthy (UpdateStudentDto.neph dto)); [|by intros ?? [= <- <-]].
    unfold await, Prisma.student_findUnique, throw, resolve. intros o w2.
    destruct (match _ <$> Prisma.selectStudent _ _ with Some _ => _ | None => _ end);
      by intros [= <- <-]. }
  pose proof (Hneph _ _ eq_refl) as ->. clear Hneph.
  unfold Prisma.student_update_include, await at 1 in H.
  destruct (Prisma.student_update _ _ w1) as [[s'|e] w3] eqn:Hupd; [|discriminate].
  apply student_update_byId_inv in Hupd as (s0 & Hs0 & -> & ->).
  rewrite Hst1, Hs in Hs0. injection Hs0 as <-.
  unfold await, getWorld, resolve in H. injection H as <- <-.
  exists s, (Prisma.applyStudentData (StudentsService.studentData dto) (clock w) s).
  rewrite Hck1. simpl. by rewrite Hst1.
Qed.

(** With no [email] and no [neph] in the DTO, and a [minutesPurchased] that
    fits its column if there is one, [update] resolves for every student of
    the principal's tenant. *)
Lemma update_resolves id dto tenantId w s :
  students w !! id = Some s →
  Student.tenantId s = tenantId →
  UpdateStudentDto.email dto = None →
  UpdateStudentDto.neph dto = None →
  (∀ x, UpdateStudentDto.minutesPurchased dto = Some x → Prisma.int32 x = true) →
  ∃ r w', StudentsService.update id dto tenantId w = (Resolved r, w').
Proof.
  intros Hs Ht He Hn Hfit. unfold StudentsService.update, await at 1.
  rewrite (findOne_own _ _ _ _ Hs Ht). rewrite He, Hn; simpl.
  unfold await at 1, resolve. unfold await at 1.
  unfold Prisma.student_update_include, await at 1.
  erewrite student_update_byId; [|exact Hs| |by simpl; rewrite Hn].
  - unfold await, getWorld, resolve. by eexists _, _.
  - unfold Prisma.fitsStudentData; simpl. rewrite andb_true_r.
    destruct (UpdateStudentDto.minutesPurchased dto) as [x|]; simpl; [by apply Hfit|done].
Qed.

End Update.

(** C9. After every [update] that resolves, the row of [id] has the
    [tenantId], [userId] and [minutesUsed] it had before, for every DTO: the
    data written is built from the DTO's fields alone and has none of the
    three columns. The returned row is the stored one. *)
Theorem C9_update_keeps_tenant_user_and_minutesUsed :
  ∀ (id : string) (dto : UpdateStudentDto.t) (tenantId : string)
    (w : World) (r : StudentWithUser.t) (w' : World),
    StudentsService.update id dto tenantId w = (Resolved r, w') →
    ∃ s s',
      students w !! id = Some s
      ∧ students w' !! id = Some s'
      ∧ StudentWithUser.student r = s'
      ∧ Student.tenantId s' = Student.tenantId s
      ∧ Student.userId s' = Student.userId s
      ∧ Student.minutesUsed s' = Student.minutesUsed s.
Proof.
  intros id dto tenantId w r w' H.
  apply update_resolved_inv in H as (s & s' & Hs & _ & -> & Hst & Hr).
  exists s, (Prisma.applyStudentData (StudentsService.studentData dto) (clock w) s).
  split; [done|]. split; [by rewrite Hst, lookup_insert_eq|]. split; [done|].
  apply applyStudentData_frame; apply studentData_frame.
Qed.

(** The secretary of tenant-A renames s1 and resets her purchased minutes. *)
Lemma C9_witness :
  ∃ s s',
    students Sample.world !! "s1" = Some s
    ∧ students (snd (StudentsService.update "s1" Sample.rename "tenant-A" Sample.world)) !! "s1"
      = Some s'
    ∧ Student.firstName s' = "Julia"
    ∧ Student.minutesPurchased s' = 0
    ∧ Student.tenantId s' = Student.tenantId s
    ∧ Student.userId s' = Student.userId s
    ∧ Student.minutesUsed s' = Student.minutesUsed s.
Proof.
  destruct (C9_update_keeps_tenant_user_and_minutesUsed
              "s1" Sample.rename "tenant-A" Sample.world
              (Prisma.includeUser Sample.world
                 (Prisma.applyStudentData (StudentsService.studentData Sample.rename)
                    Sample.now Sample.s1))
              (snd (StudentsService.update "s1" Sample.rename "tenant-A" Sample.world)))
    as (s & s' & Hs & Hs' & Hr & Ht & Hu & Hm).
  - vm_compute. reflexivity.
  - exists s, s'. rewrite <- Hr. simpl. rewrite <- Hr in Ht, Hu, Hm. done.
Defined.

(** ** The guards of a route *)

Section Guards.

Implicit Types (guards : list Guard) (context : ExecutionContext.t) (w : World).

(** The guards that were evaluated are an initial segment of the declared
    list: they run in the declared order, none is skipped. *)
Lemma tryActivate_prefix guards context w :
  evaluated (tryActivate guards context w) `prefix_of` guards.
Proof.
  revert context. induction guards as [|g guards IH]; intros context; simpl.
  - done.
  - destruct (guard_canActivate g context w) as [[[] context']|e]; simpl.
    + apply prefix_cons, IH.
    + by exists guards.
    + by exists guards.
Qed.

(** The run is short-circuiting: when it ends in a rejection, the guard that
    was evaluated last is the one that failed, and the guards declared after
    it were not evaluated. *)
Lemma tryActivate_short_circuit guards context w e :
  verdict (tryActivate guards context w) = Rejected e →
  ∃ before g rest,
    guards = before ++ g :: rest
    ∧ evaluated (tryActivate guards context w) = before ++ [g].
Proof.
  revert context. induction guards as [|g guards IH]; intros context; simpl.
  - discriminate.
  - destruct (guard_canActivate g context w) as [[[] context']|e']; simpl.
    + intros (before & g' & rest & -> & ->)%IH.
      by exists (g :: before), g', rest.
    + intros _. by exists [], g, guards.
    + intros _. by exists [], g, guards.
Qed.

(** When the run authorizes, every declared guard was evaluated. *)
Lemma tryActivate_resolved guards context w context' :
  verdict (tryActivate guards context w) = Resolved context' →
  evaluated (tryActivate guards context w) = guards.
Proof.
  revert context. induction guards as [|g guards IH]; intros context; simpl.
  - done.
  - destruct (guard_canActivate g context w) as [[[] context'']|e']; simpl;
      [|discriminate..].
    intros ->%IH. done.
Qed.

(** The tenant-scope stage is never evaluated in front of a handler of the
    students controller: it is not in the controller's [@UseGuards]. *)
Lemma students_controller_never_evaluates_tenant_guard h req w :
  TenantGuard_ ∉ evaluated (StudentsController.activate h req w).
Proof.
  intros Hin.
  pose proof (tryActivate_prefix StudentsController.guards
                (StudentsController.context h req) w) as [rest Heq].
  assert (TenantGuard_ ∈ StudentsController.guards) as Hg.
  { rewrite Heq. apply elem_of_app. by left. }
  unfold StudentsController.guards in Hg.
  by repeat (apply elem_of_cons in Hg as [?|Hg]; [done|]); apply elem_of_nil in Hg.
Qed.

End Guards.

(** The chain that tenant.guard.ts documents (JwtAuthGuard, TenantGuard,
    RolesGuard) stops the account without tenant at the tenant-scope stage,
    and the role check is not evaluated. *)
Example documented_chain_refuses_empty_tenant :
  tryActivate [JwtAuthGuard_; TenantGuard_; RolesGuard_]
    (StudentsController.context StudentsController.findOne (Sample.request Sample.ghost))
    Sample.world_with_ghost
  = mkGuardRun [JwtAuthGuard_; TenantGuard_]
      (Rejected (ErrorObject ForbiddenException "Forbidden resource")).
Proof. reflexivity. Qed.

(** Without a credential the chain of the controller stops at its first
    stage with a 401. *)
Example students_controller_refuses_anonymous :
  StudentsController.activate StudentsController.findOne
    (Request.mk NoCredential None) Sample.world
  = mkGuardRun [JwtAuthGuard_] (Rejected (ErrorObject UnauthorizedException "Unauthorized")).
Proof. reflexivity. Qed.

(** C8, on the code. A secretary of tenant-A calls [GET /students/:id]: the
    stages evaluated are authentication, then the role check; the
    tenant-scope stage is not among them, for this request and for every
    other request to the controller. For an account whose [tenantId] is
    empty the same chain authorizes the request, although [TenantGuard]
    refuses the principal it was handed. *)
Theorem C8_students_controller_chain_has_no_tenant_stage :
  evaluated
    (StudentsController.activate StudentsController.findOne
       (Sample.request Sample.secretary) Sample.world)
  = [JwtAuthGuard_; RolesGuard_]
  ∧ (∀ h req w, TenantGuard_ ∉ evaluated (StudentsController.activate h req w))
  ∧ ∃ context',
      verdict
        (StudentsController.activate StudentsController.findOne
           (Sample.request Sample.ghost) Sample.world_with_ghost)
      = Resolved context'
      ∧ Request.user (ExecutionContext.request context') = Some (Sample.principal Sample.ghost)
      ∧ TenantGuard.canActivate context' = false.
Proof.
  split; [reflexivity|]. split.
  - apply students_controller_never_evaluates_tenant_guard.
  - eexists. split; [vm_compute; reflexivity|]. split; reflexivity.
Qed.

(** * Further properties of the services *)

(** ** What [log] leaves alone *)

Section AfterLog.

Implicit Types (data : AuditLogData.t) (w : World).

Lemma afterLog_clock data w : clock (afterLog data w) = clock w.
Proof. unfold afterLog. by destruct (auditCreateFault w). Qed.

Lemma afterLog_fault data w : auditCreateFault (afterLog data w) = auditCreateFault w.
Proof. unfold afterLog. by destruct (auditCreateFault w) eqn:E. Qed.

Lemma afterLog_auditLogs_healthy data w :
  auditCreateFault w = None →
  auditLogs (afterLog data w) = auditLogs w ++ [auditRow data w].
Proof. intros H. unfold afterLog. by rewrite H. Qed.

Lemma afterLog_auditLogs_down data w error :
  auditCreateFault w = Some error →
  auditLogs (afterLog data w) = auditLogs w.
Proof. intros H. unfold afterLog. by rewrite H. Qed.

End AfterLog.

(** ** The audited mutations, step by step *)

Section Mutations.

Implicit Types (w : World) (id tenantId actorUserId : string) (minutes : Z) (s : Student.t).

(** [archive] on a student of the caller's tenant. *)
Lemma archive_eq id tenantId actorUserId w s :
  students w !! id = Some s →
  Student.tenantId s = tenantId →
  StudentsService.archive id tenantId actorUserId w
  = (Resolved (archived (clock w) s),
     afterLog (archiveEntry id tenantId actorUserId s)
       (with_students (insert id (archived (clock w) s)) w)).
Proof.
  intros Hs Ht. unfold StudentsService.archive, await at 1.
  rewrite (findOne_own _ _ _ _ Hs Ht); simpl.
  unfold await at 1, getWorld. unfold await at 1.
  erewrite student_update_byId; [|exact Hs|reflexivity|reflexivity].
  unfold await. by rewrite log_eq.
Qed.

(** [restore] on an archived student of the caller's tenant. *)
Lemma restore_eq id tenantId actorUserId w s :
  students w !! id = Some s →
  Student.tenantId s = tenantId →
  Student.archivedAt s ≠ None →
  StudentsService.restore id tenantId actorUserId w
  = (Resolved (restored (clock w) s),
     afterLog (restoreEntry id tenantId actorUserId s)
       (with_students (insert id (restored (clock w) s)) w)).
Proof.
  intros Hs Ht Ha. unfold StudentsService.restore, await at 1.
  rewrite (findOne_own _ _ _ _ Hs Ht); simpl.
  unfold await at 1. rewrite bool_decide_eq_false_2 by done. simpl.
  unfold resolve at 1. unfold await at 1.
  erewrite student_update_byId; [|exact Hs|reflexivity|reflexivity].
  unfold await. by rewrite log_eq.
Qed.

(** [restore] on a student that is not archived. *)
Lemma restore_not_archived id tenantId actorUserId w s :
  students w !! id = Some s →
  Student.tenantId s = tenantId →
  Student.archivedAt s = None →
  StudentsService.restore id tenantId actorUserId w
  = (Rejected (ErrorObject ConflictException "Cet élève n'est pas archivé"), w).
Proof.
  intros Hs Ht Ha. unfold StudentsService.restore, await at 1.
  rewrite (findOne_own _ _ _ _ Hs Ht); simpl.
  unfold await at 1. by rewrite bool_decide_eq_true_2.
Qed.

(** [addPurchasedMinutes] on a student of the caller's tenant: the store
    takes the increment when the number and the new total fit the column, and
    refuses it otherwise, before anything is logged. *)
Lemma addPurchasedMinutes_eq id minutes tenantId actorUserId w s :
  students w !! id = Some s →
  Student.tenantId s = tenantId →
  StudentsService.addPurchasedMinutes id minutes tenantId actorUserId w
  = if Prisma.int32 minutes && Prisma.int32 (Student.minutesPurchased s + minutes)
    then (Resolved (purchased minutes (clock w) s),
          afterLog (purchaseEntry id minutes tenantId actorUserId s)
            (with_students (insert id (purchased minutes (clock w) s)) w))
    else (Rejected Prisma.P2020, w).
Proof.
  intros Hs Ht. unfold StudentsService.addPurchasedMinutes, await at 1.
  rewrite (findOne_own _ _ _ _ Hs Ht); simpl.
  unfold await at 1.
  destruct (Prisma.int32 minutes && Prisma.int32 (Student.minutesPurchased s + minutes))
    eqn:Hfit; rewrite <- (fits_purchase minutes s) in Hfit.
  - erewrite student_update_byId; [|exact Hs|exact Hfit|reflexivity].
    unfold await. by rewrite log_eq.
  - by erewrite student_update_byId_refused; [|exact Hs|exact Hfit].
Qed.

(** [addUsedMinutes] on a student of the caller's tenant: the comparison
    with the purchased minutes, then the store, which takes the sum when it
    fits the column. *)
Lemma addUsedMinutes_eq id minutes tenantId actorUserId w s :
  students w !! id = Some s →
  Student.tenantId s = tenantId →
  Student.minutesUsed s + minutes ≤ Student.minutesPurchased s →
  StudentsService.addUsedMinutes id minutes tenantId actorUserId w
  = if Prisma.int32 (Student.minutesUsed s + minutes)
    then (Resolved (consumed minutes (clock w) s),
          afterLog (consumptionEntry id minutes tenantId actorUserId s)
            (with_students (insert id (consumed minutes (clock w) s)) w))
    else (Rejected Prisma.P2020, w).
Proof.
  intros Hs Ht Hle.
  destruct (Prisma.int32 (Student.minutesUsed s + minutes)) eqn:Hfit;
    [|exact (addUsedMinutes_refused _ _ _ _ _ _ Hs Ht Hle Hfit)].
  unfold StudentsService.addUsedMinutes, await at 1.
  rewrite (findOne_own _ _ _ _ Hs Ht); simpl.
  rewrite bool_decide_eq_false_2 by lia.
  unfold await at 1.
  erewrite student_update_byId; [|exact Hs|exact Hfit|reflexivity].
  unfold await. by rewrite log_eq.
Qed.

(** [getRemainingMinutes] on a student of the caller's tenant. *)
Lemma getRemainingMinutes_eq id tenantId w s :
  students w !! id = Some s →
  Student.tenantId s = tenantId →
  StudentsService.getRemainingMinutes id tenantId w
  = (Resolved (Student.minutesPurchased s - Student.minutesUsed s), w).
Proof.
  intros Hs Ht. unfold StudentsService.getRemainingMinutes, await.
  by rewrite (findOne_own _ _ _ _ Hs Ht).
Qed.

End Mutations.

(** ** The gate in front of every operation on one student *)

(** Each operation with an identifier awaits [findOne] first. *)
Lemma reject_as_findOne :
  ∀ (id tenantId actorUserId : string) (minutes : Z) (dto : UpdateStudentDto.t)
    (w : World) (e : Thrown),
    fst (StudentsService.findOne id tenantId w) = Rejected e →
    StudentsService.update id dto tenantId w = (Rejected e, w)
    ∧ StudentsService.archive id tenantId actorUserId w = (Rejected e, w)
    ∧ StudentsService.restore id tenantId actorUserId w = (Rejected e, w)
    ∧ StudentsService.getRemainingMinutes id tenantId w = (Rejected e, w)
    ∧ StudentsService.addPurchasedMinutes id minutes tenantId actorUserId w = (Rejected e, w)
    ∧ StudentsService.addUsedMinutes id minutes tenantId actorUserId w = (Rejected e, w).
Proof.
  intros id tenantId actorUserId minutes dto w e He.
  assert (StudentsService.findOne id tenantId w = (Rejected e, w)) as Hf.
  { revert He. rewrite findOne_eq. destruct (students w !! id) as [s|].
    - case_bool_decide; simpl; [discriminate|]. by intros [= <-].
    - simpl. by intros [= <-]. }
  unfold StudentsService.update, StudentsService.archive, StudentsService.restore,
    StudentsService.getRemainingMinutes, StudentsService.addPurchasedMinutes,
    StudentsService.addUsedMinutes.
  repeat split; unfold await at 1; by rewrite Hf.
Qed.

(** Every operation of [StudentsService] that takes an identifier starts with
    [findOne]: when [findOne] rejects (the row is another tenant's, or there
    is none), the operation rejects with the same exception and nothing has
    changed: no row, no audit record, no log line. *)
Theorem by_id_operations_reject_as_findOne :
  ∀ (id tenantId actorUserId : string) (minutes : Z) (dto : UpdateStudentDto.t)
    (w : World) (e : Thrown),
    fst (StudentsService.findOne id tenantId w) = Rejected e →
    StudentsService.update id dto tenantId w = (Rejected e, w)
    ∧ StudentsService.archive id tenantId actorUserId w = (Rejected e, w)
    ∧ StudentsService.restore id tenantId actorUserId w = (Rejected e, w)
    ∧ StudentsService.getRemainingMinutes id tenantId w = (Rejected e, w)
    ∧ StudentsService.addPurchasedMinutes id minutes tenantId actorUserId w = (Rejected e, w)
    ∧ StudentsService.addUsedMinutes id minutes tenantId actorUserId w = (Rejected e, w).
Proof. exact reject_as_findOne. Qed.

(** The secretary of tenant-A tries each operation on s2, a student of
    tenant-B. *)
Lemma by_id_operations_reject_as_findOne_witness :
  StudentsService.archive "s2" "tenant-A" "u-sec" Sample.world
  = (Rejected (ErrorObject ForbiddenException "Accès interdit à cette ressource"), Sample.world)
  ∧ StudentsService.addPurchasedMinutes "s2" 600 "tenant-A" "u-sec" Sample.world
    = (Rejected (ErrorObject ForbiddenException "Accès interdit à cette ressource"),
       Sample.world).
Proof.
  destruct (by_id_operations_reject_as_findOne "s2" "tenant-A" "u-sec" 600
              UpdateStudentDto.empty Sample.world
              (ErrorObject ForbiddenException "Accès interdit à cette ressource"))
    as (_ & Ha & _ & _ & Hp & _).
  - reflexivity.
  - by split.
Defined.

(** ** Frame of the audited mutations *)

Section Frame.

Implicit Types (w : World) (id tenantId actorUserId : string) (minutes : Z).

Lemma insert_frame id (s' : Student.t) data w j :
  j ≠ id →
  students (afterLog data (with_students (insert id s') w)) !! j = students w !! j.
Proof. intros Hj. rewrite afterLog_students; simpl. by rewrite lookup_insert_ne. Qed.

Lemma findOne_cases id tenantId w :
  (∃ e, StudentsService.findOne id tenantId w = (Rejected e, w))
  ∨ (∃ s, students w !! id = Some s ∧ Student.tenantId s = tenantId).
Proof.
  rewrite findOne_eq. destruct (students w !! id) as [s|]; [|left; by eexists].
  case_bool_decide; [right; by exists s | left; by eexists].
Qed.

End Frame.

(** [archive], [restore], [addPurchasedMinutes] and [addUsedMinutes] touch at
    most the row of their identifier: whatever the outcome, every other
    student row and the whole user table are as before. *)
Theorem audited_mutations_touch_one_row :
  ∀ (id tenantId actorUserId : string) (minutes : Z) (w : World) (j : string),
    j ≠ id →
    (students (snd (StudentsService.archive id tenantId actorUserId w)) !! j = students w !! j
     ∧ users (snd (StudentsService.archive id tenantId actorUserId w)) = users w)
    ∧ (students (snd (StudentsService.restore id tenantId actorUserId w)) !! j = students w !! j
       ∧ users (snd (StudentsService.restore id tenantId actorUserId w)) = users w)
    ∧ (students (snd (StudentsService.addPurchasedMinutes id minutes tenantId actorUserId w)) !! j
       = students w !! j
       ∧ users (snd (StudentsService.addPurchasedMinutes id minutes tenantId actorUserId w))
         = users w)
    ∧ (students (snd (StudentsService.addUsedMinutes id minutes tenantId actorUserId w)) !! j
       = students w !! j
       ∧ users (snd (StudentsService.addUsedMinutes id minutes tenantId actorUserId w))
         = users w).
Proof.
  intros id tenantId actorUserId minutes w j Hj.
  destruct (findOne_cases id tenantId w) as [[e Hf]|(s & Hs & Ht)].
  - destruct (reject_as_findOne id tenantId actorUserId minutes
                UpdateStudentDto.empty w e) as (_ & -> & -> & _ & -> & ->);
      [by rewrite Hf|]. done.
  - split; [|split; [|split]].
    + rewrite (archive_eq _ _ _ _ _ Hs Ht); simpl.
      by rewrite insert_frame, afterLog_users.
    + destruct (decide (Student.archivedAt s = None)) as [Ha|Ha].
      * by rewrite (restore_not_archived _ _ _ _ _ Hs Ht Ha).
      * rewrite (restore_eq _ _ _ _ _ Hs Ht Ha); simpl.
        by rewrite insert_frame, afterLog_users.
    + rewrite (addPurchasedMinutes_eq _ _ _ _ _ _ Hs Ht).
      destruct (_ && _); simpl; [|done].
      by rewrite insert_frame, afterLog_users.
    + destruct (Z_le_gt_dec (Student.minutesUsed s + minutes) (Student.minutesPurchased s))
        as [Hle|Hgt].
      * rewrite (addUsedMinutes_eq _ _ _ _ _ _ Hs Ht Hle).
        destruct (Prisma.int32 _); simpl; [|done].
        by rewrite insert_frame, afterLog_users.
      * by rewrite (addUsedMinutes_conflict _ _ _ _ _ _ Hs Ht Hgt).
Qed.

(** Archiving s1 leaves s2 alone. *)
Lemma audited_mutations_touch_one_row_witness :
  students (snd (StudentsService.archive "s1" "tenant-A" "u-admin" Sample.world)) !! "s2"
  = Some Sample.s2.
Proof.
  destruct (audited_mutations_touch_one_row "s1" "tenant-A" "u-admin" 0 Sample.world "s2")
    as ((-> & _) & _).
  - discriminate.
  - reflexivity.
Defined.

(** ** Archiving and restoring *)

(** [archive] on a student of the caller's tenant always resolves, whether or
    not the student is archived already: the stored row gets status ARCHIVED
    and the current time as [archivedAt] (an earlier archive date is
    overwritten), and keeps its tenant, its user and its minutes. *)
Theorem archive_marks_the_student_archived :
  ∀ (id tenantId actorUserId : string) (w : World) (s : Student.t),
    students w !! id = Some s →
    Student.tenantId s = tenantId →
    ∃ s' w',
      StudentsService.archive id tenantId actorUserId w = (Resolved s', w')
      ∧ students w' !! id = Some s'
      ∧ Student.status s' = StudentStatus.ARCHIVED
      ∧ Student.archivedAt s' = Some (clock w)
      ∧ Student.tenantId s' = Student.tenantId s
      ∧ Student.userId s' = Student.userId s
      ∧ Student.minutesPurchased s' = Student.minutesPurchased s
      ∧ Student.minutesUsed s' = Student.minutesUsed s.
Proof.
  intros id tenantId actorUserId w s Hs Ht.
  eexists _, _. split; [apply (archive_eq _ _ _ _ _ Hs Ht)|].
  rewrite afterLog_students; simpl. by rewrite lookup_insert_eq.
Qed.

Lemma archive_marks_the_student_archived_witness :
  ∃ s' w',
    StudentsService.archive "s1" "tenant-A" "u-admin" Sample.world = (Resolved s', w')
    ∧ students w' !! "s1" = Some s'
    ∧ Student.status s' = StudentStatus.ARCHIVED
    ∧ Student.archivedAt s' = Some Sample.now
    ∧ Student.tenantId s' = "tenant-A"
    ∧ Student.userId s' = "u-s1"
    ∧ Student.minutesPurchased s' = 1200
    ∧ Student.minutesUsed s' = 300.
Proof.
  apply (archive_marks_the_student_archived "s1" "tenant-A" "u-admin" Sample.world Sample.s1);
    reflexivity.
Defined.

(** [restore] refuses a student that is not archived with a
    [ConflictException] and changes nothing; on an archived student it
    resolves, clears [archivedAt] and sets the status to ACTIVE. *)
Theorem restore_needs_an_archived_student :
  ∀ (id tenantId actorUserId : string) (w : World) (s : Student.t),
    students w !! id = Some s →
    Student.tenantId s = tenantId →
    (Student.archivedAt s = None →
     StudentsService.restore id tenantId actorUserId w
     = (Rejected (ErrorObject ConflictException "Cet élève n'est pas archivé"), w))
    ∧ (Student.archivedAt s ≠ None →
       ∃ s' w',
         StudentsService.restore id tenantId actorUserId w = (Resolved s', w')
         ∧ students w' !! id = Some s'
         ∧ Student.archivedAt s' = None
         ∧ Student.status s' = StudentStatus.ACTIVE).
Proof.
  intros id tenantId actorUserId w s Hs Ht. split.
  - apply (restore_not_archived _ _ _ _ _ Hs Ht).
  - intros Ha. eexists _, _. split; [apply (restore_eq _ _ _ _ _ Hs Ht Ha)|].
    rewrite afterLog_students; simpl. by rewrite lookup_insert_eq.
Qed.

(** s1 is active: restoring her is a conflict. *)
Lemma restore_needs_an_archived_student_witness :
  StudentsService.restore "s1" "tenant-A" "u-admin" Sample.world
  = (Rejected (ErrorObject ConflictException "Cet élève n'est pas archivé"), Sample.world).
Proof.
  apply (proj1 (restore_needs_an_archived_student
                  "s1" "tenant-A" "u-admin" Sample.world Sample.s1 eq_refl eq_refl)).
  reflexivity.
Defined.

(** [archive] followed by [restore] always goes through, and the student
    comes back with status ACTIVE whatever the status was before archiving
    (the previous status is only kept in the audit metadata); every column
    other than [status], [archivedAt] and the modification stamp is the
    original one. *)
Theorem restore_after_archive_makes_the_student_active :
  ∀ (id tenantId actorUserId actorUserId' : string) (w : World) (s : Student.t),
    students w !! id = Some s →
    Student.tenantId s = tenantId →
    ∃ s1 w1 s2 w2,
      StudentsService.archive id tenantId actorUserId w = (Resolved s1, w1)
      ∧ StudentsService.restore id tenantId actorUserId' w1 = (Resolved s2, w2)
      ∧ students w2 !! id = Some s2
      ∧ s2 = restored (clock w) s
      ∧ Student.status s2 = StudentStatus.ACTIVE
      ∧ Student.archivedAt s2 = None
      ∧ (∀ j, j ≠ id → students w2 !! j = students w !! j).
Proof.
  intros id tenantId actorUserId actorUserId' w s Hs Ht.
  pose proof (archive_eq id tenantId actorUserId w s Hs Ht) as Ha.
  set (w1 := afterLog (archiveEntry id tenantId actorUserId s)
               (with_students (insert id (archived (clock w) s)) w)) in *.
  assert (students w1 !! id = Some (archived (clock w) s)) as Hs1.
  { unfold w1. rewrite afterLog_students; simpl. by rewrite lookup_insert_eq. }
  assert (clock w1 = clock w) as Hc by (unfold w1; by rewrite afterLog_clock).
  pose proof (restore_eq id tenantId actorUserId' w1 _ Hs1 Ht) as Hr.
  rewrite Hc in Hr.
  eexists _, w1, _, _. split; [exact Ha|]. split; [by apply Hr|].
  rewrite afterLog_students; simpl. rewrite lookup_insert_eq.
  split; [done|]. split; [done|]. split; [done|]. split; [done|].
  intros j Hj. rewrite lookup_insert_ne by done.
  unfold w1. by rewrite insert_frame.
Qed.

Lemma restore_after_archive_makes_the_student_active_witness :
  ∃ s1 w1 s2 w2,
    StudentsService.archive "s3" "tenant-A" "u-admin" Sample.world_with_prospect
    = (Resolved s1, w1)
    ∧ StudentsService.restore "s3" "tenant-A" "u-sec" w1 = (Resolved s2, w2)
    ∧ students w2 !! "s3" = Some s2
    ∧ s2 = restored Sample.now Sample.s3
    ∧ Student.status s2 = StudentStatus.ACTIVE
    ∧ Student.archivedAt s2 = None
    ∧ (∀ j, j ≠ "s3" → students w2 !! j = students Sample.world_with_prospect !! j).
Proof.
  apply (restore_after_archive_makes_the_student_active
           "s3" "tenant-A" "u-admin" "u-sec" Sample.world_with_prospect Sample.s3);
    reflexivity.
Defined.

(** ** Minutes *)

(** [addPurchasedMinutes] checks nothing about [minutes]; the only bound is
    the range of the column.  On a student of the caller's tenant, for every
    integer that fits the signed 32-bit column and whose total with
    [minutesPurchased] fits it too, the call resolves, adds the integer to
    [minutesPurchased] and leaves [minutesUsed] alone: with [minutes >= 0] a
    student with [minutesUsed <= minutesPurchased] stays so; a negative
    purchase below the used minutes leaves the student with more minutes used
    than purchased.  For any other integer the store refuses the write, and
    the call is rejected with nothing changed. *)
Theorem addPurchasedMinutes_checks_only_the_column_range :
  ∀ (id : string) (minutes : Z) (tenantId actorUserId : string) (w : World) (s : Student.t),
    students w !! id = Some s →
    Student.tenantId s = tenantId →
    (-2147483648 ≤ minutes ≤ 2147483647 →
     -2147483648 ≤ Student.minutesPurchased s + minutes ≤ 2147483647 →
     ∃ s' w',
       StudentsService.addPurchasedMinutes id minutes tenantId actorUserId w = (Resolved s', w')
       ∧ students w' !! id = Some s'
       ∧ Student.minutesPurchased s' = Student.minutesPurchased s + minutes
       ∧ Student.minutesUsed s' = Student.minutesUsed s
       ∧ (0 ≤ minutes → Student.minutesUsed s ≤ Student.minutesPurchased s →
          Student.minutesUsed s' ≤ Student.minutesPurchased s')
       ∧ (Student.minutesPurchased s + minutes < Student.minutesUsed s →
          Student.minutesPurchased s' < Student.minutesUsed s'))
    ∧ (¬ (-2147483648 ≤ minutes ≤ 2147483647
          ∧ -2147483648 ≤ Student.minutesPurchased s + minutes ≤ 2147483647) →
       StudentsService.addPurchasedMinutes id minutes tenantId actorUserId w
       = (Rejected Prisma.P2020, w)).
Proof.
  intros id minutes tenantId actorUserId w s Hs Ht.
  rewrite (addPurchasedMinutes_eq _ _ _ _ _ _ Hs Ht). split.
  - intros Hm%int32_spec Hp%int32_spec. rewrite Hm, Hp; simpl.
    eexists _, _. split; [reflexivity|].
    rewrite afterLog_students; simpl. rewrite lookup_insert_eq.
    repeat split; lia.
  - intros Hno.
    destruct (Prisma.int32 minutes) eqn:Hm; simpl; [|done].
    destruct (Prisma.int32 (Student.minutesPurchased s + minutes)) eqn:Hp; [|done].
    exfalso. apply Hno. split; by apply int32_spec.
Qed.

(** Minus 1000 minutes for s1 (1200 bought, 300 used): accepted, and she is
    left with 200 bought for 300 used. *)
Lemma addPurchasedMinutes_checks_only_the_column_range_witness :
  ∃ s' w',
    StudentsService.addPurchasedMinutes "s1" (-1000) "tenant-A" "u-admin" Sample.world
    = (Resolved s', w')
    ∧ students w' !! "s1" = Some s'
    ∧ Student.minutesPurchased s' = 1200 + -1000
    ∧ Student.minutesUsed s' = 300
    ∧ (0 ≤ -1000 → 300 ≤ 1200 → Student.minutesUsed s' ≤ Student.minutesPurchased s')
    ∧ (1200 + -1000 < 300 → Student.minutesPurchased s' < Student.minutesUsed s').
Proof.
  refine (proj1 (addPurchasedMinutes_checks_only_the_column_range
                   "s1" (-1000) "tenant-A" "u-admin" Sample.world Sample.s1 _ _) _ _).
  - reflexivity.
  - reflexivity.
  - lia.
  - simpl. lia.
Defined.

(** [getRemainingMinutes] follows the two mutations: after a consumption of
    [minutes] that was accepted it answers [minutes] less than before and is
    never negative; after a purchase of [minutes] it answers [minutes] more. *)
Theorem getRemainingMinutes_follows_the_mutations :
  ∀ (id : string) (minutes : Z) (tenantId actorUserId : string) (w : World) (s : Student.t),
    students w !! id = Some s →
    Student.tenantId s = tenantId →
    let remaining := Student.minutesPurchased s - Student.minutesUsed s in
    StudentsService.getRemainingMinutes id tenantId w = (Resolved remaining, w)
    ∧ (∀ s' w',
         StudentsService.addUsedMinutes id minutes tenantId actorUserId w = (Resolved s', w') →
         StudentsService.getRemainingMinutes id tenantId w' = (Resolved (remaining - minutes), w')
         ∧ 0 ≤ remaining - minutes)
    ∧ (∀ s' w',
         StudentsService.addPurchasedMinutes id minutes tenantId actorUserId w
         = (Resolved s', w') →
         StudentsService.getRemainingMinutes id tenantId w'
         = (Resolved (remaining + minutes), w')).
Proof.
  intros id minutes tenantId actorUserId w s Hs Ht remaining. subst remaining.
  split; [apply (getRemainingMinutes_eq _ _ _ _ Hs Ht)|]. split.
  - intros s' w'.
    destruct (Z_le_gt_dec (Student.minutesUsed s + minutes) (Student.minutesPurchased s))
      as [Hle|Hgt].
    + rewrite (addUsedMinutes_eq _ _ _ _ _ _ Hs Ht Hle).
      destruct (Prisma.int32 _); [|discriminate]. intros [= <- <-].
      split; [|lia].
      erewrite getRemainingMinutes_eq;
        [|rewrite afterLog_students; simpl; apply lookup_insert_eq|exact Ht].
      simpl. do 2 f_equal. lia.
    + by rewrite (addUsedMinutes_conflict _ _ _ _ _ _ Hs Ht Hgt).
  - intros s' w'. rewrite (addPurchasedMinutes_eq _ _ _ _ _ _ Hs Ht).
    destruct (_ && _); [|discriminate]. intros [= <- <-].
    erewrite getRemainingMinutes_eq;
      [|rewrite afterLog_students; simpl; apply lookup_insert_eq|exact Ht].
    simpl. do 2 f_equal. lia.
Qed.

(** s1 has 900 minutes left; after a lesson of 90 minutes she has 810. *)
Lemma getRemainingMinutes_follows_the_mutations_witness :
  StudentsService.getRemainingMinutes "s1" "tenant-A" Sample.world
  = (Resolved 900, Sample.world)
  ∧ fst (StudentsService.getRemainingMinutes "s1" "tenant-A"
           (snd (StudentsService.addUsedMinutes "s1" 90 "tenant-A" "u-ins" Sample.world)))
    = Resolved 810.
Proof.
  destruct (getRemainingMinutes_follows_the_mutations
              "s1" 90 "tenant-A" "u-ins" Sample.world Sample.s1 eq_refl eq_refl)
    as (Hr & Hu & _).
  split; [exact Hr|].
  destruct (Hu (consumed 90 Sample.now Sample.s1)
              (snd (StudentsService.addUsedMinutes "s1" 90 "tenant-A" "u-ins" Sample.world)))
    as [-> _]; reflexivity.
Defined.

(** ** The audit trail of the mutations *)

(** With the audit table healthy, each resolved [archive], [restore],
    [addPurchasedMinutes] and [addUsedMinutes] appends exactly one audit row:
    for the caller's tenant, the acting user and the student's identifier,
    stamped with the current time, with the action of the mutation. The
    hours rows carry the old and the new value, and the new value is the one
    in the store. *)
Theorem audited_mutations_append_one_row :
  ∀ (id : string) (minutes : Z) (tenantId actorUserId : string) (w : World) (s : Student.t),
    students w !! id = Some s →
    Student.tenantId s = tenantId →
    auditCreateFault w = None →
    let about (action : string) (row : AuditLog.t) :=
      AuditLog.tenantId row = tenantId ∧ AuditLog.actorUserId row = actorUserId
      ∧ AuditLog.entityType row = "Student" ∧ AuditLog.entityId row = id
      ∧ AuditLog.action row = action ∧ AuditLog.createdAt row = clock w in
    (∃ row, auditLogs (snd (StudentsService.archive id tenantId actorUserId w))
            = auditLogs w ++ [row]
            ∧ about "STUDENT_ARCHIVED" row
            ∧ ("previousStatus", JStatus (Student.status s)) ∈ AuditLog.metadata row)
    ∧ (Student.archivedAt s ≠ None →
       ∃ row, auditLogs (snd (StudentsService.restore id tenantId actorUserId w))
              = auditLogs w ++ [row]
              ∧ about "STUDENT_UPDATED" row)
    ∧ (∀ r w',
         StudentsService.addPurchasedMinutes id minutes tenantId actorUserId w
         = (Resolved r, w') →
         ∃ row s',
           auditLogs w' = auditLogs w ++ [row]
           ∧ about "STUDENT_HOURS_UPDATED" row
           ∧ students w' !! id = Some s'
           ∧ ("previousMinutesPurchased", JNumber (Student.minutesPurchased s))
               ∈ AuditLog.metadata row
           ∧ ("newMinutesPurchased", JNumber (Student.minutesPurchased s'))
               ∈ AuditLog.metadata row)
    ∧ (∀ r w',
         StudentsService.addUsedMinutes id minutes tenantId actorUserId w
         = (Resolved r, w') →
         ∃ row s',
           auditLogs w' = auditLogs w ++ [row]
           ∧ about "STUDENT_HOURS_UPDATED" row
           ∧ students w' !! id = Some s'
           ∧ ("previousMinutesUsed", JNumber (Student.minutesUsed s)) ∈ AuditLog.metadata row
           ∧ ("newMinutesUsed", JNumber (Student.minutesUsed s')) ∈ AuditLog.metadata row).
Proof.
  intros id minutes tenantId actorUserId w s Hs Ht Hok about. subst about.
  split; [|split; [|split]].
  - rewrite (archive_eq _ _ _ _ _ Hs Ht); simpl.
    rewrite afterLog_auditLogs_healthy by done. eexists. split; [done|].
    split; [done|]. simpl. set_solver.
  - intros Ha. rewrite (restore_eq _ _ _ _ _ Hs Ht Ha); simpl.
    rewrite afterLog_auditLogs_healthy by done. by eexists.
  - intros r w'. rewrite (addPurchasedMinutes_eq _ _ _ _ _ _ Hs Ht).
    destruct (_ && _); [|discriminate]. intros [= <- <-].
    rewrite afterLog_auditLogs_healthy by done. rewrite afterLog_students; simpl.
    rewrite lookup_insert_eq. eexists _, _. split; [done|]. split; [done|].
    split; [done|]. simpl. set_solver.
  - intros r w'.
    destruct (Z_le_gt_dec (Student.minutesUsed s + minutes) (Student.minutesPurchased s))
      as [Hle|Hgt];
      [|by rewrite (addUsedMinutes_conflict _ _ _ _ _ _ Hs Ht Hgt)].
    rewrite (addUsedMinutes_eq _ _ _ _ _ _ Hs Ht Hle).
    destruct (Prisma.int32 _); [|discriminate]. intros [= <- <-].
    rewrite afterLog_auditLogs_healthy by done. rewrite afterLog_students; simpl.
    rewrite lookup_insert_eq. eexists _, _. split; [done|]. split; [done|].
    split; [done|]. simpl. set_solver.
Qed.

Lemma audited_mutations_append_one_row_witness :
  ∃ row s',
    auditLogs (snd (StudentsService.addUsedMinutes "s1" 90 "tenant-A" "u-ins" Sample.world))
    = [] ++ [row]
    ∧ (AuditLog.tenantId row = "tenant-A" ∧ AuditLog.actorUserId row = "u-ins"
       ∧ AuditLog.entityType row = "Student" ∧ AuditLog.entityId row = "s1"
       ∧ AuditLog.action row = "STUDENT_HOURS_UPDATED" ∧ AuditLog.createdAt row = Sample.now)
    ∧ students (snd (StudentsService.addUsedMinutes "s1" 90 "tenant-A" "u-ins" Sample.world))
        !! "s1" = Some s'
    ∧ ("previousMinutesUsed", JNumber 300) ∈ AuditLog.metadata row
    ∧ ("newMinutesUsed", JNumber (Student.minutesUsed s')) ∈ AuditLog.metadata row.
Proof.
  refine (proj2 (proj2 (proj2 (audited_mutations_append_one_row
                                 "s1" 90 "tenant-A" "u-ins" Sample.world Sample.s1 _ _ _)))
            (consumed 90 Sample.now Sample.s1)
            (snd (StudentsService.addUsedMinutes "s1" 90 "tenant-A" "u-ins" Sample.world)) _).
  - reflexivity.
  - reflexivity.
  - reflexivity.
  - reflexivity.
Defined.

(** ** Frames, compositionally *)

Section Keeps.

Context (R : World → World → Prop) `{!Reflexive R, !Transitive R}.

Lemma keeps_resolve {A} (a : A) : keeps R (resolve a).
Proof. intros w. simpl. reflexivity. Qed.

Lemma keeps_throw {A} (e : Thrown) : keeps R (@throw A e).
Proof. intros w. simpl. reflexivity. Qed.

Lemma keeps_getWorld : keeps R getWorld.
Proof. intros w. simpl. reflexivity. Qed.

Lemma keeps_await {A C} (m : Promise A) (k : A → Promise C) :
  keeps R m → (∀ a, keeps R (k a)) → keeps R (await m k).
Proof.
  intros Hm Hk w. unfold await. specialize (Hm w).
  destruct (m w) as [[a|e] w1]; simpl in *; [|done].
  etrans; [exact Hm|]. apply Hk.
Qed.

Lemma keeps_when (c : bool) (body : Promise unit) : keeps R body → keeps R (when c body).
Proof. intros Hb. destruct c; [done|]. apply keeps_resolve. Qed.

Lemma keeps_reads {A} (m : Promise A) : (∀ w, snd (m w) = w) → keeps R m.
Proof. intros Hm w. rewrite Hm. reflexivity. Qed.

Lemma keeps_findOne id tenantId : keeps R (StudentsService.findOne id tenantId).
Proof.
  apply keeps_reads. intros w. rewrite findOne_eq.
  destruct (students w !! id); [by case_bool_decide | done].
Qed.

End Keeps.

#[local] Instance sameAudit_refl : Reflexive sameAudit.
Proof. by intros w. Qed.

#[local] Instance sameAudit_trans : Transitive sameAudit.
Proof. intros w1 w2 w3 [H1 H2] [H3 H4]. split; congruence. Qed.

#[local] Instance sameAccounts_refl : Reflexive sameAccounts.
Proof. intros w k. by destruct (users w !! k). Qed.

#[local] Instance sameAccounts_trans : Transitive sameAccounts.
Proof.
  intros w1 w2 w3 H12 H23 k. specialize (H12 k). specialize (H23 k).
  destruct (users w1 !! k), (users w2 !! k), (users w3 !! k); try done.
  destruct H12 as (? & ? & ? & ?), H23 as (? & ? & ? & ?). repeat split; congruence.
Qed.

#[local] Instance sameOtherStudents_refl id : Reflexive (sameOtherStudents id).
Proof. by intros w j. Qed.

#[local] Instance sameOtherStudents_trans id : Transitive (sameOtherStudents id).
Proof. intros w1 w2 w3 H12 H23 j Hj. by rewrite H23, H12. Qed.

Section UpdateFrame.

Implicit Types (w : World) (id tenantId : string) (dto : UpdateStudentDto.t).

Lemma user_update_email_sameAudit uid email : keeps sameAudit (Prisma.user_update_email uid email).
Proof.
  intros w. unfold Prisma.user_update_email.
  destruct (users w !! uid); [|done]. by destruct (bool_decide _).
Qed.

Lemma user_update_email_sameOtherStudents id uid email :
  keeps (sameOtherStudents id) (Prisma.user_update_email uid email).
Proof.
  intros w. unfold Prisma.user_update_email.
  destruct (users w !! uid); [|done]. by destruct (bool_decide _).
Qed.

Lemma user_update_email_sameAccounts uid email :
  keeps sameAccounts (Prisma.user_update_email uid email).
Proof.
  intros w. unfold Prisma.user_update_email.
  destruct (users w !! uid) as [u|] eqn:Hu; [|reflexivity].
  destruct (bool_decide _); [reflexivity|]. intros k; simpl.
  destruct (decide (k = uid)) as [->|Hk].
  - by rewrite Hu, lookup_insert_eq.
  - rewrite lookup_insert_ne by done. by destruct (users w !! k).
Qed.

Lemma student_update_sameAudit q d : keeps sameAudit (Prisma.student_update q d).
Proof.
  intros w. unfold Prisma.student_update.
  destruct (Prisma.selectStudent q (students w)) as [[k s]|]; [|done].
  destruct (Prisma.fitsStudentData d s); simpl; [|done].
  by destruct (Prisma.nephTaken _ _ _).
Qed.

Lemma student_update_sameAccounts q d : keeps sameAccounts (Prisma.student_update q d).
Proof.
  intros w. unfold Prisma.student_update.
  destruct (Prisma.selectStudent q (students w)) as [[k s]|]; [|reflexivity].
  destruct (Prisma.fitsStudentData d s); simpl; [|reflexivity].
  destruct (Prisma.nephTaken _ _ _); [reflexivity|].
  intros j; simpl. by destruct (users w !! j).
Qed.

Lemma student_update_sameOtherStudents id d :
  keeps (sameOtherStudents id) (Prisma.student_update (StudentsService.byId id) d).
Proof.
  intros w. unfold Prisma.student_update. rewrite selectStudent_byId.
  destruct (students w !! id) as [s|]; simpl; [|done].
  destruct (Prisma.fitsStudentData d s); simpl; [|done].
  destruct (Prisma.nephTaken _ _ _); [done|].
  intros j Hj; simpl. by rewrite lookup_insert_ne.
Qed.

(** [update] is built from reads, the write of the account's email and the
    write of the student row: a relation that those keep is kept by
    [update]. *)
Lemma keeps_update (R : World → World → Prop) `{!Reflexive R, !Transitive R}
    id dto tenantId :
  (∀ uid email, keeps R (Prisma.user_update_email uid email)) →
  (∀ d, keeps R (Prisma.student_update (StudentsService.byId id) d)) →
  keeps R (StudentsService.update id dto tenantId).
Proof.
  intros Huser Hstudent. unfold StudentsService.update.
  apply keeps_await; [done|apply keeps_findOne; done|]. intros _.
  apply keeps_await; [done| |].
  { apply keeps_when; [done|]. apply keeps_await; [done|by apply keeps_reads|].
    intros [student|]; [|by apply keeps_throw].
    apply keeps_await; [done|by apply keeps_reads|]. intros existingUser.
    apply keeps_await; [done| |].
    - apply keeps_when; [done|]. by apply keeps_throw.
    - intros _. apply keeps_await; [done|apply Huser|]. intros _. by apply keeps_resolve. }
  intros _. apply keeps_await; [done| |].
  { apply keeps_when; [done|]. apply keeps_await; [done|by apply keeps_reads|].
    intros existingNeph. apply keeps_when; [done|]. by apply keeps_throw. }
  intros _. unfold Prisma.student_update_include.
  apply keeps_await; [done|apply Hstudent|]. intros s.
  apply keeps_await; [done|by apply keeps_getWorld|]. intros w. by apply keeps_resolve.
Qed.

End UpdateFrame.

(** ** What [update] leaves alone, and what it does not *)

(** [update] is not audited: whatever its outcome, the audit table and the
    logger are as before. This includes the calls that overwrite
    [minutesPurchased]: when the DTO carries [minutesPurchased] and the call
    resolves, the stored value is the DTO's, whatever it was before and
    however many minutes were used. *)
Theorem update_writes_no_audit_record :
  ∀ (id : string) (dto : UpdateStudentDto.t) (tenantId : string) (w : World),
    (auditLogs (snd (StudentsService.update id dto tenantId w)) = auditLogs w
     ∧ loggerOutput (snd (StudentsService.update id dto tenantId w)) = loggerOutput w)
    ∧ ∀ r w' x,
        StudentsService.update id dto tenantId w = (Resolved r, w') →
        UpdateStudentDto.minutesPurchased dto = Some x →
        students w' !! id = Some (StudentWithUser.student r)
        ∧ Student.minutesPurchased (StudentWithUser.student r) = x
        ∧ auditLogs w' = auditLogs w.
Proof.
  intros id dto tenantId w.
  assert (sameAudit w (snd (StudentsService.update id dto tenantId w))) as Haudit.
  { apply (keeps_update sameAudit).
    - apply user_update_email_sameAudit.
    - apply student_update_sameAudit. }
  split; [exact Haudit|].
  intros r w' x Hr Hx. rewrite Hr in Haudit. destruct Haudit as [Ha _].
  apply update_resolved_inv in Hr as (s & s' & Hs & _ & -> & Hst & ->).
  split; [by rewrite Hst, lookup_insert_eq|]. split; [|exact Ha].
  simpl. by rewrite Hx.
Qed.

(** The sample DTO sets the purchased minutes of s1 to 0 although she has
    used 300: stored, and not a line in the audit table. *)
Lemma update_writes_no_audit_record_witness :
  students (snd (StudentsService.update "s1" Sample.rename "tenant-A" Sample.world)) !! "s1"
  = Some (Prisma.applyStudentData (StudentsService.studentData Sample.rename)
            Sample.now Sample.s1)
  ∧ Student.minutesPurchased
      (Prisma.applyStudentData (StudentsService.studentData Sample.rename) Sample.now Sample.s1)
    = 0
  ∧ auditLogs (snd (StudentsService.update "s1" Sample.rename "tenant-A" Sample.world)) = [].
Proof.
  refine (proj2 (update_writes_no_audit_record "s1" Sample.rename "tenant-A" Sample.world)
            (Prisma.includeUser Sample.world
               (Prisma.applyStudentData (StudentsService.studentData Sample.rename)
                  Sample.now Sample.s1))
            _ 0 _ _).
  - vm_compute. reflexivity.
  - reflexivity.
Defined.

(** Whatever its outcome and whatever the DTO holds ([password] included),
    [update] touches no student row other than the one of its identifier,
    creates and deletes no account, and changes no account's identifier,
    password, role or tenant. *)
Theorem update_touches_one_row_and_no_credentials :
  ∀ (id : string) (dto : UpdateStudentDto.t) (tenantId : string) (w : World),
    (∀ j, j ≠ id →
          students (snd (StudentsService.update id dto tenantId w)) !! j = students w !! j)
    ∧ ∀ k,
        match users w !! k, users (snd (StudentsService.update id dto tenantId w)) !! k with
        | Some u, Some u' =>
            User.id u' = User.id u ∧ User.password u' = User.password u
            ∧ User.role u' = User.role u ∧ User.tenantId u' = User.tenantId u
        | None, None => True
        | _, _ => False
        end.
Proof.
  intros id dto tenantId w. split.
  - apply (keeps_update (sameOtherStudents id)).
    + apply user_update_email_sameOtherStudents.
    + apply student_update_sameOtherStudents.
  - apply (keeps_update sameAccounts).
    + apply user_update_email_sameAccounts.
    + apply student_update_sameAccounts.
Qed.

(** A body with a new password and a new email for s1: s2 is untouched and
    the account of s1 keeps its password. *)
Lemma update_touches_one_row_and_no_credentials_witness :
  students (snd (StudentsService.update "s1" Sample.new_credentials "tenant-A" Sample.world))
    !! "s2" = Some Sample.s2
  ∧ (User.password <$>
       users (snd (StudentsService.update "s1" Sample.new_credentials "tenant-A" Sample.world))
         !! "u-s1") = Some "$2b$10$hash"
  ∧ (User.email <$>
       users (snd (StudentsService.update "s1" Sample.new_credentials "tenant-A" Sample.world))
         !! "u-s1") = Some "julie.martin@a.fr".
Proof.
  destruct (update_touches_one_row_and_no_credentials
              "s1" Sample.new_credentials "tenant-A" Sample.world) as [Hrows _].
  split; [|split].
  - rewrite (Hrows "s2"); [reflexivity | discriminate].
  - vm_compute. reflexivity.
  - vm_compute. reflexivity.
Defined.

(** ** Scans of a table *)

Section Scans.

Context {V : Type}.
Implicit Types (m : gmap string V).

(** A scan for a condition that exactly one value meets finds that value. *)
Lemma find_rows_unique m (f : string * V → bool) k v :
  m !! k = Some v →
  f (k, v) = true →
  (∀ k' v', m !! k' = Some v' → f (k', v') = true → v' = v) →
  ∃ k', List.find f (map_to_list m) = Some (k', v).
Proof.
  intros Hk Hf Huniq. destruct (List.find f (map_to_list m)) as [[k' v']|] eqn:Hfind.
  - apply find_some in Hfind as [Hin Hf'].
    apply list_elem_of_In, elem_of_map_to_list in Hin.
    rewrite (Huniq k' v' Hin Hf'). by exists k'.
  - exfalso. eapply find_none in Hfind.
    + by rewrite Hf in Hfind.
    + by apply list_elem_of_In, elem_of_map_to_list.
Qed.

Lemma find_values_unique m (f : V → bool) k v :
  m !! k = Some v →
  f v = true →
  (∀ k' v', m !! k' = Some v' → f v' = true → v' = v) →
  List.find f (map_to_list m).*2 = Some v.
Proof.
  intros Hk Hf Huniq. destruct (List.find f (map_to_list m).*2) as [v'|] eqn:Hfind.
  - apply find_some in Hfind as [Hin Hf'].
    apply list_elem_of_In, list_elem_of_fmap in Hin as ([k' v''] & -> & Hin).
    apply elem_of_map_to_list in Hin. by rewrite (Huniq k' v'' Hin Hf').
  - exfalso. eapply find_none in Hfind.
    + by rewrite Hf in Hfind.
    + apply list_elem_of_In, list_elem_of_fmap. exists (k, v).
      split; [done|]. by apply elem_of_map_to_list.
Qed.

(** A scan for a condition that no value meets finds nothing. *)
Lemma find_values_none m (f : V → bool) :
  (∀ k v, m !! k = Some v → f v = false) →
  List.find f (map_to_list m).*2 = None.
Proof.
  intros Hnone. destruct (List.find f (map_to_list m).*2) as [v|] eqn:Hfind; [|done].
  apply find_some in Hfind as [Hin Hf].
  apply list_elem_of_In, list_elem_of_fmap in Hin as ([k v'] & -> & Hin).
  apply elem_of_map_to_list in Hin. simpl in Hf. by rewrite (Hnone k v' Hin) in Hf.
Qed.

End Scans.

Section UpdateConflicts.

Implicit Types (w : World) (id tenantId email neph : string) (dto : UpdateStudentDto.t).

(** The email step of [update] when another account has the email. *)
Lemma selectUserByEmail_other email w k other :
  users w !! k = Some other →
  User.email other = email →
  (∀ k' u, users w !! k' = Some u → User.email u = email → u = other) →
  Prisma.selectUserByEmail email (users w) = Some other.
Proof.
  intros Hk He Huniq. unfold Prisma.selectUserByEmail.
  apply (find_values_unique _ _ k); [done|by apply bool_decide_eq_true_2|].
  intros k' u Hu Hb. apply bool_decide_eq_true in Hb. by apply (Huniq k').
Qed.

Lemma update_email_taken id dto tenantId w s email k other :
  students w !! id = Some s →
  Student.tenantId s = tenantId →
  UpdateStudentDto.email dto = Some email →
  email ≠ "" →
  users w !! k = Some other →
  User.email other = email →
  (∀ k' u, users w !! k' = Some u → User.email u = email → u = other) →
  User.id other ≠ Student.userId s →
  StudentsService.update id dto tenantId w
  = (Rejected (ErrorObject ConflictException "Cet email est déjà utilisé."), w).
Proof.
  intros Hs Ht He Hne Hk Hoe Huniq Hother.
  unfold StudentsService.update, await at 1.
  rewrite (findOne_own _ _ _ _ Hs Ht). rewrite He. simpl.
  rewrite (bool_decide_eq_true_2 _ Hne). unfold await at 1, when at 1.
  unfold await at 1. rewrite student_findUnique_byId, Hs.
  unfold await at 1, Prisma.user_findUnique_email.
  rewrite (selectUserByEmail_other email w k other Hk Hoe Huniq).
  unfold await at 1, when. by rewrite (bool_decide_eq_true_2 _ Hother).
Qed.

End UpdateConflicts.

(** [update] with an email that another account already has is rejected with
    a [ConflictException] before anything is written: the world is as
    before. *)
Theorem update_refuses_an_email_in_use :
  ∀ (id : string) (dto : UpdateStudentDto.t) (tenantId : string) (w : World)
    (s : Student.t) (email k : string) (other : User.t),
    students w !! id = Some s →
    Student.tenantId s = tenantId →
    UpdateStudentDto.email dto = Some email →
    email ≠ "" →
    users w !! k = Some other →
    User.email other = email →
    (∀ k' u, users w !! k' = Some u → User.email u = email → u = other) →
    User.id other ≠ Student.userId s →
    StudentsService.update id dto tenantId w
    = (Rejected (ErrorObject ConflictException "Cet email est déjà utilisé."), w).
Proof. exact update_email_taken. Qed.

(** s1 asks for the email of the secretary. *)
Lemma update_refuses_an_email_in_use_witness :
  StudentsService.update "s1" Sample.email_of_the_secretary "tenant-A" Sample.world
  = (Rejected (ErrorObject ConflictException "Cet email est déjà utilisé."), Sample.world).
Proof.
  apply (update_refuses_an_email_in_use "s1" Sample.email_of_the_secretary "tenant-A"
           Sample.world Sample.s1 "sec@a.fr" "u-sec" Sample.secretary);
    try reflexivity; try discriminate.
  apply (proj1 (map_Forall_lookup (M := gmap string)
                  (λ _ (u : User.t), User.email u = "sec@a.fr" → u = Sample.secretary)
                  (users Sample.world))).
  unfold Sample.world; simpl.
  repeat (apply map_Forall_insert_2; [first [discriminate | reflexivity]|]).
  apply map_Forall_empty.
Defined.

Section UpdateNotAtomic.

Implicit Types (w : World) (id tenantId email neph : string) (dto : UpdateStudentDto.t).

Lemma selectStudent_byNeph neph w k2 s2 :
  students w !! k2 = Some s2 →
  Student.neph s2 = Some neph →
  (∀ k' s', students w !! k' = Some s' → Student.neph s' = Some neph → s' = s2) →
  snd <$> Prisma.selectStudent (StudentsService.byNeph neph) (students w) = Some s2.
Proof.
  intros Hk Hn Huniq. unfold Prisma.selectStudent; simpl.
  destruct (find_rows_unique (students w)
              (λ r, Prisma.matchesWhere (StudentsService.byNeph neph) r.1 r.2) k2 s2)
    as [k' ->]; [done| | |done].
  - unfold Prisma.matchesWhere; simpl. by rewrite bool_decide_eq_true_2.
  - intros k' s' Hs'. unfold Prisma.matchesWhere; simpl.
    rewrite andb_true_r. intros Hb%bool_decide_eq_true. by apply (Huniq k').
Qed.

Lemma email_free_no_clash email w uid :
  (∀ k u, users w !! k = Some u → User.email u ≠ email) →
  bool_decide (Exists (λ r : string * User.t, User.email r.2 = email ∧ r.1 ≠ uid)
                 (map_to_list (users w))) = false.
Proof.
  intros Hfree. apply bool_decide_eq_false_2. intros Hex.
  apply Exists_exists in Hex as ([k u] & Hin & He & _).
  apply elem_of_map_to_list in Hin. by apply (Hfree k u).
Qed.

Lemma update_email_then_neph_taken id dto tenantId w s email account neph k2 s2 :
  students w !! id = Some s →
  Student.tenantId s = tenantId →
  UpdateStudentDto.email dto = Some email →
  email ≠ "" →
  (∀ k u, users w !! k = Some u → User.email u ≠ email) →
  users w !! Student.userId s = Some account →
  UpdateStudentDto.neph dto = Some neph →
  neph ≠ "" →
  students w !! k2 = Some s2 →
  Student.neph s2 = Some neph →
  (∀ k' s', students w !! k' = Some s' → Student.neph s' = Some neph → s' = s2) →
  Student.id s2 ≠ id →
  StudentsService.update id dto tenantId w
  = (Rejected (ErrorObject ConflictException "Ce numéro NEPH est déjà utilisé."),
     with_users
       (insert (Student.userId s)
          (User.mk (User.id account) email (User.password account) (User.role account)
             (User.tenantId account))) w).
Proof.
  intros Hs Ht He Hne Hfree Hacc Hn Hnne Hk2 Hn2 Huniq Hother.
  unfold StudentsService.update, await at 1.
  rewrite (findOne_own _ _ _ _ Hs Ht). rewrite He, Hn. simpl.
  rewrite (bool_decide_eq_true_2 _ Hne), (bool_decide_eq_true_2 _ Hnne).
  unfold await at 1, when at 1.
  unfold await at 1. rewrite student_findUnique_byId, Hs.
  unfold await at 1, Prisma.user_findUnique_email.
  unfold Prisma.selectUserByEmail. rewrite find_values_none; last first.
  { intros k u Hu. apply bool_decide_eq_false_2. by apply (Hfree k). }
  unfold await at 1, when at 1, resolve at 1.
  unfold await at 1, Prisma.user_update_email. rewrite Hacc.
  rewrite (email_free_no_clash email w _ Hfree).
  unfold resolve at 1. unfold await at 1, when at 1.
  unfold await at 1, Prisma.student_findUnique; simpl.
  rewrite (selectStudent_byNeph neph w k2 s2 Hk2 Hn2 Huniq).
  unfold when. by rewrite (bool_decide_eq_true_2 _ Hother).
Qed.

End UpdateNotAtomic.

(** [update] is not atomic. With an email that no account has and a NEPH that
    another student has, the call is rejected with the NEPH
    [ConflictException], and by then the email of the student's account has
    been replaced by the new one: the rejected call leaves that write
    behind. *)
Theorem update_rejected_for_neph_has_changed_the_email :
  ∀ (id : string) (dto : UpdateStudentDto.t) (tenantId : string) (w : World)
    (s : Student.t) (email : string) (account : User.t)
    (neph k2 : string) (s2 : Student.t),
    students w !! id = Some s →
    Student.tenantId s = tenantId →
    UpdateStudentDto.email dto = Some email →
    email ≠ "" →
    (∀ k u, users w !! k = Some u → User.email u ≠ email) →
    users w !! Student.userId s = Some account →
    UpdateStudentDto.neph dto = Some neph →
    neph ≠ "" →
    students w !! k2 = Some s2 →
    Student.neph s2 = Some neph →
    (∀ k' s', students w !! k' = Some s' → Student.neph s' = Some neph → s' = s2) →
    Student.id s2 ≠ id →
    StudentsService.update id dto tenantId w
    = (Rejected (ErrorObject ConflictException "Ce numéro NEPH est déjà utilisé."),
       with_users
         (insert (Student.userId s)
            (User.mk (User.id account) email (User.password account) (User.role account)
               (User.tenantId account))) w).
Proof. exact update_email_then_neph_taken. Qed.

(** s1 asks for a new email and for the NEPH of s3. *)
Lemma update_rejected_for_neph_has_changed_the_email_witness :
  fst (StudentsService.update "s1" Sample.new_email_and_neph_of_s3 "tenant-A"
         Sample.world_with_prospect)
  = Rejected (ErrorObject ConflictException "Ce numéro NEPH est déjà utilisé.")
  ∧ (User.email <$>
       users (snd (StudentsService.update "s1" Sample.new_email_and_neph_of_s3 "tenant-A"
                     Sample.world_with_prospect)) !! "u-s1")
    = Some "julie.martin@a.fr".
Proof.
  rewrite (update_rejected_for_neph_has_changed_the_email
             "s1" Sample.new_email_and_neph_of_s3 "tenant-A" Sample.world_with_prospect
             Sample.s1 "julie.martin@a.fr" Sample.user_s1 "123456789012" "s3" Sample.s3);
    [split; reflexivity | try reflexivity; try discriminate ..].
  - apply (proj1 (map_Forall_lookup (M := gmap string)
                    (λ _ (u : User.t), User.email u ≠ "julie.martin@a.fr")
                    (users Sample.world_with_prospect))).
    unfold Sample.world_with_prospect, Sample.world; simpl.
    repeat (apply map_Forall_insert_2; [discriminate|]).
    apply map_Forall_empty.
  - apply (proj1 (map_Forall_lookup (M := gmap string)
                    (λ _ (s' : Student.t),
                       Student.neph s' = Some "123456789012" → s' = Sample.s3)
                    (students Sample.world_with_prospect))).
    unfold Sample.world_with_prospect, Sample.world; simpl.
    repeat (apply map_Forall_insert_2; [first [discriminate | reflexivity]|]).
    apply map_Forall_empty.
Defined.

(** * Further properties of the guards *)

Section Chains.

Implicit Types (w : World) (payload : JwtPayload.t) (u : User.t) (req : Request.t).

(** The principal of a stored account. *)
Lemma jwtAuthGuard_existing payload u w user handlerRoles classRoles :
  users w !! JwtPayload.sub payload = Some u →
  JwtAuthGuard.canActivate
    (ExecutionContext.mk (Request.mk (VerifiedCredential payload) user) handlerRoles classRoles)
    w
  = Resolved
      (true,
       ExecutionContext.mk
         (Request.mk (VerifiedCredential payload)
            (Some (Principal.mk (User.id u) (User.email u) (User.tenantId u) (User.role u))))
         handlerRoles classRoles).
Proof.
  intros Hu. unfold JwtAuthGuard.canActivate; simpl.
  by rewrite (validate_existing payload w u Hu).
Qed.

(** No principal for a subject that is not stored. *)
Lemma validate_missing payload w :
  users w !! JwtPayload.sub payload = None →
  JwtStrategy.validate payload w
  = (Rejected (ErrorObject UnauthorizedException "Utilisateur invalide ou supprimé"), w).
Proof.
  intros Hu. unfold JwtStrategy.validate, AuthService.validateUser, await,
    Prisma.user_findUnique_id. by rewrite Hu.
Qed.

End Chains.

(** [JwtStrategy.validate] uses the subject of the credential and nothing else
    of it: the principal has the identifier, email, tenant and role of the
    stored account, whatever [tenantId] and [role] the credential claims, so
    two credentials for the same subject resolve alike. *)
Theorem validate_takes_tenant_and_role_from_the_store :
  ∀ (payload payload' : JwtPayload.t) (w : World),
    JwtPayload.sub payload = JwtPayload.sub payload' →
    JwtStrategy.validate payload w = JwtStrategy.validate payload' w
    ∧ ∀ u, users w !! JwtPayload.sub payload = Some u →
           JwtStrategy.validate payload w
           = (Resolved
                {| Principal.userId := User.id u;
                   Principal.email := User.email u;
                   Principal.tenantId := User.tenantId u;
                   Principal.role := User.role u |}, w).
Proof.
  intros payload payload' w Hsub. split.
  - unfold JwtStrategy.validate. by rewrite Hsub.
  - intros u Hu. apply (validate_existing payload w u Hu).
Qed.

(** The instructor presents a credential that claims to be an admin of
    tenant-B: the principal is the instructor of tenant-A. *)
Lemma validate_takes_tenant_and_role_from_the_store_witness :
  JwtStrategy.validate (JwtPayload.mk "u-ins" "tenant-B" "ADMIN" None None) Sample.world
  = (Resolved (Principal.mk "u-ins" "ins@a.fr" "tenant-A" INSTRUCTOR), Sample.world).
Proof.
  apply (proj2 (validate_takes_tenant_and_role_from_the_store
                  (JwtPayload.mk "u-ins" "tenant-B" "ADMIN" None None)
                  (Sample.payload Sample.instructor) Sample.world eq_refl)
           Sample.instructor).
  reflexivity.
Defined.

(** Closes a case of a role table: the verdict was computed, and [H] says
    whether the role is one of the admitted ones. *)
Ltac role_case H :=
  first
    [ reflexivity
    | exfalso;
      first
        [ apply H; first [ left; reflexivity | right; split; [reflexivity | discriminate] ]
        | let H' := fresh in
          destruct H as [H | [H H']]; first [ discriminate | by apply H' ] ] ].

(** The verdict of the guards of the students controller for a stored account. *)
Lemma students_controller_verdict :
  ∀ (h : StudentsController.Handler) (payload : JwtPayload.t) (user : option Principal.t)
    (u : User.t) (w : World),
    users w !! JwtPayload.sub payload = Some u →
    let run :=
      StudentsController.activate h (Request.mk (VerifiedCredential payload) user) w in
    evaluated run = [JwtAuthGuard_; RolesGuard_]
    ∧ ((User.role u = ADMIN ∨ (User.role u = SECRETARY ∧ h ≠ StudentsController.remove)) →
       verdict run
       = Resolved
           (StudentsController.context h
              (Request.mk (VerifiedCredential payload)
                 (Some (Principal.mk (User.id u) (User.email u) (User.tenantId u)
                          (User.role u))))))
    ∧ (¬ (User.role u = ADMIN ∨ (User.role u = SECRETARY ∧ h ≠ StudentsController.remove)) →
       verdict run = Rejected (ErrorObject ForbiddenException "Forbidden resource")).
Proof.
  intros h payload user u w Hu run. subst run.
  unfold StudentsController.activate, StudentsController.guards, StudentsController.context.
  cbn [tryActivate guard_canActivate].
  rewrite (jwtAuthGuard_existing payload u w user _ _ Hu).
  destruct u as [uid email password role tenant]; cbn [User.role User.id User.email User.tenantId].
  destruct h, role; cbn; (split; [reflexivity|]); split; intros H; role_case H.
Qed.

(** The students controller, guard chain included: with a credential that
    verifies for a stored account, both guards are evaluated and the request
    reaches the handler exactly when the account is an admin, or a secretary
    on a route other than [remove]; every other account gets the 403 of the
    role check. What the credential claims as role plays no part. *)
Theorem students_controller_admits_admins_and_secretaries :
  ∀ (h : StudentsController.Handler) (payload : JwtPayload.t) (user : option Principal.t)
    (u : User.t) (w : World),
    users w !! JwtPayload.sub payload = Some u →
    let run :=
      StudentsController.activate h (Request.mk (VerifiedCredential payload) user) w in
    evaluated run = [JwtAuthGuard_; RolesGuard_]
    ∧ ((User.role u = ADMIN ∨ (User.role u = SECRETARY ∧ h ≠ StudentsController.remove)) →
       verdict run
       = Resolved
           (StudentsController.context h
              (Request.mk (VerifiedCredential payload)
                 (Some (Principal.mk (User.id u) (User.email u) (User.tenantId u)
                          (User.role u))))))
    ∧ (¬ (User.role u = ADMIN ∨ (User.role u = SECRETARY ∧ h ≠ StudentsController.remove)) →
       verdict run = Rejected (ErrorObject ForbiddenException "Forbidden resource")).
Proof. exact students_controller_verdict. Qed.

(** The secretary may archive, and may not remove. *)
Lemma students_controller_admits_admins_and_secretaries_witness :
  verdict (StudentsController.activate StudentsController.archive
             (Sample.request Sample.secretary) Sample.world)
  = Resolved
      (StudentsController.context StudentsController.archive
         (Request.mk (VerifiedCredential (Sample.payload Sample.secretary))
            (Some (Sample.principal Sample.secretary))))
  ∧ verdict (StudentsController.activate StudentsController.remove
               (Sample.request Sample.secretary) Sample.world)
    = Rejected (ErrorObject ForbiddenException "Forbidden resource").
Proof.
  split.
  - apply (proj1 (proj2 (students_controller_admits_admins_and_secretaries
                           StudentsController.archive (Sample.payload Sample.secretary) None
                           Sample.secretary Sample.world eq_refl))).
    right. split; [reflexivity | discriminate].
  - apply (proj2 (proj2 (students_controller_admits_admins_and_secretaries
                           StudentsController.remove (Sample.payload Sample.secretary) None
                           Sample.secretary Sample.world eq_refl))).
    intros [H | [_ H]]; [discriminate | by apply H].
Defined.

(** The order of the guards is load-bearing. A chain that starts with the
    role check, on a route with declared roles, ends in a [TypeError] (a 500)
    for every request that has no principal yet, valid credential or not; a
    chain that starts with the tenant check refuses every such request with a
    403. In both cases the authentication guard is never evaluated. *)
Theorem guards_before_authentication_refuse_everyone :
  ∀ (credential : Credential) (handlerRoles classRoles : option (list Role))
    (r : Role) (R : list Role) (rest : list Guard) (w : World),
    let context := ExecutionContext.mk (Request.mk credential None) handlerRoles classRoles in
    (getAllAndOverride [handlerRoles; classRoles] = Some (r :: R) →
     tryActivate (RolesGuard_ :: rest) context w
     = mkGuardRun [RolesGuard_] (Rejected TypeError_role)
     ∧ httpStatus TypeError_role = 500)
    ∧ tryActivate (TenantGuard_ :: rest) context w
      = mkGuardRun [TenantGuard_] (Rejected (ErrorObject ForbiddenException "Forbidden resource")).
Proof.
  intros credential handlerRoles classRoles r R rest w context. subst context. split.
  - intros HR. cbn [tryActivate guard_canActivate]. unfold RolesGuard.canActivate.
    cbn [ExecutionContext.handlerRoles ExecutionContext.classRoles
         ExecutionContext.request Request.user].
    rewrite HR. done.
  - done.
Qed.

(** The admin with a valid credential, on a chain that checks roles first. *)
Lemma guards_before_authentication_refuse_everyone_witness :
  tryActivate [RolesGuard_; JwtAuthGuard_]
    (ExecutionContext.mk (Sample.request Sample.admin) None (Some [ADMIN; SECRETARY]))
    Sample.world
  = mkGuardRun [RolesGuard_] (Rejected TypeError_role).
Proof.
  apply (proj1 (guards_before_authentication_refuse_everyone
                  (VerifiedCredential (Sample.payload Sample.admin)) None
                  (Some [ADMIN; SECRETARY]) ADMIN [SECRETARY] [JwtAuthGuard_] Sample.world)).
  reflexivity.
Defined.

(** The chain that tenant.guard.ts documents (JwtAuthGuard, TenantGuard,
    RolesGuard): a request that gets through it carries a principal, the
    principal is the one of a stored account, its tenant is not empty, and its
    role passed the role check. *)
Theorem documented_chain_hands_over_a_scoped_principal :
  ∀ (context context' : ExecutionContext.t) (w : World),
    verdict (tryActivate [JwtAuthGuard_; TenantGuard_; RolesGuard_] context w)
    = Resolved context' →
    ∃ payload u,
      Request.credential (ExecutionContext.request context) = VerifiedCredential payload
      ∧ users w !! JwtPayload.sub payload = Some u
      ∧ Request.user (ExecutionContext.request context')
        = Some (Principal.mk (User.id u) (User.email u) (User.tenantId u) (User.role u))
      ∧ User.tenantId u ≠ ""
      ∧ RolesGuard.canActivate context' = Resolved true.
Proof.
  intros [[credential user] handlerRoles classRoles] context' w.
  cbn [tryActivate guard_canActivate]. unfold JwtAuthGuard.canActivate; simpl.
  destruct credential as [| |payload]; simpl; [discriminate..|].
  destruct (users w !! JwtPayload.sub payload) as [u|] eqn:Hu.
  - rewrite (validate_existing payload w u Hu); simpl.
    unfold TenantGuard.canActivate; simpl.
    case_bool_decide as Htenant; simpl; [|discriminate].
    destruct (RolesGuard.canActivate _) as [[]|e] eqn:Hroles; simpl; try discriminate.
    intros [= <-]. exists payload, u. by rewrite Hroles.
  - rewrite (validate_missing payload w Hu). discriminate.
Qed.

(** The secretary of tenant-A through the documented chain, on a route of the
    students controller. *)
Lemma documented_chain_hands_over_a_scoped_principal_witness :
  ∃ payload u,
    VerifiedCredential (Sample.payload Sample.secretary) = VerifiedCredential payload
    ∧ users Sample.world !! JwtPayload.sub payload = Some u
    ∧ Some (Sample.principal Sample.secretary)
      = Some (Principal.mk (User.id u) (User.email u) (User.tenantId u) (User.role u))
    ∧ User.tenantId u ≠ ""
    ∧ RolesGuard.canActivate
        (StudentsController.context StudentsController.findOne
           (Request.mk (VerifiedCredential (Sample.payload Sample.secretary))
              (Some (Sample.principal Sample.secretary))))
      = Resolved true.
Proof.
  apply (documented_chain_hands_over_a_scoped_principal
           (StudentsController.context StudentsController.findOne
              (Sample.request Sample.secretary))
           (StudentsController.context StudentsController.findOne
              (Request.mk (VerifiedCredential (Sample.payload Sample.secretary))
                 (Some (Sample.principal Sample.secretary))))
           Sample.world).
  reflexivity.
Defined.

(** * Further properties: lists, hours, sessions, routes *)

(** ** Ordered answers of the store *)

Section Ordered.

Context {A : Type} (createdAt : A → DateTime).

#[local] Instance newestFirst_total : Total (Prisma.newestFirst createdAt).
Proof.
  intros x y. unfold Prisma.newestFirst.
  destruct (createdAt x) as [tx], (createdAt y) as [ty].
  destruct (String.leb_total tx ty); auto.
Qed.

(** The ordered answer has the rows that meet the condition, and only
    those. *)
Lemma elem_of_ordered_filter (f : A → bool) (l : list A) (x : A) :
  x ∈ merge_sort (Prisma.newestFirst createdAt) (List.filter f l) ↔ x ∈ l ∧ f x = true.
Proof.
  rewrite merge_sort_Permutation, !list_elem_of_In. apply filter_In.
Qed.

Lemma ordered_filter_Sorted (f : A → bool) (l : list A) :
  Sorted (Prisma.newestFirst createdAt)
    (merge_sort (Prisma.newestFirst createdAt) (List.filter f l)).
Proof. apply (Sorted_merge_sort _). Qed.

Lemma ordered_filter_length (f : A → bool) (l : list A) :
  length (merge_sort (Prisma.newestFirst createdAt) (List.filter f l))
  = length (List.filter f l).
Proof. by rewrite merge_sort_Permutation. Qed.

End Ordered.

Lemma student_of_includeUser w (l : list Student.t) :
  StudentWithUser.student <$> (Prisma.includeUser w <$> l) = l.
Proof. rewrite <- list_fmap_compose. by rewrite <- (list_fmap_id l) at 2. Qed.

Lemma elem_of_rows {V} (m : gmap string V) (v : V) :
  v ∈ (map_to_list m).*2 ↔ ∃ k, m !! k = Some v.
Proof.
  rewrite list_elem_of_fmap. split.
  - intros ([k v'] & -> & Hin). exists k. by apply elem_of_map_to_list.
  - intros [k Hk]. exists (k, v). split; [done|]. by apply elem_of_map_to_list.
Qed.

(** [findAll] always resolves and changes nothing. The students it lists are
    exactly the stored students of the given tenant, without the archived
    ones unless [includeArchived] is set; no student of another tenant is
    ever in the list. The list is ordered by creation date, newest first, and
    each entry carries its own account. *)
Theorem findAll_lists_the_students_of_the_tenant :
  ∀ (tenantId : string) (includeArchived : bool) (w : World),
    ∃ rows,
      StudentsService.findAll tenantId includeArchived w = (Resolved rows, w)
      ∧ (∀ s, s ∈ (StudentWithUser.student <$> rows)
              ↔ (∃ k, students w !! k = Some s)
                ∧ Student.tenantId s = tenantId
                ∧ (includeArchived = false → Student.archivedAt s = None))
      ∧ Sorted (Prisma.newestFirst Student.createdAt) (StudentWithUser.student <$> rows)
      ∧ (∀ r, r ∈ rows → r = Prisma.includeUser w (StudentWithUser.student r)).
Proof.
  intros tenantId includeArchived w. eexists. split; [reflexivity|].
  rewrite student_of_includeUser. split; [|split].
  - intros s. rewrite elem_of_ordered_filter, elem_of_rows.
    unfold Prisma.matchesStudentWhere; simpl.
    rewrite andb_true_iff, bool_decide_eq_true. destruct includeArchived; simpl.
    + intuition discriminate.
    + rewrite bool_decide_eq_true. intuition.
  - apply ordered_filter_Sorted.
  - intros r (s & -> & _)%list_elem_of_fmap. done.
Qed.

(** In the sample school the list of tenant-A has s1 and not the archived s6
    nor s2 of tenant-B. *)
Lemma findAll_lists_the_students_of_the_tenant_witness :
  ∃ rows,
    StudentsService.findAll "tenant-A" false Sample.school = (Resolved rows, Sample.school)
    ∧ Sample.s1 ∈ (StudentWithUser.student <$> rows)
    ∧ (Sample.s6_archived ∉ (StudentWithUser.student <$> rows))
    ∧ (Sample.s2 ∉ (StudentWithUser.student <$> rows)).
Proof.
  destruct (findAll_lists_the_students_of_the_tenant "tenant-A" false Sample.school)
    as (rows & Hrows & Hin & _).
  exists rows. split; [exact Hrows|]. split; [|split].
  - apply Hin. split; [by exists "s1"|]. split; [reflexivity|]. reflexivity.
  - intros (_ & _ & Harchived)%Hin. specialize (Harchived eq_refl). discriminate.
  - intros (_ & Htenant & _)%Hin. discriminate.
Defined.

(** ** The hours of a student *)

(** [GET /students/:id/hours] for a student of the principal's tenant: the
    minutes are the stored ones, the remaining minutes their difference, and
    each count of hours is the count of minutes divided by 60 and rounded
    down, so it accounts for all but less than an hour of the minutes. The
    displayed hours need not add up: the remaining hours are the purchased
    hours minus the used hours, or one less. *)
Theorem getHours_rounds_each_count_down :
  ∀ (id : string) (req : Request.t) (user : Principal.t) (w : World) (s : Student.t),
    Request.user req = Some user →
    students w !! id = Some s →
    Student.tenantId s = Principal.tenantId user →
    ∃ hours,
      StudentsController.getHours_handler id req w = (Resolved hours, w)
      ∧ StudentsController.minutesPurchased hours = Student.minutesPurchased s
      ∧ StudentsController.minutesUsed hours = Student.minutesUsed s
      ∧ StudentsController.minutesRemaining hours
        = Student.minutesPurchased s - Student.minutesUsed s
      ∧ 60 * StudentsController.hoursRemaining hours
        ≤ StudentsController.minutesRemaining hours
        < 60 * StudentsController.hoursRemaining hours + 60
      ∧ 60 * StudentsController.hoursPurchased hours
        ≤ StudentsController.minutesPurchased hours
        < 60 * StudentsController.hoursPurchased hours + 60
      ∧ 60 * StudentsController.hoursUsed hours
        ≤ StudentsController.minutesUsed hours
        < 60 * StudentsController.hoursUsed hours + 60
      ∧ StudentsController.hoursPurchased hours - StudentsController.hoursUsed hours - 1
        ≤ StudentsController.hoursRemaining hours
        ≤ StudentsController.hoursPurchased hours - StudentsController.hoursUsed hours.
Proof.
  intros id req user w s Hu Hs Ht. unfold StudentsController.getHours_handler. rewrite Hu.
  unfold await at 1. rewrite (getRemainingMinutes_eq _ _ _ _ Hs Ht).
  unfold await. rewrite (findOne_own _ _ _ _ Hs Ht).
  eexists. split; [reflexivity|]. simpl.
  pose proof (Z.div_mod (Student.minutesPurchased s) 60 ltac:(lia)).
  pose proof (Z.mod_pos_bound (Student.minutesPurchased s) 60 ltac:(lia)).
  pose proof (Z.div_mod (Student.minutesUsed s) 60 ltac:(lia)).
  pose proof (Z.mod_pos_bound (Student.minutesUsed s) 60 ltac:(lia)).
  pose proof (Z.div_mod (Student.minutesPurchased s - Student.minutesUsed s) 60 ltac:(lia)).
  pose proof (Z.mod_pos_bound (Student.minutesPurchased s - Student.minutesUsed s) 60
                ltac:(lia)).
  repeat split; lia.
Qed.

(** s1: 1200 minutes bought, 300 used, so 20, 5 and 15 hours. *)
Lemma getHours_rounds_each_count_down_witness :
  ∃ hours,
    StudentsController.getHours_handler "s1"
      (Request.mk NoCredential (Some (Sample.principal Sample.secretary))) Sample.world
    = (Resolved hours, Sample.world)
    ∧ StudentsController.hoursRemaining hours = 15.
Proof.
  destruct (getHours_rounds_each_count_down "s1"
              (Request.mk NoCredential (Some (Sample.principal Sample.secretary)))
              (Sample.principal Sample.secretary) Sample.world Sample.s1
              eq_refl eq_refl eq_refl)
    as (hours & Hh & _ & _ & Hr & Hb & _).
  exists hours. split; [exact Hh|]. simpl in Hr. lia.
Defined.

(** ** Reading the audit trail *)

Section AuditReads.

Implicit Types (w : World) (q : AuditLogWhereInput.t) (l : AuditLog.t).

Lemma log_of_includeActor w (rows : list AuditLog.t) :
  AuditLogWithActor.log <$> (Prisma.includeActor w <$> rows) = rows.
Proof. rewrite <- list_fmap_compose. by rewrite <- (list_fmap_id rows) at 2. Qed.

Lemma auditLog_findMany_include_eq q take w :
  Prisma.auditLog_findMany_include q take w
  = (Resolved
       (Prisma.includeActor w
          <$> Prisma.takeRows take
                (merge_sort (Prisma.newestFirst AuditLog.createdAt)
                   (List.filter (Prisma.matchesAuditLogWhere q) (auditLogs w)))), w).
Proof. reflexivity. Qed.

Lemma Sorted_firstn {A} (R : A → A → Prop) (n : nat) (rows : list A) :
  Sorted R rows → Sorted R (firstn n rows).
Proof.
  intros Hs. revert n. induction Hs as [|x rows Hs IH Hhd]; intros [|n]; simpl;
    try constructor.
  - apply IH.
  - destruct Hhd; destruct n; simpl; constructor. done.
Qed.

End AuditReads.

(** [getLogsForEntity] and [getLogsForUser] always resolve and change
    nothing. The first answers with exactly the rows of the given tenant
    about the given entity, the second with exactly the rows of the given
    tenant by the given actor, newest first; no row of another tenant is ever
    in the answer. *)
Theorem audit_readers_answer_for_one_tenant :
  ∀ (tenantId entityType entityId userId : string) (w : World),
    (∃ rows,
       AuditService.getLogsForEntity tenantId entityType entityId w = (Resolved rows, w)
       ∧ (∀ l, l ∈ (AuditLogWithActor.log <$> rows)
               ↔ l ∈ auditLogs w ∧ AuditLog.tenantId l = tenantId
                 ∧ AuditLog.entityType l = entityType ∧ AuditLog.entityId l = entityId)
       ∧ Sorted (Prisma.newestFirst AuditLog.createdAt) (AuditLogWithActor.log <$> rows))
    ∧ (∃ rows,
         AuditService.getLogsForUser tenantId userId w = (Resolved rows, w)
         ∧ (∀ l, l ∈ rows
                 ↔ l ∈ auditLogs w ∧ AuditLog.tenantId l = tenantId
                   ∧ AuditLog.actorUserId l = userId)
         ∧ Sorted (Prisma.newestFirst AuditLog.createdAt) rows).
Proof.
  intros tenantId entityType entityId userId w. split.
  - eexists. split; [apply auditLog_findMany_include_eq|].
    rewrite log_of_includeActor; simpl. split; [|apply ordered_filter_Sorted].
    intros l. rewrite elem_of_ordered_filter. unfold Prisma.matchesAuditLogWhere; simpl.
    rewrite andb_true_r, !andb_true_iff, !bool_decide_eq_true. intuition.
  - eexists. split; [reflexivity|]. simpl. split; [|apply ordered_filter_Sorted].
    intros l. rewrite elem_of_ordered_filter. unfold Prisma.matchesAuditLogWhere; simpl.
    rewrite !andb_true_iff, !bool_decide_eq_true. intuition.
Qed.

(** [getLogs] with a limit that is a natural number always resolves and
    changes nothing: it answers with rows of the given tenant only, newest
    first, never more than [limit] of them, and with all of the tenant's rows
    when there are no more than [limit]. *)
Theorem getLogs_answers_with_the_newest_rows_of_the_tenant :
  ∀ (tenantId : string) (limit : nat) (w : World),
    ∃ rows,
      AuditService.getLogs tenantId limit w = (Resolved rows, w)
      ∧ (∀ l, l ∈ (AuditLogWithActor.log <$> rows) →
              l ∈ auditLogs w ∧ AuditLog.tenantId l = tenantId)
      ∧ (length rows ≤ limit)%nat
      ∧ ((length (List.filter (λ l, bool_decide (AuditLog.tenantId l = tenantId))
                    (auditLogs w)) ≤ limit)%nat →
         ∀ l, l ∈ auditLogs w → AuditLog.tenantId l = tenantId →
              l ∈ (AuditLogWithActor.log <$> rows))
      ∧ Sorted (Prisma.newestFirst AuditLog.createdAt) (AuditLogWithActor.log <$> rows).
Proof.
  intros tenantId limit w.
  eexists. split; [apply auditLog_findMany_include_eq|].
  rewrite log_of_includeActor; simpl.
  assert (∀ l, Prisma.matchesAuditLogWhere
                 {| AuditLogWhereInput.tenantId := Some tenantId;
                    AuditLogWhereInput.entityType := None;
                    AuditLogWhereInput.entityId := None;
                    AuditLogWhereInput.actorUserId := None |} l
               = bool_decide (AuditLog.tenantId l = tenantId)) as Hm.
  { intros l. unfold Prisma.matchesAuditLogWhere; simpl. by rewrite !andb_true_r. }
  split; [|split; [|split]].
  - intros l Hin. apply elem_of_take in Hin as (i & Hi & _).
    apply list_elem_of_lookup_2 in Hi as Hin.
    apply elem_of_ordered_filter in Hin as [Hin Hf]. split; [done|].
    rewrite Hm in Hf. by apply bool_decide_eq_true in Hf.
  - rewrite length_fmap. rewrite length_take. lia.
  - intros Hfew l Hin Ht. rewrite take_ge.
    + apply elem_of_ordered_filter. split; [done|]. rewrite Hm.
      by apply bool_decide_eq_true_2.
    + rewrite ordered_filter_length. erewrite filter_ext; [exact Hfew|]. exact Hm.
  - apply Sorted_firstn, ordered_filter_Sorted.
Qed.

(** The rows of tenant-A by the secretary. *)
Lemma audit_readers_answer_for_one_tenant_witness :
  ∃ rows,
    AuditService.getLogsForUser "tenant-A" "u-sec" Sample.school_with_audit
    = (Resolved rows, Sample.school_with_audit)
    ∧ Sample.audit_a2 ∈ rows
    ∧ (Sample.audit_b1 ∉ rows).
Proof.
  destruct (audit_readers_answer_for_one_tenant "tenant-A" "Student" "s6" "u-sec"
              Sample.school_with_audit) as (_ & rows & Hrows & Hin & _).
  exists rows. split; [exact Hrows|]. split.
  - apply Hin. split; [|split; reflexivity]. simpl. do 2 right. left.
  - intros (_ & Ht & _)%Hin. discriminate.
Defined.

(** All the rows of tenant-A, within a limit of five. *)
Lemma getLogs_answers_with_the_newest_rows_of_the_tenant_witness :
  ∃ rows,
    AuditService.getLogs "tenant-A" 5 Sample.school_with_audit
    = (Resolved rows, Sample.school_with_audit)
    ∧ Sample.audit_a1 ∈ (AuditLogWithActor.log <$> rows)
    ∧ Sample.audit_a2 ∈ (AuditLogWithActor.log <$> rows).
Proof.
  destruct (getLogs_answers_with_the_newest_rows_of_the_tenant "tenant-A" 5
              Sample.school_with_audit) as (rows & Hrows & _ & _ & Hall & _).
  exists rows. split; [exact Hrows|].
  split; apply Hall; try (simpl; lia); try reflexivity; simpl.
  - left.
  - do 2 right. left.
Defined.

Section LogThenRead.

Implicit Types (w : World) (data : AuditLogData.t) (q : AuditLogWhereInput.t).

Lemma includeActor_afterLog data w (rows : list AuditLog.t) :
  Prisma.includeActor (afterLog data w) <$> rows = Prisma.includeActor w <$> rows.
Proof.
  apply list_fmap_ext. intros _ l _. unfold Prisma.includeActor.
  by rewrite afterLog_users.
Qed.

(** A query that the new row does not meet answers as before the insert. *)
Lemma filter_afterLog_other data w q :
  Prisma.matchesAuditLogWhere q (auditRow data w) = false →
  List.filter (Prisma.matchesAuditLogWhere q) (auditLogs (afterLog data w))
  = List.filter (Prisma.matchesAuditLogWhere q) (auditLogs w).
Proof.
  intros Hno. unfold afterLog. destruct (auditCreateFault w); simpl; [done|].
  rewrite List.filter_app; simpl. rewrite Hno. by rewrite app_nil_r.
Qed.

Lemma matches_other_tenant q data w t :
  AuditLogWhereInput.tenantId q = Some t →
  t ≠ AuditLogData.tenantId data →
  Prisma.matchesAuditLogWhere q (auditRow data w) = false.
Proof.
  intros Hq Ht. unfold Prisma.matchesAuditLogWhere. rewrite Hq.
  rewrite bool_decide_eq_false_2; [done|]. simpl. congruence.
Qed.

Lemma findMany_afterLog_other data w q take :
  Prisma.matchesAuditLogWhere q (auditRow data w) = false →
  fst (Prisma.auditLog_findMany q take (afterLog data w))
  = fst (Prisma.auditLog_findMany q take w)
  ∧ fst (Prisma.auditLog_findMany_include q take (afterLog data w))
    = fst (Prisma.auditLog_findMany_include q take w).
Proof.
  intros Hno. rewrite !auditLog_findMany_include_eq. unfold Prisma.auditLog_findMany; simpl.
  rewrite (filter_afterLog_other data w q Hno). split; [done|].
  by rewrite includeActor_afterLog.
Qed.

End LogThenRead.

(** Writing and reading the audit trail. After [log] on a healthy audit
    table, the new row is in what [getLogsForEntity] answers for its tenant
    and entity, and in what [getLogsForUser] answers for its tenant and
    actor. Whatever the state of the table, what the two readers answer for
    any other tenant is what they answered before. *)
Theorem log_is_read_back_by_its_tenant_only :
  ∀ (data : AuditLogData.t) (w : World),
    let w' := snd (AuditService.log data w) in
    (auditCreateFault w = None →
     (∃ rows,
        fst (AuditService.getLogsForEntity (AuditLogData.tenantId data)
               (AuditLogData.entityType data) (AuditLogData.entityId data) w')
        = Resolved rows
        ∧ auditRow data w ∈ (AuditLogWithActor.log <$> rows))
     ∧ (∃ rows,
          fst (AuditService.getLogsForUser (AuditLogData.tenantId data)
                 (AuditLogData.actorUserId data) w')
          = Resolved rows
          ∧ auditRow data w ∈ rows))
    ∧ ∀ tenantId entityType entityId userId,
        tenantId ≠ AuditLogData.tenantId data →
        fst (AuditService.getLogsForEntity tenantId entityType entityId w')
        = fst (AuditService.getLogsForEntity tenantId entityType entityId w)
        ∧ fst (AuditService.getLogsForUser tenantId userId w')
          = fst (AuditService.getLogsForUser tenantId userId w).
Proof.
  intros data w w'. subst w'. rewrite log_eq. cbn [snd]. split.
  - intros Hok.
    assert (auditRow data w ∈ auditLogs (afterLog data w)) as Hin.
    { rewrite afterLog_auditLogs_healthy by done. set_solver. }
    split.
    + eexists. split;
        [unfold AuditService.getLogsForEntity; by rewrite auditLog_findMany_include_eq|].
      rewrite log_of_includeActor; simpl. apply elem_of_ordered_filter.
      split; [done|]. unfold Prisma.matchesAuditLogWhere; simpl.
      by rewrite !bool_decide_eq_true_2.
    + eexists. split; [reflexivity|]. apply elem_of_ordered_filter.
      split; [done|]. unfold Prisma.matchesAuditLogWhere; simpl.
      by rewrite !bool_decide_eq_true_2.
  - intros tenantId entityType entityId userId Ht.
    unfold AuditService.getLogsForEntity, AuditService.getLogsForUser.
    split; apply findMany_afterLog_other; by apply (matches_other_tenant _ _ _ tenantId).
Qed.

(** The secretary of tenant-A logs an archive of s1: tenant-A reads the row
    back, and the trail of tenant-B reads as before. *)
Lemma log_is_read_back_by_its_tenant_only_witness :
  (∃ rows,
     fst (AuditService.getLogsForUser "tenant-A" "u-admin"
            (snd (AuditService.log sample_entry Sample.school_with_audit)))
     = Resolved rows
     ∧ auditRow sample_entry Sample.school_with_audit ∈ rows)
  ∧ fst (AuditService.getLogsForEntity "tenant-B" "Student" "s2"
           (snd (AuditService.log sample_entry Sample.school_with_audit)))
    = fst (AuditService.getLogsForEntity "tenant-B" "Student" "s2" Sample.school_with_audit).
Proof.
  destruct (log_is_read_back_by_its_tenant_only sample_entry Sample.school_with_audit)
    as [Hback Hother].
  split.
  - apply Hback. reflexivity.
  - apply (Hother "tenant-B" "Student" "s2" "u-s2"). discriminate.
Defined.

(** ** Logging in *)

Section Login.

Variable bcrypt_compare : string → string → bool.
Variable sign : JwtPayload.t → string.

Implicit Types (w : World) (loginDto : LoginDto.t) (u : User.t).

Lemma login_unknown_email loginDto w :
  (∀ k u, users w !! k = Some u → User.email u ≠ LoginDto.email loginDto) →
  AuthServiceSession.login bcrypt_compare sign loginDto w
  = (Rejected (ErrorObject UnauthorizedException "Email ou mot de passe incorrect"), w).
Proof.
  intros Hnone. unfold AuthServiceSession.login, await, Prisma.user_findUnique_email.
  unfold Prisma.selectUserByEmail. rewrite find_values_none; [done|].
  intros k u Hu. apply bool_decide_eq_false_2. by apply (Hnone k).
Qed.

Lemma login_known_email loginDto w k u :
  users w !! k = Some u →
  User.email u = LoginDto.email loginDto →
  (∀ k' u', users w !! k' = Some u' → User.email u' = LoginDto.email loginDto → u' = u) →
  AuthServiceSession.login bcrypt_compare sign loginDto w
  = (if bcrypt_compare (LoginDto.password loginDto) (User.password u)
     then Resolved
            {| AuthResult.access_token :=
                 sign (JwtPayload.mk (User.id u) (User.tenantId u) (roleValue (User.role u))
                         None None);
               AuthResult.user :=
                 ValidatedUser.mk (User.id u) (User.email u) (User.role u) (User.tenantId u) |}
     else Rejected (ErrorObject UnauthorizedException "Email ou mot de passe incorrect"),
     w).
Proof.
  intros Hk He Huniq. unfold AuthServiceSession.login, await, Prisma.user_findUnique_email.
  rewrite (selectUserByEmail_other _ w k u Hk He Huniq).
  by destruct (bcrypt_compare _ _).
Qed.

End Login.

(** [login] does not tell an unknown email from a wrong password: in both
    cases it rejects with the same [UnauthorizedException], message included,
    and the world is as before. This holds for any password comparison and
    any signing function. *)
Theorem login_failures_look_alike :
  ∀ (bcrypt_compare : string → string → bool) (sign : JwtPayload.t → string)
    (loginDto : LoginDto.t) (w : World),
    let refusal :=
      (Rejected (ErrorObject UnauthorizedException "Email ou mot de passe incorrect"), w) in
    ((∀ k u, users w !! k = Some u → User.email u ≠ LoginDto.email loginDto) →
     AuthServiceSession.login bcrypt_compare sign loginDto w = refusal)
    ∧ (∀ k u,
         users w !! k = Some u →
         User.email u = LoginDto.email loginDto →
         (∀ k' u', users w !! k' = Some u' →
                   User.email u' = LoginDto.email loginDto → u' = u) →
         bcrypt_compare (LoginDto.password loginDto) (User.password u) = false →
         AuthServiceSession.login bcrypt_compare sign loginDto w = refusal).
Proof.
  intros bcrypt_compare sign loginDto w refusal. subst refusal. split.
  - apply login_unknown_email.
  - intros k u Hk He Huniq Hwrong.
    rewrite (login_known_email bcrypt_compare sign loginDto w k u Hk He Huniq).
    by rewrite Hwrong.
Qed.

(** A wrong password for the admin, and an email nobody has. *)
Lemma login_failures_look_alike_witness :
  AuthServiceSession.login Sample.compare Sample.sign
    (LoginDto.mk "admin@a.fr" "letmein") Sample.world
  = (Rejected (ErrorObject UnauthorizedException "Email ou mot de passe incorrect"),
     Sample.world)
  ∧ AuthServiceSession.login Sample.compare Sample.sign
      (LoginDto.mk "nobody@a.fr" "Password123!") Sample.world
    = (Rejected (ErrorObject UnauthorizedException "Email ou mot de passe incorrect"),
       Sample.world).
Proof.
  split.
  - apply (proj2 (login_failures_look_alike Sample.compare Sample.sign
                    (LoginDto.mk "admin@a.fr" "letmein") Sample.world)
             "u-admin" Sample.admin); try reflexivity.
    apply (proj1 (map_Forall_lookup (M := gmap string)
                    (λ _ (u : User.t), User.email u = "admin@a.fr" → u = Sample.admin)
                    (users Sample.world))).
    unfold Sample.world; simpl.
    repeat (apply map_Forall_insert_2; [first [discriminate | reflexivity]|]).
    apply map_Forall_empty.
  - apply (proj1 (login_failures_look_alike Sample.compare Sample.sign
                    (LoginDto.mk "nobody@a.fr" "Password123!") Sample.world)).
    apply (proj1 (map_Forall_lookup (M := gmap string)
                    (λ _ (u : User.t), User.email u ≠ "nobody@a.fr")
                    (users Sample.world))).
    unfold Sample.world; simpl.
    repeat (apply map_Forall_insert_2; [discriminate|]).
    apply map_Forall_empty.
Defined.

(** A successful [login] changes nothing in the store; the token it returns
    is the signature of a payload whose subject, tenant and role are those of
    the stored account, the returned user has no password field, and
    [JwtStrategy.validate] resolves that payload to the principal of the same
    account. *)
Theorem login_issues_a_token_for_the_stored_account :
  ∀ (bcrypt_compare : string → string → bool) (sign : JwtPayload.t → string)
    (loginDto : LoginDto.t) (w : World) (u : User.t),
    users w !! User.id u = Some u →
    User.email u = LoginDto.email loginDto →
    (∀ k' u', users w !! k' = Some u' → User.email u' = LoginDto.email loginDto → u' = u) →
    bcrypt_compare (LoginDto.password loginDto) (User.password u) = true →
    let payload :=
      JwtPayload.mk (User.id u) (User.tenantId u) (roleValue (User.role u)) None None in
    AuthServiceSession.login bcrypt_compare sign loginDto w
    = (Resolved
         {| AuthResult.access_token := sign payload;
            AuthResult.user :=
              ValidatedUser.mk (User.id u) (User.email u) (User.role u) (User.tenantId u) |},
       w)
    ∧ JwtStrategy.validate payload w
      = (Resolved (Principal.mk (User.id u) (User.email u) (User.tenantId u) (User.role u)),
         w).
Proof.
  intros bcrypt_compare sign loginDto w u Hk He Huniq Hright payload. subst payload. split.
  - rewrite (login_known_email bcrypt_compare sign loginDto w _ u Hk He Huniq).
    by rewrite Hright.
  - by apply validate_existing.
Qed.

Lemma login_issues_a_token_for_the_stored_account_witness :
  AuthServiceSession.login Sample.compare Sample.sign
    (LoginDto.mk "sec@a.fr" "Password123!") Sample.world
  = (Resolved
       {| AuthResult.access_token := "jwt.u-sec.tenant-A.SECRETARY";
          AuthResult.user := ValidatedUser.mk "u-sec" "sec@a.fr" SECRETARY "tenant-A" |},
     Sample.world).
Proof.
  apply (proj1 (login_issues_a_token_for_the_stored_account Sample.compare Sample.sign
                  (LoginDto.mk "sec@a.fr" "Password123!") Sample.world Sample.secretary
                  eq_refl eq_refl
                  (proj1 (map_Forall_lookup (M := gmap string)
                            (λ _ (u : User.t), User.email u = "sec@a.fr" → u = Sample.secretary)
                            (users Sample.world))
                     ltac:(unfold Sample.world; simpl;
                           repeat (apply map_Forall_insert_2;
                                   [first [discriminate | reflexivity]|]);
                           apply map_Forall_empty))
                  eq_refl)).
Defined.

(** ** The routes of the students controller, guards included *)

Section Routes.

Implicit Types (w : World) (payload : JwtPayload.t) (u : User.t).

Lemma guarded_admitted {A} h (handler : Request.t → Promise A) payload user u w :
  users w !! JwtPayload.sub payload = Some u →
  User.role u = ADMIN ∨ (User.role u = SECRETARY ∧ h ≠ StudentsController.remove) →
  StudentsController.guarded h handler (Request.mk (VerifiedCredential payload) user) w
  = handler
      (Request.mk (VerifiedCredential payload)
         (Some (Principal.mk (User.id u) (User.email u) (User.tenantId u) (User.role u)))) w.
Proof.
  intros Hu Hrole. unfold StudentsController.guarded.
  destruct (students_controller_verdict h payload user u w Hu) as (_ & -> & _); done.
Qed.

Lemma guarded_refused {A} h (handler : Request.t → Promise A) payload user u w :
  users w !! JwtPayload.sub payload = Some u →
  ¬ (User.role u = ADMIN ∨ (User.role u = SECRETARY ∧ h ≠ StudentsController.remove)) →
  StudentsController.guarded h handler (Request.mk (VerifiedCredential payload) user) w
  = (Rejected (ErrorObject ForbiddenException "Forbidden resource"), w).
Proof.
  intros Hu Hrole. unfold StudentsController.guarded.
  destruct (students_controller_verdict h payload user u w Hu) as (_ & _ & ->); done.
Qed.

End Routes.

(** A route of the students controller acts for the stored account of the
    credential's subject. For an admin or a secretary, each route below is
    the service method called with the tenant of the stored account, and
    with its identifier as the acting user of the audited mutations; neither
    the claims of the credential nor anything in the request chooses the
    tenant. For an instructor or a student every route is a 403 and the
    world is as before. *)
Theorem students_routes_act_for_the_stored_account :
  ∀ (payload : JwtPayload.t) (user : option Principal.t) (u : User.t) (w : World)
    (id : string) (minutes : Z) (dto : UpdateStudentDto.t) (includeArchived : option string),
    users w !! JwtPayload.sub payload = Some u →
    let req := Request.mk (VerifiedCredential payload) user in
    let route {A} h (handler : Request.t → Promise A) :=
      StudentsController.guarded h handler req w in
    (User.role u = ADMIN ∨ User.role u = SECRETARY →
     route StudentsController.findAll
       (λ req, StudentsController.findAll_handler req includeArchived)
     = StudentsService.findAll (User.tenantId u) (bool_decide (includeArchived = Some "true")) w
     ∧ route StudentsController.findOne (StudentsController.findOne_handler id)
       = StudentsService.findOne id (User.tenantId u) w
     ∧ route StudentsController.update (StudentsController.update_handler id dto)
       = StudentsService.update id dto (User.tenantId u) w
     ∧ route StudentsController.archive (StudentsController.archive_handler id)
       = StudentsService.archive id (User.tenantId u) (User.id u) w
     ∧ route StudentsController.restore (StudentsController.restore_handler id)
       = StudentsService.restore id (User.tenantId u) (User.id u) w
     ∧ route StudentsController.addPurchasedHours
         (StudentsController.addPurchasedHours_handler id minutes)
       = StudentsService.addPurchasedMinutes id minutes (User.tenantId u) (User.id u) w
     ∧ route StudentsController.addUsedHours
         (StudentsController.addUsedHours_handler id minutes)
       = StudentsService.addUsedMinutes id minutes (User.tenantId u) (User.id u) w)
    ∧ (User.role u = INSTRUCTOR ∨ User.role u = STUDENT →
       ∀ (A : Type) h (handler : Request.t → Promise A),
         route h handler = (Rejected (ErrorObject ForbiddenException "Forbidden resource"), w)).
Proof.
  intros payload user u w id minutes dto includeArchived Hu req route. subst req route.
  split.
  - intros Hrole.
    assert (∀ h, h ≠ StudentsController.remove →
                 User.role u = ADMIN ∨ (User.role u = SECRETARY ∧ h ≠ StudentsController.remove))
      as Hok by (intros h Hh; destruct Hrole; auto).
    repeat split; (rewrite guarded_admitted with (u := u); [reflexivity|exact Hu|]);
      by apply Hok.
  - intros Hrole A h handler. apply (guarded_refused h handler payload user u w Hu).
    intros [Hadmin|[Hsec _]]; destruct Hrole as [Hr|Hr]; congruence.
Qed.

(** The secretary of tenant-A asks for the hours of s5 and for a student of
    tenant-B; the instructor asks for s5. *)
Lemma students_routes_act_for_the_stored_account_witness :
  StudentsController.guarded StudentsController.findOne
    (StudentsController.findOne_handler "s2") (Sample.request Sample.secretary) Sample.school
  = (Rejected (ErrorObject ForbiddenException "Accès interdit à cette ressource"),
     Sample.school)
  ∧ StudentsController.guarded StudentsController.findOne
      (StudentsController.findOne_handler "9b2f6c1e-3d4a-4f8b-9c7d-1a2b3c4d5e6f")
      (Sample.request Sample.instructor) Sample.school
    = (Rejected (ErrorObject ForbiddenException "Forbidden resource"), Sample.school).
Proof.
  unfold Sample.request. split.
  - destruct (students_routes_act_for_the_stored_account
                (Sample.payload Sample.secretary) None Sample.secretary Sample.school
                "s2" 0 UpdateStudentDto.empty None eq_refl) as [Hok _].
    destruct (Hok (or_intror eq_refl)) as (_ & -> & _). reflexivity.
  - destruct (students_routes_act_for_the_stored_account
                (Sample.payload Sample.instructor) None Sample.instructor Sample.school
                "s2" 0 UpdateStudentDto.empty None eq_refl) as [_ Hno].
    apply (Hno (or_introl eq_refl)).
Defined.

(** ** The routes of the auth controller *)

Section AuthRoutes.

Implicit Types (w : World) (payload : JwtPayload.t) (u : User.t).

Lemma auth_controller_verdict h payload user u w :
  users w !! JwtPayload.sub payload = Some u →
  let req := Request.mk (VerifiedCredential payload) user in
  let principal := Principal.mk (User.id u) (User.email u) (User.tenantId u) (User.role u) in
  let admitted :=
    match h with
    | AuthController.adminOnly => User.role u = ADMIN
    | AuthController.adminOrSecretary => User.role u = ADMIN ∨ User.role u = SECRETARY
    | _ => True
    end in
  (admitted →
   verdict (AuthController.activate h req w)
   = Resolved
       (AuthController.context h
          (match AuthController.guards h with
           | [] => req
           | _ => Request.mk (VerifiedCredential payload) (Some principal)
           end)))
  ∧ (¬ admitted →
     verdict (AuthController.activate h req w)
     = Rejected (ErrorObject ForbiddenException "Forbidden resource")).
Proof.
  intros Hu req principal admitted. subst req principal admitted.
  unfold AuthController.activate, AuthController.context.
  destruct h; cbn [AuthController.guards tryActivate guard_canActivate verdict];
    try (split; [reflexivity | tauto]);
    rewrite (jwtAuthGuard_existing payload u w user _ _ Hu);
    destruct u as [uid email password role tenant];
    cbn [User.role User.id User.email User.tenantId];
    destruct role; cbn; split; intros H;
    first [ reflexivity
          | exfalso;
            first [ discriminate H
                  | destruct H; discriminate
                  | apply H; first [ exact I | reflexivity | left; reflexivity
                                   | right; reflexivity ] ] ].
Qed.

End AuthRoutes.

(** The auth controller, guards included, for a credential that verifies for
    a stored account: [register], [login] and [me] admit every role,
    [admin-only] admits admins only and [admin-or-secretary] admins and
    secretaries only; the others get a 403. The probe behind [admin-only]
    answers with the identifier, email and role of the stored account. *)
Theorem auth_controller_role_table :
  ∀ (h : AuthController.Handler) (payload : JwtPayload.t) (user : option Principal.t)
    (u : User.t) (w : World),
    users w !! JwtPayload.sub payload = Some u →
    let req := Request.mk (VerifiedCredential payload) user in
    let admitted :=
      match h with
      | AuthController.adminOnly => User.role u = ADMIN
      | AuthController.adminOrSecretary => User.role u = ADMIN ∨ User.role u = SECRETARY
      | _ => True
      end in
    (admitted → ∃ context, verdict (AuthController.activate h req w) = Resolved context)
    ∧ (¬ admitted →
       verdict (AuthController.activate h req w)
       = Rejected (ErrorObject ForbiddenException "Forbidden resource"))
    ∧ (User.role u = ADMIN →
       ∃ context,
         verdict (AuthController.activate AuthController.adminOnly req w) = Resolved context
         ∧ AuthController.adminOnly_handler (ExecutionContext.request context)
           = Resolved
               (AuthController.mkProbe "Route accessible uniquement par les ADMIN"
                  (UserSelect.mk (User.id u) (User.email u) (User.role u)))).
Proof.
  intros h payload user u w Hu req admitted. subst req admitted.
  split; [|split].
  - intros Hok. eexists. by apply (proj1 (auth_controller_verdict h payload user u w Hu)).
  - apply (proj2 (auth_controller_verdict h payload user u w Hu)).
  - intros Hadmin. eexists. split.
    + by apply (proj1 (auth_controller_verdict AuthController.adminOnly payload user u w Hu)).
    + reflexivity.
Qed.

(** The secretary on admin-only and on admin-or-secretary. *)
Lemma auth_controller_role_table_witness :
  verdict (AuthController.activate AuthController.adminOnly
             (Sample.request Sample.secretary) Sample.world)
  = Rejected (ErrorObject ForbiddenException "Forbidden resource")
  ∧ ∃ context,
      verdict (AuthController.activate AuthController.adminOrSecretary
                 (Sample.request Sample.secretary) Sample.world)
      = Resolved context.
Proof.
  split.
  - apply (proj1 (proj2 (auth_controller_role_table AuthController.adminOnly
                           (Sample.payload Sample.secretary) None Sample.secretary
                           Sample.world eq_refl))).
    discriminate.
  - apply (proj1 (auth_controller_role_table AuthController.adminOrSecretary
                    (Sample.payload Sample.secretary) None Sample.secretary
                    Sample.world eq_refl)).
    right. reflexivity.
Defined.

(** ** Requests without a valid identity *)


(** A request whose credential is missing, does not verify, or verifies for a
    subject that is no longer stored is a 401 on every route of the students
    controller and on every guarded route of the auth controller: the run
    ends at the authentication guard, the role check is not evaluated, the
    handler does not run and the world is as before. *)
Theorem unauthenticated_requests_stop_at_the_first_guard :
  ∀ (req : Request.t) (w : World),
    unauthenticated req w →
    ∃ e,
      httpStatus e = 401
      ∧ (∀ h, StudentsController.activate h req w = mkGuardRun [JwtAuthGuard_] (Rejected e))
      ∧ (∀ h, AuthController.guards h ≠ [] →
              AuthController.activate h req w = mkGuardRun [JwtAuthGuard_] (Rejected e))
      ∧ (∀ (A : Type) h (handler : Request.t → Promise A),
           StudentsController.guarded h handler req w = (Rejected e, w)).
Proof.
  intros req w Hu.
  assert (∃ e, httpStatus e = 401
               ∧ ∀ handlerRoles classRoles,
                   JwtAuthGuard.canActivate (ExecutionContext.mk req handlerRoles classRoles) w
                   = Rejected e) as (e & He & Hguard).
  { unfold unauthenticated in Hu. unfold JwtAuthGuard.canActivate; simpl.
    destruct (Request.credential req) as [| |payload].
    - by exists (ErrorObject UnauthorizedException "Unauthorized").
    - by exists (ErrorObject UnauthorizedException "Unauthorized").
    - exists (ErrorObject UnauthorizedException "Utilisateur invalide ou supprimé").
      split; [done|]. intros. by rewrite (validate_missing payload w Hu). }
  exists e. split; [exact He|].
  assert (∀ h, StudentsController.activate h req w = mkGuardRun [JwtAuthGuard_] (Rejected e))
    as Hstudents.
  { intros h. unfold StudentsController.activate, StudentsController.guards,
      StudentsController.context. cbn [tryActivate guard_canActivate]. by rewrite Hguard. }
  split; [exact Hstudents|]. split.
  - intros h Hh. unfold AuthController.activate, AuthController.context.
    destruct h; cbn [AuthController.guards] in *; try done;
      cbn [tryActivate guard_canActivate]; by rewrite Hguard.
  - intros A h handler. unfold StudentsController.guarded. by rewrite Hstudents.
Qed.

(** A credential for a deleted account on [POST /students/:id/archive]. *)
Lemma unauthenticated_requests_stop_at_the_first_guard_witness :
  ∃ e,
    httpStatus e = 401
    ∧ StudentsController.guarded StudentsController.archive
        (StudentsController.archive_handler "s1")
        (Request.mk (VerifiedCredential (JwtPayload.mk "u-deleted" "tenant-A" "ADMIN" None None))
           None)
        Sample.world
      = (Rejected e, Sample.world).
Proof.
  destruct (unauthenticated_requests_stop_at_the_first_guard
              (Request.mk
                 (VerifiedCredential (JwtPayload.mk "u-deleted" "tenant-A" "ADMIN" None None))
                 None)
              Sample.world) as (e & He & _ & _ & Hroute).
  - reflexivity.
  - exists e. split; [exact He|]. apply Hroute.
Defined.
